(** * eSubpoena Tolls Tool: record normalisation, parsing, analytics, export

    A shallow embedding of [esubpoena_tolls_tool_simple.py] and the
    properties its specification states about it.

    Python values are modelled as follows.
    - [str]: a list of Unicode code points ([list N]); literals of the source
      are written [py "..."].
    - [int]: [Z].  [float]: the exact rational it approximates ([Q]).
    - [None] where a [str] can also flow (the [.text] of an XML element, the
      raw fields the parser hands to [CallRecord]): [option].
    - [dict]: an association list in insertion order, which is the order a
      Python dict iterates in.  [set]: a [gset]; the order a set iterates in
      is not determined by its elements and is a parameter where it matters.
    - a raised exception: the [Raise] case of [result]. *)

From Stdlib Require Import ZArith NArith QArith List String Ascii Lia.
From Stdlib Require Import DecimalString.
From Stdlib Require Import Permutation Sorting.Sorted.
From stdpp Require Import gmap list.

Import ListNotations.
Local Open Scope Z_scope.
Local Open Scope nat_scope.

(** ** Python strings *)

Module PyStr.

Abbreviation pystr := (list N).

(** A source literal, one code point per character. *)
Definition py (s : string) : pystr := map N_of_ascii (list_ascii_of_string s).

(** [str(x)] for [x] a string or [None]. *)
Definition py_str (x : option pystr) : pystr :=
match x with
| Some s => s
| None => py "None"
end.

(** Code points of the digit zero of every decimal digit block (general
  category Nd, Unicode 14): [c] is a decimal digit when it lies in
  [z, z+9] for one of them.  The first entry is ASCII ['0']. *)
Definition decimal_zeros : list N :=
[48; 1632; 1776; 1984; 2406; 2534; 2662; 2790; 2918; 3046; 3174; 3302;
 3430; 3558; 3664; 3792; 3872; 4160; 4240; 6112; 6160; 6470; 6608; 6784;
 6800; 6992; 7088; 7232; 7248; 42528; 43216; 43264; 43472; 43504; 43600;
 44016; 65296; 66720; 68912; 69734; 69872; 69942; 70096; 70384; 70736;
 70864; 71248; 71360; 71472; 71904; 72016; 72784; 73040; 73120; 92768;
 92864; 93008; 120782; 120792; 120802; 120812; 120822; 123200; 123632;
 125264; 130032]%N.

(** The regular-expression class [\d] on a [str] pattern. *)
Definition is_decimal (c : N) : bool :=
existsb (fun z => (z <=? c)%N && (c <? z + 10)%N) decimal_zeros.

(** ['0'] to ['9']. *)
Definition is_ascii_digit (c : N) : bool := (48 <=? c)%N && (c <=? 57)%N.

Definition is_ascii (c : N) : bool := (c <? 128)%N.

(** [s.startswith(c)] for a one-character prefix. *)
Definition startswith1 (c : N) (s : pystr) : bool :=
match s with
| x :: _ => (x =? c)%N
| [] => false
end.

(** [s.zfill(width)]: zeros go after a leading sign. *)
Definition zfill (width : nat) (s : pystr) : pystr :=
if width <=? length s then s
else
  let zeros := repeat 48%N (width - length s) in
  match s with
  | c :: rest =>
      if (c =? 43)%N || (c =? 45)%N then c :: zeros ++ rest else zeros ++ s
  | [] => zeros
  end.

(** [s[-n:]] for [n > 0]. *)
Definition last_n (n : nat) (s : pystr) : pystr := drop (length s - n) s.

Fixpoint pystr_eqb (a b : pystr) : bool :=
match a, b with
| [], [] => true
| x :: a', y :: b' => (x =? y)%N && pystr_eqb a' b'
| _, _ => false
end.

End PyStr.

Import PyStr.

(** ** CallRecord._normalize_phone_number *)

Definition digits_only (number : option pystr) : pystr :=
  List.filter is_decimal (py_str number).

Definition _normalize_phone_number (number : option pystr) : pystr :=
  let d := digits_only number in
  if length d =? 10 then d
  else if (length d =? 11) && startswith1 49%N d then drop 1 d
  else if 10 <? length d then last_n 10 d
  else zfill 10 d.

(** The normaliser applied to a string. *)
Definition normalize (raw : pystr) : pystr := _normalize_phone_number (Some raw).

(** ** Exceptions *)

Inductive exn_class :=
  | AttributeError | ValueError | TypeError | OverflowError
  | ParseError | OSError | Exception_.

(** An exception: its class and [str(e)]. *)
Record exn := mkExn { exn_class_of : exn_class; exn_msg : pystr }.

Inductive result (A : Type) :=
  | Return (a : A)
  | Raise (e : exn).
Arguments Return {A} a.
Arguments Raise {A} e.

Definition bind {A B} (m : result A) (k : A -> result B) : result B :=
  match m with
  | Return a => k a
  | Raise e => Raise e
  end.

Notation "x <- m ;; k" := (bind m (fun x => k))
  (at level 100, m at next level, right associativity).

Definition exn_class_eqb (a b : exn_class) : bool :=
  match a, b with
  | AttributeError, AttributeError | ValueError, ValueError
  | TypeError, TypeError | OverflowError, OverflowError
  | ParseError, ParseError | OSError, OSError | Exception_, Exception_ => true
  | _, _ => false
  end.

(** [except (AttributeError, ValueError)]. *)
Definition is_attribute_or_value_error (e : exn) : bool :=
  exn_class_eqb (exn_class_of e) AttributeError
  || exn_class_eqb (exn_class_of e) ValueError.

(** Reading attribute [name] of [None]. *)
Definition none_has_no_attribute (name : string) : exn :=
  mkExn AttributeError
        (py "'NoneType' object has no attribute '" ++ py name ++ py "'").

(** ** Dates *)

(** A [datetime]; [tzinfo] is the UTC offset in seconds of an aware value. *)
Record datetime := mkDatetime {
  year : Z; month : Z; day : Z;
  hour : Z; minute : Z; second : Z; microsecond : Z;
  tzinfo : option Z
}.

(** [d.replace(tzinfo=None)]: the fields stay, the offset goes. *)
Definition replace_tzinfo_none (d : datetime) : datetime :=
  mkDatetime (year d) (month d) (day d) (hour d) (minute d) (second d)
             (microsecond d) None.

(** [s.replace('Z', '+00:00')]. *)
Definition replace_Z (s : pystr) : pystr :=
  flat_map (fun c => if (c =? 90)%N then py "+00:00" else [c]) s.

(** ** CallRecord *)

(** [direction] and [remote_number] hold what the caller passed, which for
    the parser is the [.text] of an element: [None] when it has no text. *)
Record CallRecord := mkCallRecord {
  direction : option pystr;
  remote_number : option pystr;
  normalized_number : pystr;
  target_number : pystr;
  source_file : pystr;
  start_time : datetime;
  end_time : datetime;
  length_of_call : Z;
  duration_minutes : Q;
  date : pystr;
  time : pystr;
  date_time : pystr;
  day_of_week : pystr
}.

(** Truth value of a string: non-empty. *)
Definition truthy (s : pystr) : bool :=
  match s with [] => false | _ => true end.

(** [float(n)] raises [OverflowError] when [n] rounds to [2^1024] or more. *)
Definition int_too_large_for_float (n : Z) : bool :=
  (2 ^ 1024 - 2 ^ 970 <=? Z.abs n)%Z.

Section CallRecordInit.

(** [datetime.fromisoformat]: [None] stands for its [ValueError]. *)
Variable fromisoformat : pystr -> option datetime.
(** [d.strftime(format)]. *)
Variable strftime : datetime -> pystr -> pystr.

(** [datetime.fromisoformat(t.replace('Z', '+00:00')).replace(tzinfo=None)] *)
Definition parse_time (t : option pystr) : result datetime :=
  match t with
  | None => Raise (none_has_no_attribute "replace")
  | Some s =>
      match fromisoformat (replace_Z s) with
      | None =>
          Raise (mkExn ValueError (py "Invalid isoformat string: " ++ replace_Z s))
      | Some d => Return (replace_tzinfo_none d)
      end
  end.

(** [length_of_call / 60.0] *)
Definition minutes_of (length_of_call : Z) : result Q :=
  if int_too_large_for_float length_of_call
  then Raise (mkExn OverflowError (py "int too large to convert to float"))
  else Return (Qdiv (inject_Z length_of_call) (inject_Z 60)).

(** [CallRecord.__init__] *)
Definition CallRecord_init (direction remote_number start_time end_time : option pystr)
    (length_of_call : Z) (target_number source_file : pystr) : result CallRecord :=
  let normalized := _normalize_phone_number remote_number in
  let target :=
    if truthy target_number then _normalize_phone_number (Some target_number)
    else [] in
  st <- parse_time start_time ;;
  et <- parse_time end_time ;;
  mins <- minutes_of length_of_call ;;
  Return (mkCallRecord direction remote_number normalized target source_file
            st et length_of_call mins
            (strftime st (py "%Y-%m-%d"))
            (strftime st (py "%H:%M:%S"))
            (strftime st (py "%Y-%m-%d %H:%M:%S"))
            (strftime st (py "%A"))).

End CallRecordInit.

(** ** XML documents *)

(** An ElementTree element: tag, text ([None] when the element has none)
    and children in document order. *)
#[warnings="-register-all"]
Inductive element :=
  | Element (tag : pystr) (text : option pystr) (children : list element).

Definition tag_of (e : element) : pystr := let 'Element t _ _ := e in t.
Definition text_of (e : element) : option pystr := let 'Element _ t _ := e in t.
Definition children_of (e : element) : list element := let 'Element _ _ c := e in c.

Definition has_tag (t : pystr) (e : element) : bool := pystr_eqb (tag_of e) t.

(** Every element below [e], in document order, [e] itself excluded. *)
Fixpoint descendants (e : element) : list element :=
  match e with
  | Element _ _ cs => flat_map (fun c => c :: descendants c) cs
  end.

(** [e.find(t)]: the first child with tag [t]. *)
Definition find_child (t : string) (e : element) : option element :=
  List.find (has_tag (py t)) (children_of e).

(** [root.find('.//t')] and [root.findall('.//t')]. *)
Definition find_descendant (t : string) (root : element) : option element :=
  List.find (has_tag (py t)) (descendants root).
Definition findall_descendants (t : string) (root : element) : list element :=
  List.filter (has_tag (py t)) (descendants root).

(** [x.text] for the result [x] of a [find]. *)
Definition dot_text (x : option element) : result (option pystr) :=
  match x with
  | None => Raise (none_has_no_attribute "text")
  | Some e => Return (text_of e)
  end.

(** ** XMLParser.parse_file *)

Section Parser.

(** [ET.parse(path).getroot()], raising when the file cannot be read or
    is not well-formed. *)
Variable et_parse : pystr -> result element.
(** [int(s)] for a string [s]: [None] stands for its [ValueError]. *)
Variable int_of_str : pystr -> option Z.
Variable fromisoformat : pystr -> option datetime.
Variable strftime : datetime -> pystr -> pystr.
(** [os.path.basename] *)
Variable basename : pystr -> pystr.

(** [int(x)] for [x] a string or [None]. *)
Definition py_int (x : option pystr) : result Z :=
  match x with
  | None =>
      Raise (mkExn TypeError
        (py "int() argument must be a string, a bytes-like object or a real number, not 'NoneType'"))
  | Some s =>
      match int_of_str s with
      | None =>
          Raise (mkExn ValueError (py "invalid literal for int() with base 10: " ++ s))
      | Some n => Return n
      end
  end.

(** The body of the [try] inside the loop over the results elements. *)
Definition record_of_result (target_number file_path : pystr) (r : element)
    : result CallRecord :=
  direction <- dot_text (find_child "messageDirection" r) ;;
  remote_number <- dot_text (find_child "remoteNumber" r) ;;
  start_time <- dot_text (find_child "startTime" r) ;;
  end_time <- dot_text (find_child "endTime" r) ;;
  length_text <- dot_text (find_child "lengthOfCall" r) ;;
  length_of_call <- py_int length_text ;;
  CallRecord_init fromisoformat strftime direction remote_number start_time
    end_time length_of_call target_number (basename file_path).

(** The loop over the results elements: [AttributeError] and [ValueError]
    skip the element, any other exception leaves the loop. *)
Fixpoint parse_results (target_number file_path : pystr)
    (results : list element) (records : list CallRecord)
    : result (list CallRecord) :=
  match results with
  | [] => Return records
  | r :: rest =>
      match record_of_result target_number file_path r with
      | Return record =>
          parse_results target_number file_path rest (records ++ [record])
      | Raise e =>
          if is_attribute_or_value_error e
          then parse_results target_number file_path rest records
          else Raise e
      end
  end.

(** The target number of a document: the text of the first [targetValue]
    element when it has one, else the empty string. *)
Definition target_of (root : element) : pystr :=
  match find_descendant "targetValue" root with
  | Some e =>
      match text_of e with
      | Some t => if truthy t then t else []
      | None => []
      end
  | None => []
  end.

(** [raise Exception(f"Failed to parse XML file: {e}")] *)
Definition failed_to_parse (e : exn) : exn :=
  mkExn Exception_ (py "Failed to parse XML file: " ++ exn_msg e).

Definition parse_file (file_path : pystr) : result (list CallRecord) :=
  match et_parse file_path with
  | Raise e => Raise (failed_to_parse e)
  | Return root =>
      match parse_results (target_of root) file_path
              (findall_descendants "results" root) [] with
      | Return records => Return records
      | Raise e => Raise (failed_to_parse e)
      end
  end.

End Parser.

(** ** Dicts, sorting, max and min *)

Section Dict.
Context {K V : Type} `{EqDecision K}.

(** [k in d] *)
Fixpoint dict_mem (k : K) (d : list (K * V)) : bool :=
  match d with
  | [] => false
  | (k', _) :: d' => if decide (k = k') then true else dict_mem k d'
  end.

(** [d.get(k, default)] *)
Fixpoint dict_get (k : K) (default : V) (d : list (K * V)) : V :=
  match d with
  | [] => default
  | (k', v) :: d' => if decide (k = k') then v else dict_get k default d'
  end.

(** [d[k] = v]: a key already present keeps its place, a new one goes last. *)
Fixpoint dict_set (k : K) (v : V) (d : list (K * V)) : list (K * V) :=
  match d with
  | [] => [(k, v)]
  | (k', v') :: d' =>
      if decide (k = k') then (k', v) :: d' else (k', v') :: dict_set k v d'
  end.
End Dict.

(** The counting loop [for x in xs: d[x] = d.get(x, 0) + 1]. *)
Definition tally {K} `{EqDecision K} (xs : list K) : list (K * Z) :=
  fold_left (fun d x => dict_set x (dict_get x 0 d + 1)%Z d) xs [].

Section SortMaxMin.
Context {A : Type} (key : A -> Z).

Fixpoint insert_desc (x : A) (l : list A) : list A :=
  match l with
  | [] => [x]
  | y :: l' => if (key y <=? key x)%Z then x :: l else y :: insert_desc x l'
  end.

(** [sorted(l, key=key, reverse=True)] and [l.sort(key=key, reverse=True)]:
    Python's sort is stable, also under [reverse=True], and a stable sort
    has one possible output; this insertion sort computes it. *)
Definition sorted_desc (l : list A) : list A :=
  fold_right insert_desc [] l.

Fixpoint max_from (best : A) (l : list A) : A :=
  match l with
  | [] => best
  | x :: l' => max_from (if (key best <? key x)%Z then x else best) l'
  end.

Fixpoint min_from (best : A) (l : list A) : A :=
  match l with
  | [] => best
  | x :: l' => min_from (if (key x <? key best)%Z then x else best) l'
  end.

(** [max(l, key=key)] on a non-empty [x :: l] is [max_from x l];
    [min(l, key=key, default=None)]: *)
Definition min_default (l : list A) : option A :=
  match l with
  | [] => None
  | x :: l' => Some (min_from x l')
  end.
End SortMaxMin.

(** [before a b l]: some occurrence of [a] in [l] precedes one of [b]. *)
Fixpoint before {A} (a b : A) (l : list A) : Prop :=
  match l with
  | [] => False
  | y :: l' => (a = y /\ In b l') \/ before a b l'
  end.

(** Position of the first occurrence of [x] in [l] ([length l] if none). *)
Fixpoint index_of {K} `{EqDecision K} (x : K) (l : list K) : nat :=
  match l with
  | [] => 0
  | y :: l' => if decide (x = y) then 0 else S (index_of x l')
  end.

(** Number of occurrences of [x] in [l]. *)
Fixpoint occurrences {K} `{EqDecision K} (x : K) (l : list K) : Z :=
  match l with
  | [] => 0
  | y :: l' => ((if decide (x = y) then 1 else 0) + occurrences x l')%Z
  end.

(** The elements of [xs] not in [seen], each once, in the order in which
    they first occur. *)
Fixpoint first_seen {K} `{EqDecision K} (seen xs : list K) : list K :=
  match xs with
  | [] => []
  | x :: xs' =>
      if decide (x ∈ seen) then first_seen seen xs'
      else x :: first_seen (x :: seen) xs'
  end.

(** ** Analytics *)

(** An entry of [common_contacts]: keys 'number', 'target_numbers', 'count'. *)
Record contact := mkContact {
  contact_number : pystr;
  contact_target_numbers : list pystr;
  contact_count : Z
}.

(** The attributes of an [Analytics] object after [__init__].
    [common_contacts] is [None] when the attribute was never assigned. *)
Record Analytics := mkAnalytics {
  total_calls : Z;
  incoming_calls : Z;
  outgoing_calls : Z;
  total_duration_minutes : Q;
  average_call_duration : Q;
  unique_numbers : Z;
  most_frequent_numbers : list (pystr * Z);
  calls_by_day : list (pystr * Z);
  calls_by_hour : list (Z * Z);
  longest_call : option CallRecord;
  shortest_call : option CallRecord;
  target_numbers : gset pystr;
  common_contacts : option (list contact);
  files_processed : gset pystr
}.

Section AnalyticsDef.

(** [str.lower] *)
Variable lower : pystr -> pystr.
(** The order in which a [for] loop visits a set of strings. *)
Variable set_iter : gset pystr -> list pystr.

(** [r.direction.lower() == 'incoming'] *)
Definition is_incoming (d : pystr) : bool :=
  pystr_eqb (lower d) (py "incoming").

(** [sum(1 for r in records if r.direction.lower() == 'incoming')] *)
Fixpoint count_incoming (records : list CallRecord) (acc : Z) : result Z :=
  match records with
  | [] => Return acc
  | r :: rest =>
      match direction r with
      | None => Raise (none_has_no_attribute "lower")
      | Some d => count_incoming rest (if is_incoming d then acc + 1 else acc)%Z
      end
  end.

(** [sum(r.duration_minutes for r in records)] *)
Definition sum_minutes (records : list CallRecord) : Q :=
  fold_left (fun acc r => Qplus acc (duration_minutes r)) records (inject_Z 0).

Definition number_counts (records : list CallRecord) : list (pystr * Z) :=
  tally (map normalized_number records).

Definition most_frequent (records : list CallRecord) : list (pystr * Z) :=
  take 10 (sorted_desc snd (number_counts records)).

(** The first loop of [_find_common_contacts]. *)
Definition target_groups (records : list CallRecord)
    : list (pystr * gset pystr) :=
  fold_left
    (fun tg r =>
       if truthy (target_number r) then
         let tg' :=
           if dict_mem (target_number r) tg then tg
           else dict_set (target_number r) ∅ tg in
         dict_set (target_number r)
           (dict_get (target_number r) ∅ tg' ∪ {[normalized_number r]}) tg'
       else tg)
    records [].

Definition all_numbers (tg : list (pystr * gset pystr)) : gset pystr :=
  fold_left (fun acc g => acc ∪ g.2) tg ∅.

(** [[target for target, numbers in tg.items() if number in numbers]] *)
Definition targets_with (tg : list (pystr * gset pystr)) (number : pystr)
    : list pystr :=
  map fst (List.filter (fun g => bool_decide (number ∈ g.2)) tg).

(** [_find_common_contacts]: the value of [self.common_contacts] it
    leaves on a fresh object. *)
Definition _find_common_contacts (records : list CallRecord)
    : option (list contact) :=
  let tg := target_groups records in
  if 1 <? length tg then
    let found :=
      fold_left
        (fun cc number =>
           let ts := targets_with tg number in
           if 1 <? length ts
           then cc ++ [mkContact number ts (Z.of_nat (length ts))]
           else cc)
        (set_iter (all_numbers tg)) [] in
    Some (sorted_desc contact_count found)
  else None.

Definition longest (records : list CallRecord) : option CallRecord :=
  match records with
  | [] => None
  | r :: rest => Some (max_from length_of_call r rest)
  end.

Definition shortest (records : list CallRecord) : option CallRecord :=
  min_default length_of_call
    (List.filter (fun r => (0 <? length_of_call r)%Z) records).

(** [Analytics(records)], that is [_calculate_analytics] on a fresh object. *)
Definition _calculate_analytics (records : list CallRecord) : result Analytics :=
  match records with
  | [] =>
      Return (mkAnalytics 0 0 0 (inject_Z 0) (inject_Z 0) 0 [] [] [] None None
                ∅ (Some []) ∅)
  | _ :: _ =>
      let total := Z.of_nat (length records) in
      incoming <- count_incoming records 0%Z ;;
      let minutes := sum_minutes records in
      Return (mkAnalytics
        total incoming (total - incoming)%Z
        minutes (Qdiv minutes (inject_Z total))
        (Z.of_nat (size (list_to_set (map normalized_number records) : gset pystr)))
        (most_frequent records)
        (tally (map date records))
        (tally (map (fun r => hour (start_time r)) records))
        (longest records)
        (shortest records)
        (list_to_set (List.filter truthy (map target_number records)))
        (_find_common_contacts records)
        (list_to_set (List.filter truthy (map source_file records))))
  end.

End AnalyticsDef.

(** ** EsubpoenaTollsTool._process_files_thread *)

(** The callback the thread schedules on the main loop. *)
Inductive callback :=
  | _on_processing_finished (records : list CallRecord) (analytics : Analytics)
      (file_paths : list pystr)
  | _on_processing_error (error_message : pystr).

Section Ingest.

(** [XMLParser.parse_file] *)
Variable parse : pystr -> result (list CallRecord).
(** [Analytics] *)
Variable analyse : list CallRecord -> result Analytics.

(** The loop over [file_paths], from the state it has reached. *)
Fixpoint ingest_loop (file_paths : list pystr)
    (all_records : list CallRecord) (processed_files : list pystr)
    : list CallRecord * list pystr :=
  match file_paths with
  | [] => (all_records, processed_files)
  | file_path :: rest =>
      match parse file_path with
      | Return records =>
          ingest_loop rest (all_records ++ records) (processed_files ++ [file_path])
      | Raise _ => ingest_loop rest all_records processed_files
      end
  end.

Definition process_files (file_paths : list pystr) : callback :=
  let '(all_records, processed_files) := ingest_loop file_paths [] [] in
  match all_records with
  | _ :: _ =>
      match analyse all_records with
      | Return analytics =>
          _on_processing_finished all_records analytics processed_files
      | Raise e => _on_processing_error (exn_msg e)
      end
  | [] => _on_processing_error (py "No valid records found in any files")
  end.

End Ingest.

Section Tool.
Variable et_parse : pystr -> result element.
Variable int_of_str : pystr -> option Z.
Variable fromisoformat : pystr -> option datetime.
Variable strftime : datetime -> pystr -> pystr.
Variable basename : pystr -> pystr.
Variable lower : pystr -> pystr.
Variable set_iter : gset pystr -> list pystr.

Definition _process_files_thread (file_paths : list pystr) : callback :=
  process_files
    (parse_file et_parse int_of_str fromisoformat strftime basename)
    (_calculate_analytics lower set_iter)
    file_paths.
End Tool.

(** ** Sample records *)

Definition sample_time : datetime := mkDatetime 2024 1 15 9 30 0 0 None.

(** The record [CallRecord(direction, number, ..., length, target)] holds,
    with a fixed start and end time. *)
Definition sample_record (direction : option pystr) (target number : pystr)
    (length : Z) : CallRecord :=
  mkCallRecord direction (Some number) (normalize number)
    (if truthy target then normalize target else []) []
    sample_time sample_time length (Qdiv (inject_Z length) (inject_Z 60))
    (py "2024-01-15") (py "09:30:00") (py "2024-01-15 09:30:00") (py "Monday").

(** ** What a parse keeps *)

(** The record a results element contributes, if any. *)
Definition kept_record (build : element -> result CallRecord) (r : element)
    : list CallRecord :=
  match build r with
  | Return record => [record]
  | Raise _ => []
  end.

(** The element is turned into a record or raises an exception the loop skips. *)
Definition builds_or_skips (build : element -> result CallRecord) (r : element)
    : Prop :=
  match build r with
  | Return _ => True
  | Raise e => is_attribute_or_value_error e = true
  end.

(** ** What a batch keeps *)

(** The records a source contributes: those of its parse, none if it fails. *)
Definition records_of (parse : pystr -> result (list CallRecord))
    (file_path : pystr) : list CallRecord :=
  match parse file_path with
  | Return records => records
  | Raise _ => []
  end.

Definition parsed_ok (parse : pystr -> result (list CallRecord))
    (file_path : pystr) : bool :=
  match parse file_path with
  | Return _ => true
  | Raise _ => false
  end.

(** A record counts as incoming when its direction is a string that
    lower-cases to "incoming". *)
Definition incoming_record (lower : pystr -> pystr) (r : CallRecord) : bool :=
  match direction r with
  | Some d => is_incoming lower d
  | None => false
  end.

(** ** What the common contacts are *)

(** The distinct non-empty target numbers, in order of first appearance. *)
Definition targets_seen (records : list CallRecord) : list pystr :=
  first_seen [] (List.filter truthy (map target_number records)).

(** Some record under target [t] has normalized number [n]. *)
Definition dials (records : list CallRecord) (t n : pystr) : bool :=
  existsb (fun r => bool_decide (target_number r = t)
                    && bool_decide (normalized_number r = n)) records.

(** The distinct targets under which [n] occurs, in order of first appearance. *)
Definition dialing_targets (records : list CallRecord) (n : pystr) : list pystr :=
  List.filter (fun t => dials records t n) (targets_seen records).

(** The normalized numbers of the records that have a target. *)
Definition dialed_numbers (records : list CallRecord) : gset pystr :=
  list_to_set
    (map normalized_number
       (List.filter (fun r => truthy (target_number r)) records)).

(** [n] occurs under more than one target. *)
Definition is_common (records : list CallRecord) (n : pystr) : bool :=
  1 <? length (dialing_targets records n).

(** The entry reported for [n]. *)
Definition entry_of (records : list CallRecord) (n : pystr) : contact :=
  mkContact n (dialing_targets records n)
    (Z.of_nat (length (dialing_targets records n))).

(** [a < b] on strings: lexicographic by code point. *)
Fixpoint lex_ltb (a b : pystr) : bool :=
  match a, b with
  | _, [] => false
  | [], _ :: _ => true
  | x :: a', y :: b' => (x <? y)%N || ((x =? y)%N && lex_ltb a' b')
  end.

(** Entries of equal count are in increasing lexicographic order of number. *)
Definition ties_lexicographic (cc : list contact) : Prop :=
  forall e1 e2, before e1 e2 cc -> contact_count e1 = contact_count e2 ->
    lex_ltb (contact_number e1) (contact_number e2) = true.

(** ** ExcelExporter *)

(** The value of a cell: a number or a string. *)
Inductive cell_value :=
  | VInt (n : Z)
  | VFloat (q : Q)
  | VStr (s : pystr).

(** A worksheet: the cells that hold a value, by (row, column).  Fonts,
    fills, borders and column widths do not bear on values and are left out. *)
Abbreviation worksheet := (gmap (nat * nat) cell_value).

(** A workbook: its sheets, by title, in order. *)
Abbreviation workbook := (list (pystr * worksheet)).

(** [ws.cell(row=row, column=column, value=value)]: a [None] value leaves
    the cell as it is. *)
Definition ws_cell (row column : nat) (value : option cell_value)
    (ws : worksheet) : worksheet :=
  match value with
  | Some v => <[(row, column) := v]> ws
  | None => ws
  end.

(** The cells of one row written from [column] on, left to right. *)
Fixpoint write_row (row column : nat) (values : list (option cell_value))
    (ws : worksheet) : worksheet :=
  match values with
  | [] => ws
  | v :: vs => write_row row (S column) vs (ws_cell row column v ws)
  end.

(** Consecutive rows written from [row] on. *)
Fixpoint write_rows (row : nat) (rows : list (list (option cell_value)))
    (ws : worksheet) : worksheet :=
  match rows with
  | [] => ws
  | r :: rs => write_rows (S row) rs (write_row row 1 r ws)
  end.

Definition str_cell (s : pystr) : option cell_value := Some (VStr s).
Definition int_cell (n : Z) : option cell_value := Some (VInt n).
Definition text_cell (s : string) : option cell_value := Some (VStr (py s)).

(** [str(n)] for an integer. *)
Definition str_of_int (n : Z) : pystr := py (NilZero.string_of_int (Z.to_int n)).

(** [sep.join(l)] *)
Fixpoint join (sep : pystr) (l : list pystr) : pystr :=
  match l with
  | [] => []
  | [s] => s
  | s :: l' => s ++ sep ++ join sep l'
  end.

(** [(s1, c1) <= (s2, c2)] on dict items. *)
Definition item_leb (x y : pystr * Z) : bool :=
  negb (lex_ltb y.1 x.1 || (pystr_eqb y.1 x.1 && (y.2 <? x.2)%Z)).

Fixpoint insert_item (x : pystr * Z) (l : list (pystr * Z)) : list (pystr * Z) :=
  match l with
  | [] => [x]
  | y :: l' => if item_leb x y then x :: l else y :: insert_item x l'
  end.

(** [sorted(d.items())] *)
Definition sorted_items (d : list (pystr * Z)) : list (pystr * Z) :=
  fold_right insert_item [] d.

(** The clean-up of one cell: a string that starts with ['='] gets a
    leading apostrophe. *)
Definition escape_value (v : cell_value) : cell_value :=
  match v with
  | VStr s => if startswith1 61%N s then VStr (39%N :: s) else v
  | _ => v
  end.

Section Exporter.

Variable strftime : datetime -> pystr -> pystr.
(** [f"{x:.2f}"] *)
Variable format_2f : Q -> pystr.

Definition record_row (r : CallRecord) : list (option cell_value) :=
  [ VStr <$> direction r;
    str_cell (target_number r);
    VStr <$> remote_number r;
    str_cell (normalized_number r);
    str_cell (date_time r);
    str_cell (strftime (end_time r) (py "%Y-%m-%d %H:%M:%S"));
    int_cell (length_of_call r);
    Some (VFloat (duration_minutes r));
    str_cell (day_of_week r);
    str_cell (source_file r) ].

Definition _export_call_records (ws : worksheet) (records : list CallRecord)
    : worksheet :=
  let headers :=
    map text_cell
      ["Direction"; "Target Number"; "Remote Number"; "Normalized Number";
       "Date & Time"; "End Time"; "Duration (sec)"; "Duration (min)";
       "Day of Week"; "Source File"]%string in
  write_rows 2 (map record_row records) (write_row 1 1 headers ws).

Definition _export_analytics (ws : worksheet) (analytics : Analytics)
    : worksheet :=
  let summary_data :=
    [ [text_cell "Total Calls"; int_cell (total_calls analytics)];
      [text_cell "Incoming Calls"; int_cell (incoming_calls analytics)];
      [text_cell "Outgoing Calls"; int_cell (outgoing_calls analytics)];
      [text_cell "Unique Phone Numbers"; int_cell (unique_numbers analytics)];
      [text_cell "Total Duration (minutes)";
       str_cell (format_2f (total_duration_minutes analytics))];
      [text_cell "Average Call Duration (minutes)";
       str_cell (format_2f (average_call_duration analytics))] ] in
  let ws := write_row 1 1 [text_cell "Metric"; text_cell "Value"] ws in
  let ws := write_rows 2 summary_data ws in
  let start_row := length summary_data + 4 in
  let ws :=
    write_row start_row 1
      [text_cell "Most Frequent Numbers"; text_cell "Call Count"] ws in
  let ws :=
    write_rows (start_row + 1)
      (map (fun nc => [str_cell nc.1; int_cell nc.2])
           (most_frequent_numbers analytics)) ws in
  let day_start_row :=
    start_row + length (most_frequent_numbers analytics) + 3 in
  let ws :=
    write_row day_start_row 1
      [text_cell "Calls by Day"; text_cell "Call Count"] ws in
  write_rows (day_start_row + 1)
    (map (fun dc => [str_cell dc.1; int_cell dc.2])
         (sorted_items (calls_by_day analytics))) ws.

Definition report_lines (analytics : Analytics) : list pystr :=
  [ py "=== TELECOMMUNICATION DATA ANALYSIS ===";
    [];
    py "Total Calls: " ++ str_of_int (total_calls analytics);
    py "Incoming Calls: " ++ str_of_int (incoming_calls analytics);
    py "Outgoing Calls: " ++ str_of_int (outgoing_calls analytics);
    py "Unique Phone Numbers: " ++ str_of_int (unique_numbers analytics);
    py "Total Duration: " ++ format_2f (total_duration_minutes analytics)
      ++ py " minutes";
    py "Average Call Duration: " ++ format_2f (average_call_duration analytics)
      ++ py " minutes";
    [];
    py "=== MOST FREQUENT NUMBERS ===" ]
  ++ imap (fun i nc =>
             str_of_int (Z.of_nat (S i)) ++ py ". " ++ nc.1 ++ py " ("
             ++ str_of_int nc.2 ++ py " calls)")
          (most_frequent_numbers analytics)
  ++ [ []; py "=== CALLS BY DAY ===" ]
  ++ map (fun dc => dc.1 ++ py ": " ++ str_of_int dc.2 ++ py " calls")
         (sorted_items (calls_by_day analytics)).

Definition _export_summary_report (ws : worksheet) (analytics : Analytics)
    : worksheet :=
  write_rows 1 (map (fun line => [str_cell line]) (report_lines analytics)) ws.

(** Reading [analytics.common_contacts] raises when the attribute was
    never assigned. *)
Definition _export_common_contacts (ws : worksheet) (analytics : Analytics)
    : result worksheet :=
  match common_contacts analytics with
  | None =>
      Raise (mkExn AttributeError
               (py "'Analytics' object has no attribute 'common_contacts'"))
  | Some [] =>
      Return (ws_cell 1 1
                (text_cell "No common contacts found across target numbers") ws)
  | Some contacts =>
      let headers :=
        map text_cell ["Phone Number"; "Target Numbers"; "Count"]%string in
      Return (write_rows 2
                (map (fun c =>
                        [str_cell (contact_number c);
                         str_cell (join (py ", ") (contact_target_numbers c));
                         int_cell (contact_count c)])
                     contacts)
                (write_row 1 1 headers ws))
  end.

(** The four sheets as the writers leave them. *)
Definition filled_workbook (records : list CallRecord) (analytics : Analytics)
    : result workbook :=
  let ws_records := _export_call_records ∅ records in
  let ws_analytics := _export_analytics ∅ analytics in
  let ws_summary := _export_summary_report ∅ analytics in
  ws_common <- _export_common_contacts ∅ analytics ;;
  Return [ (py "Call Records", ws_records);
           (py "Analytics", ws_analytics);
           (py "Summary Report", ws_summary);
           (py "Common Contacts", ws_common) ].

(** The loop over every cell of every sheet. *)
Definition clean_up (wb : workbook) : workbook :=
  map (fun sheet => (sheet.1, escape_value <$> sheet.2)) wb.

(** [export_data]: the workbook handed to [wb.save], or the exception
    raised before. *)
Definition export_data (records : list CallRecord) (analytics : Analytics)
    : result workbook :=
  match filled_workbook records analytics with
  | Return wb => Return (clean_up wb)
  | Raise e =>
      Raise (mkExn Exception_ (py "Excel export failed: " ++ exn_msg e))
  end.

End Exporter.

(** No string cell of the sheet starts with ['=']. *)
Definition no_formula_string (ws : worksheet) : Prop :=
  forall rc s, ws !! rc = Some (VStr s) -> startswith1 61%N s = false.

(** [ws] is [ws0] with an apostrophe put before each string that starts
    with ['='], and nothing else changed. *)
Definition escaped_from (ws0 ws : worksheet) : Prop :=
  forall rc,
    ws !! rc =
    match ws0 !! rc with
    | Some (VStr s) => Some (VStr (if startswith1 61%N s then 39%N :: s else s))
    | other => other
    end.

(** A stand-in for [f"{x:.2f}"] in the examples. *)
Definition sample_format_2f (q : Q) : pystr := py "0.00".


(** ** A sample environment *)

(** Lower-casing of ASCII letters; [str.lower] agrees with it on ASCII strings. *)
Definition ascii_lower (c : N) : N :=
  if (65 <=? c)%N && (c <=? 90)%N then (c + 32)%N else c.

(** Two strings equal up to the case of ASCII letters. *)
Fixpoint eq_ignore_ascii_case (a b : pystr) : bool :=
  match a, b with
  | [], [] => true
  | x :: a', y :: b' => (ascii_lower x =? ascii_lower y)%N && eq_ignore_ascii_case a' b'
  | _, _ => false
  end.

(** [int] on plain ASCII decimal literals (no sign, blanks or underscores). *)
Definition sample_int (s : pystr) : option Z :=
  match s with
  | [] => None
  | _ =>
      if forallb is_ascii_digit s
      then Some (fold_left (fun n c => 10 * n + Z.of_N (c - 48))%Z s 0%Z)
      else None
  end.

(** A clock that reads every timestamp starting with a digit as [sample_time]. *)
Definition sample_fromisoformat (s : pystr) : option datetime :=
  match s with
  | c :: _ => if is_ascii_digit c then Some sample_time else None
  | [] => None
  end.

Definition sample_strftime (d : datetime) (format : pystr) : pystr := format.

Definition leaf (tag text : string) : element :=
  Element (py tag) (Some (py text)) [].

(** A results element with all five children. *)
Definition sample_result (direction number length : string) : element :=
  Element (py "results") None
    [leaf "messageDirection" direction; leaf "remoteNumber" number;
     leaf "startTime" "2024-01-15T09:30:00Z"; leaf "endTime" "2024-01-15T09:31:00Z";
     leaf "lengthOfCall" length].

(** A document with a target value and the given results elements. *)
Definition sample_document (target : string) (results : list element) : element :=
  Element (py "response") None
    [leaf "targetValue" target; Element (py "data") None results].

(** Three sources, the second of which is not well-formed. *)
Definition sample_files (file_path : pystr) : result element :=
  if pystr_eqb file_path (py "one.xml") then
    Return (sample_document "2565550100" [sample_result "incoming" "2565550001" "60"])
  else if pystr_eqb file_path (py "three.xml") then
    Return (sample_document "2565550300"
              [sample_result "outgoing" "2565550001" "45";
               sample_result "OUTGOING" "2565550003" "0"])
  else Raise (mkExn ParseError (py "no element found: line 1, column 0")).

(** A results element whose [messageDirection] has no text. *)
Definition result_without_direction : element :=
  Element (py "results") None
    [Element (py "messageDirection") None []; leaf "remoteNumber" "2565550001";
     leaf "startTime" "2024-01-15T09:30:00Z"; leaf "endTime" "2024-01-15T09:31:00Z";
     leaf "lengthOfCall" "60"].

(** A results element whose [lengthOfCall] has no text. *)
Definition result_without_length : element :=
  Element (py "results") None
    [leaf "messageDirection" "incoming"; leaf "remoteNumber" "2565550001";
     leaf "startTime" "2024-01-15T09:30:00Z"; leaf "endTime" "2024-01-15T09:31:00Z";
     Element (py "lengthOfCall") None []].

(** A results element with no [lengthOfCall] child, and one whose
    [lengthOfCall] is not a number. *)
Definition result_missing_length : element :=
  Element (py "results") None
    [leaf "messageDirection" "incoming"; leaf "remoteNumber" "2565550001";
     leaf "startTime" "2024-01-15T09:30:00Z"; leaf "endTime" "2024-01-15T09:31:00Z"].

Definition result_bad_length : element :=
  sample_result "incoming" "2565550001" "a minute".

(** The file system in which every path holds [doc]. *)
Definition one_file (doc : element) (file_path : pystr) : result element :=
  Return doc.

(** Target [T1] dials [X] and [Y], target [T2] dials [Y] and [Z]. *)
Definition two_targets_sharing_one : list CallRecord :=
  let r := sample_record (Some (py "outgoing")) in
  [r (py "2565550100") (py "2565550001") 10%Z;
   r (py "2565550100") (py "2565550002") 20%Z;
   r (py "2565550200") (py "2565550002") 30%Z;
   r (py "2565550200") (py "2565550003") 40%Z].

(** Targets [T1] and [T2] both dial [X] and [Y]. *)
Definition two_targets_sharing_two : list CallRecord :=
  let r := sample_record (Some (py "outgoing")) in
  [r (py "2565550100") (py "2565550001") 10%Z;
   r (py "2565550100") (py "2565550002") 20%Z;
   r (py "2565550200") (py "2565550001") 30%Z;
   r (py "2565550200") (py "2565550002") 40%Z].

(** Two targets sharing a number, and a record whose raw remote number
    starts with ['=']. *)
Definition records_with_formula : list CallRecord :=
  two_targets_sharing_one
  ++ [sample_record (Some (py "incoming")) (py "2565550200") (py "=2565550003") 50%Z].

(** ** Further vocabulary *)

(** The children a results element must have. *)
Definition five_children : list string :=
  ["messageDirection"; "remoteNumber"; "startTime"; "endTime"; "lengthOfCall"]%string.

(** What every record built by [CallRecord.__init__] for a document with
    target [target] and source name [source] satisfies. *)
Definition well_built (target source : pystr) (r : CallRecord) : Prop :=
  normalized_number r = _normalize_phone_number (remote_number r) /\
  length (normalized_number r) = 10 /\
  target_number r = target /\
  source_file r = source /\
  tzinfo (start_time r) = None /\
  tzinfo (end_time r) = None /\
  int_too_large_for_float (length_of_call r) = false.

(** The sum of the counts a counting dict holds. *)
Definition sum_counts {K} (d : list (K * Z)) : Z :=
  fold_right Z.add 0%Z (map snd d).

(** The direction of the record is a string. *)
Definition has_direction (r : CallRecord) : Prop := is_Some (direction r).

(** The analytics of the empty record list. *)
Definition empty_analytics : Analytics :=
  mkAnalytics 0 0 0 (inject_Z 0) (inject_Z 0) 0 [] [] [] None None ∅ (Some []) ∅.

(** The analytics of [records] in the sample environment, when they exist. *)
Definition sample_analytics (records : list CallRecord) : Analytics :=
  match _calculate_analytics (map ascii_lower) elements records with
  | Return a => a
  | Raise _ => empty_analytics
  end.

(** Records that all belong to one target. *)
Definition one_target : list CallRecord :=
  let r := sample_record (Some (py "Incoming")) (py "2565550100") in
  [r (py "2565550001") 10%Z; r (py "2565550002") 0%Z; r (py "2565550001") 25%Z].

(** The value [write_rows row rows] puts in cell [(r, c)], if it writes one. *)
Definition written (row : nat) (rows : list (list (option cell_value)))
    (r c : nat) : option cell_value :=
  if (row <=? r) && (1 <=? c) then
    match rows !! (r - row) with
    | Some values => mjoin (values !! (c - 1))
    | None => None
    end
  else None.

(** The same for one row written from [column] on. *)
Definition written_in_row (row column : nat) (values : list (option cell_value))
    (r c : nat) : option cell_value :=
  if (r =? row) && (column <=? c) then mjoin (values !! (c - column)) else None.

(** An escaped string. *)
Definition escape_str (s : pystr) : pystr :=
  if startswith1 61%N s then 39%N :: s else s.

(** The workbook saved for [records] in the sample environment, if any. *)
Definition sample_workbook (records : list CallRecord) : workbook :=
  match export_data sample_strftime sample_format_2f records
          (sample_analytics records) with
  | Return wb => wb
  | Raise _ => []
  end.

(** ** The main window

    The state of [EsubpoenaTollsTool] that its handlers read and write: the
    data attributes, and for each widget what it shows (a label's text, a
    tree's rows, a button's enabled flag, whether the "no analytics" label
    is shown, the selected tab, the dialogs shown so far).  Layout and
    styling are left out. *)

Inductive dialog := showinfo | showerror | showwarning.

Record gui := mkGui {
  all_records : list CallRecord;
  analytics : option Analytics;
  current_target_number : option pystr;
  filtered_records : list CallRecord;
  status_var : pystr;
  file_info_label : pystr;
  target_label : pystr;
  records_label : pystr;
  records_tree : list (list (option cell_value));
  frequent_tree : list (list (option cell_value));
  day_tree : list (list (option cell_value));
  common_tree : list (list (option cell_value));
  stats_cards_frame : list (pystr * pystr * pystr);
  stats_grid : list (pystr * pystr);
  no_data_label : bool;
  summary_text : pystr;
  target_combo : list pystr;
  target_var : pystr;
  export_btn : bool;
  export_records_btn : bool;
  copy_btn : bool;
  notebook : nat;
  messagebox : list (dialog * pystr * pystr)
}.

Definition set_all_records (v : list CallRecord) (g : gui) : gui :=
  mkGui v (analytics g) (current_target_number g) (filtered_records g) (status_var g) (file_info_label g) (target_label g) (records_label g) (records_tree g) (frequent_tree g) (day_tree g) (common_tree g) (stats_cards_frame g) (stats_grid g) (no_data_label g) (summary_text g) (target_combo g) (target_var g) (export_btn g) (export_records_btn g) (copy_btn g) (notebook g) (messagebox g).
Definition set_analytics (v : option Analytics) (g : gui) : gui :=
  mkGui (all_records g) v (current_target_number g) (filtered_records g) (status_var g) (file_info_label g) (target_label g) (records_label g) (records_tree g) (frequent_tree g) (day_tree g) (common_tree g) (stats_cards_frame g) (stats_grid g) (no_data_label g) (summary_text g) (target_combo g) (target_var g) (export_btn g) (export_records_btn g) (copy_btn g) (notebook g) (messagebox g).
Definition set_current_target_number (v : option pystr) (g : gui) : gui :=
  mkGui (all_records g) (analytics g) v (filtered_records g) (status_var g) (file_info_label g) (target_label g) (records_label g) (records_tree g) (frequent_tree g) (day_tree g) (common_tree g) (stats_cards_frame g) (stats_grid g) (no_data_label g) (summary_text g) (target_combo g) (target_var g) (export_btn g) (export_records_btn g) (copy_btn g) (notebook g) (messagebox g).
Definition set_filtered_records (v : list CallRecord) (g : gui) : gui :=
  mkGui (all_records g) (analytics g) (current_target_number g) v (status_var g) (file_info_label g) (target_label g) (records_label g) (records_tree g) (frequent_tree g) (day_tree g) (common_tree g) (stats_cards_frame g) (stats_grid g) (no_data_label g) (summary_text g) (target_combo g) (target_var g) (export_btn g) (export_records_btn g) (copy_btn g) (notebook g) (messagebox g).
Definition set_status_var (v : pystr) (g : gui) : gui :=
  mkGui (all_records g) (analytics g) (current_target_number g) (filtered_records g) v (file_info_label g) (target_label g) (records_label g) (records_tree g) (frequent_tree g) (day_tree g) (common_tree g) (stats_cards_frame g) (stats_grid g) (no_data_label g) (summary_text g) (target_combo g) (target_var g) (export_btn g) (export_records_btn g) (copy_btn g) (notebook g) (messagebox g).
Definition set_file_info_label (v : pystr) (g : gui) : gui :=
  mkGui (all_records g) (analytics g) (current_target_number g) (filtered_records g) (status_var g) v (target_label g) (records_label g) (records_tree g) (frequent_tree g) (day_tree g) (common_tree g) (stats_cards_frame g) (stats_grid g) (no_data_label g) (summary_text g) (target_combo g) (target_var g) (export_btn g) (export_records_btn g) (copy_btn g) (notebook g) (messagebox g).
Definition set_target_label (v : pystr) (g : gui) : gui :=
  mkGui (all_records g) (analytics g) (current_target_number g) (filtered_records g) (status_var g) (file_info_label g) v (records_label g) (records_tree g) (frequent_tree g) (day_tree g) (common_tree g) (stats_cards_frame g) (stats_grid g) (no_data_label g) (summary_text g) (target_combo g) (target_var g) (export_btn g) (export_records_btn g) (copy_btn g) (notebook g) (messagebox g).
Definition set_records_label (v : pystr) (g : gui) : gui :=
  mkGui (all_records g) (analytics g) (current_target_number g) (filtered_records g) (status_var g) (file_info_label g) (target_label g) v (records_tree g) (frequent_tree g) (day_tree g) (common_tree g) (stats_cards_frame g) (stats_grid g) (no_data_label g) (summary_text g) (target_combo g) (target_var g) (export_btn g) (export_records_btn g) (copy_btn g) (notebook g) (messagebox g).
Definition set_records_tree (v : list (list (option cell_value))) (g : gui) : gui :=
  mkGui (all_records g) (analytics g) (current_target_number g) (filtered_records g) (status_var g) (file_info_label g) (target_label g) (records_label g) v (frequent_tree g) (day_tree g) (common_tree g) (stats_cards_frame g) (stats_grid g) (no_data_label g) (summary_text g) (target_combo g) (target_var g) (export_btn g) (export_records_btn g) (copy_btn g) (notebook g) (messagebox g).
Definition set_frequent_tree (v : list (list (option cell_value))) (g : gui) : gui :=
  mkGui (all_records g) (analytics g) (current_target_number g) (filtered_records g) (status_var g) (file_info_label g) (target_label g) (records_label g) (records_tree g) v (day_tree g) (common_tree g) (stats_cards_frame g) (stats_grid g) (no_data_label g) (summary_text g) (target_combo g) (target_var g) (export_btn g) (export_records_btn g) (copy_btn g) (notebook g) (messagebox g).
Definition set_day_tree (v : list (list (option cell_value))) (g : gui) : gui :=
  mkGui (all_records g) (analytics g) (current_target_number g) (filtered_records g) (status_var g) (file_info_label g) (target_label g) (records_label g) (records_tree g) (frequent_tree g) v (common_tree g) (stats_cards_frame g) (stats_grid g) (no_data_label g) (summary_text g) (target_combo g) (target_var g) (export_btn g) (export_records_btn g) (copy_btn g) (notebook g) (messagebox g).
Definition set_common_tree (v : list (list (option cell_value))) (g : gui) : gui :=
  mkGui (all_records g) (analytics g) (current_target_number g) (filtered_records g) (status_var g) (file_info_label g) (target_label g) (records_label g) (records_tree g) (frequent_tree g) (day_tree g) v (stats_cards_frame g) (stats_grid g) (no_data_label g) (summary_text g) (target_combo g) (target_var g) (export_btn g) (export_records_btn g) (copy_btn g) (notebook g) (messagebox g).
Definition set_stats_cards_frame (v : list (pystr * pystr * pystr)) (g : gui) : gui :=
  mkGui (all_records g) (analytics g) (current_target_number g) (filtered_records g) (status_var g) (file_info_label g) (target_label g) (records_label g) (records_tree g) (frequent_tree g) (day_tree g) (common_tree g) v (stats_grid g) (no_data_label g) (summary_text g) (target_combo g) (target_var g) (export_btn g) (export_records_btn g) (copy_btn g) (notebook g) (messagebox g).
Definition set_stats_grid (v : list (pystr * pystr)) (g : gui) : gui :=
  mkGui (all_records g) (analytics g) (current_target_number g) (filtered_records g) (status_var g) (file_info_label g) (target_label g) (records_label g) (records_tree g) (frequent_tree g) (day_tree g) (common_tree g) (stats_cards_frame g) v (no_data_label g) (summary_text g) (target_combo g) (target_var g) (export_btn g) (export_records_btn g) (copy_btn g) (notebook g) (messagebox g).
Definition set_no_data_label (v : bool) (g : gui) : gui :=
  mkGui (all_records g) (analytics g) (current_target_number g) (filtered_records g) (status_var g) (file_info_label g) (target_label g) (records_label g) (records_tree g) (frequent_tree g) (day_tree g) (common_tree g) (stats_cards_frame g) (stats_grid g) v (summary_text g) (target_combo g) (target_var g) (export_btn g) (export_records_btn g) (copy_btn g) (notebook g) (messagebox g).
Definition set_summary_text (v : pystr) (g : gui) : gui :=
  mkGui (all_records g) (analytics g) (current_target_number g) (filtered_records g) (status_var g) (file_info_label g) (target_label g) (records_label g) (records_tree g) (frequent_tree g) (day_tree g) (common_tree g) (stats_cards_frame g) (stats_grid g) (no_data_label g) v (target_combo g) (target_var g) (export_btn g) (export_records_btn g) (copy_btn g) (notebook g) (messagebox g).
Definition set_target_combo (v : list pystr) (g : gui) : gui :=
  mkGui (all_records g) (analytics g) (current_target_number g) (filtered_records g) (status_var g) (file_info_label g) (target_label g) (records_label g) (records_tree g) (frequent_tree g) (day_tree g) (common_tree g) (stats_cards_frame g) (stats_grid g) (no_data_label g) (summary_text g) v (target_var g) (export_btn g) (export_records_btn g) (copy_btn g) (notebook g) (messagebox g).
Definition set_target_var (v : pystr) (g : gui) : gui :=
  mkGui (all_records g) (analytics g) (current_target_number g) (filtered_records g) (status_var g) (file_info_label g) (target_label g) (records_label g) (records_tree g) (frequent_tree g) (day_tree g) (common_tree g) (stats_cards_frame g) (stats_grid g) (no_data_label g) (summary_text g) (target_combo g) v (export_btn g) (export_records_btn g) (copy_btn g) (notebook g) (messagebox g).
Definition set_export_btn (v : bool) (g : gui) : gui :=
  mkGui (all_records g) (analytics g) (current_target_number g) (filtered_records g) (status_var g) (file_info_label g) (target_label g) (records_label g) (records_tree g) (frequent_tree g) (day_tree g) (common_tree g) (stats_cards_frame g) (stats_grid g) (no_data_label g) (summary_text g) (target_combo g) (target_var g) v (export_records_btn g) (copy_btn g) (notebook g) (messagebox g).
Definition set_export_records_btn (v : bool) (g : gui) : gui :=
  mkGui (all_records g) (analytics g) (current_target_number g) (filtered_records g) (status_var g) (file_info_label g) (target_label g) (records_label g) (records_tree g) (frequent_tree g) (day_tree g) (common_tree g) (stats_cards_frame g) (stats_grid g) (no_data_label g) (summary_text g) (target_combo g) (target_var g) (export_btn g) v (copy_btn g) (notebook g) (messagebox g).
Definition set_copy_btn (v : bool) (g : gui) : gui :=
  mkGui (all_records g) (analytics g) (current_target_number g) (filtered_records g) (status_var g) (file_info_label g) (target_label g) (records_label g) (records_tree g) (frequent_tree g) (day_tree g) (common_tree g) (stats_cards_frame g) (stats_grid g) (no_data_label g) (summary_text g) (target_combo g) (target_var g) (export_btn g) (export_records_btn g) v (notebook g) (messagebox g).
Definition set_notebook (v : nat) (g : gui) : gui :=
  mkGui (all_records g) (analytics g) (current_target_number g) (filtered_records g) (status_var g) (file_info_label g) (target_label g) (records_label g) (records_tree g) (frequent_tree g) (day_tree g) (common_tree g) (stats_cards_frame g) (stats_grid g) (no_data_label g) (summary_text g) (target_combo g) (target_var g) (export_btn g) (export_records_btn g) (copy_btn g) v (messagebox g).
Definition set_messagebox (v : list (dialog * pystr * pystr)) (g : gui) : gui :=
  mkGui (all_records g) (analytics g) (current_target_number g) (filtered_records g) (status_var g) (file_info_label g) (target_label g) (records_label g) (records_tree g) (frequent_tree g) (day_tree g) (common_tree g) (stats_cards_frame g) (stats_grid g) (no_data_label g) (summary_text g) (target_combo g) (target_var g) (export_btn g) (export_records_btn g) (copy_btn g) (notebook g) v.

(** A handler: it changes the window and returns, or raises part way,
    leaving the changes made so far. *)
Definition action : Type := gui -> gui * result unit.

Definition modify (f : gui -> gui) : action := fun g => (f g, Return tt).

Definition raising (e : exn) : action := fun g => (g, Raise e).

Definition and_then (a b : action) : action :=
  fun g =>
    match a g with
    | (g', Return _) => b g'
    | (g', Raise e) => (g', Raise e)
    end.

Notation "a >>> b" := (and_then a b) (at level 65, right associativity).

(** The body of a handler that starts with [if not self.analytics: return]. *)
Definition with_analytics (k : Analytics -> action) : action :=
  fun g =>
    match analytics g with
    | None => (g, Return tt)
    | Some a => k a g
    end.

(** Reading [analytics.common_contacts]. *)
Definition no_common_contacts : exn :=
  mkExn AttributeError (py "'Analytics' object has no attribute 'common_contacts'").

Fixpoint insert_str (x : pystr) (l : list pystr) : list pystr :=
  match l with
  | [] => [x]
  | y :: l' => if lex_ltb y x then y :: insert_str x l' else x :: l
  end.

(** [sorted(l)] for a list of strings. *)
Definition sorted_strs (l : list pystr) : list pystr := fold_right insert_str [] l.

(** [len([r for r in all_records if r.target_number == target_num])] *)
Definition calls_of_target (all_records : list CallRecord) (target_num : pystr) : nat :=
  length (List.filter (fun r => bool_decide (target_number r = target_num)) all_records).

Definition add_message (kind : dialog) (title message : pystr) (g : gui) : gui :=
  set_messagebox (messagebox g ++ [(kind, title, message)]) g.

Section Window.

(** [f"{x:.1f}"] and [f"{x:.2f}"] *)
Variable format_1f : Q -> pystr.
Variable format_2f : Q -> pystr.
Variable basename : pystr -> pystr.
Variable set_iter : gset pystr -> list pystr.

Definition record_values (r : CallRecord) : list (option cell_value) :=
  [ VStr <$> direction r;
    str_cell (target_number r);
    VStr <$> remote_number r;
    str_cell (normalized_number r);
    str_cell (date_time r);
    str_cell (format_2f (duration_minutes r));
    str_cell (day_of_week r);
    str_cell (source_file r) ].

Definition _update_records_table : action :=
  modify (fun g =>
    set_records_label
      (py "Showing " ++ str_of_int (Z.of_nat (length (filtered_records g)))
         ++ py " call records")
      (set_records_tree (map record_values (filtered_records g)) g)).

Definition _update_statistics_cards : action :=
  modify (set_stats_cards_frame []) >>>
  with_analytics (fun a =>
    modify (set_stats_cards_frame
      [ (py "Total Calls", str_of_int (total_calls a), [128222%N]);
        (py "Incoming", str_of_int (incoming_calls a), [128229%N]);
        (py "Outgoing", str_of_int (outgoing_calls a), [128228%N]);
        (py "Unique Numbers", str_of_int (unique_numbers a), [128101%N]) ])).

Definition common_rows (contacts : list contact) : list (list (option cell_value)) :=
  map (fun c =>
         [str_cell (contact_number c);
          str_cell (join (py ", ") (contact_target_numbers c));
          int_cell (contact_count c)])
      contacts.

Definition _update_analytics : action :=
  with_analytics (fun a =>
    _update_statistics_cards >>>
    modify (set_frequent_tree
      (imap (fun i nc => [int_cell (Z.of_nat (S i)); str_cell nc.1; int_cell nc.2])
            (most_frequent_numbers a))) >>>
    modify (set_day_tree
      (map (fun dc => [str_cell dc.1; int_cell dc.2])
           (sorted_items (calls_by_day a)))) >>>
    modify (set_common_tree []) >>>
    match common_contacts a with
    | None => raising no_common_contacts
    | Some contacts => modify (set_common_tree (common_rows contacts))
    end >>>
    modify (set_no_data_label false)).

Definition _update_statistics : action :=
  with_analytics (fun a =>
    modify (set_stats_grid
      [ (py "Total Calls", str_of_int (total_calls a));
        (py "Incoming", str_of_int (incoming_calls a));
        (py "Outgoing", str_of_int (outgoing_calls a));
        (py "Unique Numbers", str_of_int (unique_numbers a));
        (py "Target Numbers", str_of_int (Z.of_nat (size (target_numbers a))));
        (py "Files Processed", str_of_int (Z.of_nat (size (files_processed a))));
        (py "Total Duration", format_1f (total_duration_minutes a) ++ py " min");
        (py "Avg Duration", format_1f (average_call_duration a) ++ py " min") ])).

(** The bullet of the report lines, U+2022 and a blank. *)
Definition bullet : pystr := [8226%N; 32%N].

Definition nl : pystr := [10%N].

(** The target lines of the summary: one per target number, sorted. *)
Definition target_lines (all_records : list CallRecord) (a : Analytics) : list pystr :=
  map (fun target_num =>
         bullet ++ target_num ++ py ": "
         ++ str_of_int (Z.of_nat (calls_of_target all_records target_num))
         ++ py " calls")
      (sorted_strs (set_iter (target_numbers a))).

(** The lines of [_update_summary], given the common contacts it read. *)
Definition summary_lines (all_records : list CallRecord) (a : Analytics)
    (contacts : list contact) : list pystr :=
  [ py "=== TELECOMMUNICATION DATA ANALYSIS ===" ++ nl;
    py "Total Calls: " ++ str_of_int (total_calls a);
    py "Incoming Calls: " ++ str_of_int (incoming_calls a);
    py "Outgoing Calls: " ++ str_of_int (outgoing_calls a);
    py "Unique Phone Numbers: " ++ str_of_int (unique_numbers a);
    py "Target Numbers: " ++ str_of_int (Z.of_nat (size (target_numbers a)));
    py "Files Processed: " ++ str_of_int (Z.of_nat (size (files_processed a)));
    py "Total Duration: " ++ format_2f (total_duration_minutes a) ++ py " minutes";
    py "Average Call Duration: " ++ format_2f (average_call_duration a)
      ++ py " minutes" ++ nl;
    py "=== TARGET NUMBERS ===" ]
  ++ target_lines all_records a
  ++ [ nl ++ py "=== MOST FREQUENT NUMBERS ===" ]
  ++ imap (fun i nc =>
             str_of_int (Z.of_nat (S i)) ++ py ". " ++ nc.1 ++ py " ("
             ++ str_of_int nc.2 ++ py " calls)")
          (most_frequent_numbers a)
  ++ match contacts with
     | [] => []
     | _ :: _ =>
         (nl ++ py "=== COMMON CONTACTS ACROSS TARGET NUMBERS ===")
         :: map (fun c =>
                   bullet ++ contact_number c ++ py ": appears in "
                   ++ str_of_int (contact_count c) ++ py " target numbers ("
                   ++ join (py ", ") (contact_target_numbers c) ++ py ")")
                contacts
     end
  ++ [ nl ++ py "=== CALLS BY DAY ===" ]
  ++ map (fun dc => dc.1 ++ py ": " ++ str_of_int dc.2 ++ py " calls")
         (sorted_items (calls_by_day a)).

Definition _update_summary : action :=
  with_analytics (fun a g =>
    match common_contacts a with
    | None => (g, Raise no_common_contacts)
    | Some contacts =>
        (set_summary_text (join nl (summary_lines (all_records g) a contacts)) g,
         Return tt)
    end).

Definition _update_target_selector : action :=
  modify (fun g =>
    match analytics g with
    | Some a =>
        if bool_decide (target_numbers a = ∅)
        then set_target_var [] (set_target_combo [] g)
        else
          set_target_var (py "All Target Numbers")
            (set_target_combo
               (py "All Target Numbers" :: sorted_strs (set_iter (target_numbers a)))
               g)
    | None => set_target_var [] (set_target_combo [] g)
    end).

(** The handler the thread schedules on success.  (The constructor of
    [callback] has its name; this is the method.) *)
Definition on_processing_finished (records : list CallRecord) (a : Analytics)
    (file_paths : list pystr) : action :=
  modify (fun g =>
    set_filtered_records records (set_analytics (Some a) (set_all_records records g))) >>>
  modify (set_status_var
    (py "Successfully processed " ++ str_of_int (Z.of_nat (length records))
     ++ py " call records from " ++ str_of_int (Z.of_nat (length file_paths))
     ++ py " files")) >>>
  modify (set_file_info_label
    (py "Loaded: " ++ join (py ", ") (map basename file_paths) ++ py " ("
     ++ str_of_int (Z.of_nat (length records)) ++ py " records)")) >>>
  _update_records_table >>>
  _update_analytics >>>
  _update_summary >>>
  _update_statistics >>>
  _update_target_selector >>>
  modify (fun g => set_copy_btn true (set_export_records_btn true (set_export_btn true g))) >>>
  modify (set_notebook 1) >>>
  modify (add_message showinfo (py "Success")
    (py "Successfully processed " ++ str_of_int (Z.of_nat (length records))
     ++ py " call records from " ++ str_of_int (Z.of_nat (length file_paths))
     ++ py " files!")).

(** The handler the thread schedules on failure. *)
Definition on_processing_error (error_message : pystr) : action :=
  modify (set_status_var (py "Error: " ++ error_message)) >>>
  modify (add_message showerror (py "Error")
            (py "Failed to process file:" ++ nl ++ error_message)).

(** The main loop running the callback the thread scheduled. *)
Definition run_callback (cb : callback) : action :=
  match cb with
  | _on_processing_finished records a file_paths =>
      on_processing_finished records a file_paths
  | _on_processing_error error_message => on_processing_error error_message
  end.

Definition _clear_all : action :=
  modify (fun g =>
    set_current_target_number None
      (set_analytics None (set_filtered_records [] (set_all_records [] g)))) >>>
  _update_records_table >>>
  _update_analytics >>>
  _update_summary >>>
  _update_statistics >>>
  _update_target_selector >>>
  modify (fun g => set_copy_btn false (set_export_records_btn false (set_export_btn false g))) >>>
  modify (set_file_info_label (py "No files selected")) >>>
  modify (set_target_label (py "Select a target number to view its records")) >>>
  modify (set_notebook 0) >>>
  modify (set_status_var (py "Ready to process files")).


End Window.

(** The window as [__init__] leaves it; [no_data_label] tells whether the
    "No analytics available" label is shown. *)
Definition initial_window : gui :=
  mkGui [] None None []
    (py "Ready to process files")
    (py "No files selected")
    (py "Select a target number to view its records")
    (py "No call records loaded")
    [] [] [] [] [] [] true [] [] [] false false false 0 [].

(** [a <= b] on strings. *)
Definition lex_le (a b : pystr) : Prop := lex_ltb b a = false.

Section ExportButton.
Variable strftime : datetime -> pystr -> pystr.
Variable format_2f : Q -> pystr.
(** [wb.save(output_path)] *)
Variable save : pystr -> workbook -> result unit.

(** [ExcelExporter.export_data] with its [wb.save]. *)
Definition export_and_save (records : list CallRecord) (analytics : Analytics)
    (output_path : pystr) : result unit :=
  match export_data strftime format_2f records analytics with
  | Return wb =>
      match save output_path wb with
      | Return _ => Return tt
      | Raise e =>
          Raise (mkExn Exception_ (py "Excel export failed: " ++ exn_msg e))
      end
  | Raise e => Raise e
  end.

(** [_export_to_excel], where [file_path] is what the save dialog returns
    (the empty string when it is cancelled). *)
Definition _export_to_excel (file_path : pystr) : action :=
  fun g =>
    match all_records g, analytics g with
    | _ :: _, Some a =>
        if truthy file_path then
          match export_and_save (all_records g) a file_path with
          | Return _ =>
              modify (add_message showinfo (py "Success")
                        (py "Successfully exported to:" ++ nl ++ file_path)) g
          | Raise e =>
              modify (add_message showerror (py "Error")
                        (py "Export failed:" ++ nl ++ exn_msg e)) g
          end
        else (g, Return tt)
    | _, _ =>
        modify (add_message showwarning (py "Warning") (py "No data to export")) g
    end.

End ExportButton.

(* ===================================================================== *)
(** * Properties *)
(* ===================================================================== *)

(** ** Strings *)


Lemma is_decimal_zero : is_decimal 48%N = true.
Proof. reflexivity. Qed.

Lemma is_decimal_not_sign (c : N) :
  is_decimal c = true -> ((c =? 43)%N || (c =? 45)%N) = false.
Proof.
  intros H. destruct (orb_false_iff (c =? 43)%N (c =? 45)%N) as [_ K].
  destruct ((c =? 43)%N || (c =? 45)%N) eqn:E; [|reflexivity].
  apply orb_true_iff in E as [E|E]; apply N.eqb_eq in E; subst; discriminate H.
Qed.

(** An ASCII code point is a decimal digit only if it is one of '0'..'9'. *)
Lemma is_decimal_ascii (c : N) :
  is_ascii c = true -> is_decimal c = true -> is_ascii_digit c = true.
Proof.
  unfold is_ascii, is_decimal, is_ascii_digit. intros Ha Hd.
  apply N.ltb_lt in Ha.
  apply existsb_exists in Hd as (z & Hz & Hc).
  apply andb_true_iff in Hc as [H1 H2].
  apply N.leb_le in H1. apply N.ltb_lt in H2.
  apply andb_true_iff. rewrite !N.leb_le.
  unfold decimal_zeros in Hz.
  repeat (destruct Hz as [<-|Hz]; [lia|]). destruct Hz.
Qed.

(** ** The phone-number normaliser *)

Lemma digits_only_decimal (number : option pystr) :
  Forall (fun c => is_decimal c = true) (digits_only number).
Proof.
  unfold digits_only. apply List.Forall_forall. intros c Hc.
  apply List.filter_In in Hc. tauto.
Qed.

Lemma zfill_short_digits (d : pystr) :
  Forall (fun c => is_decimal c = true) d ->
  length d < 10 ->
  zfill 10 d = repeat 48%N (10 - length d) ++ d.
Proof.
  intros Hd Hlen. unfold zfill.
  destruct (Nat.leb_spec 10 (length d)) as [H|_]; [lia|].
  destruct d as [|c rest]; [rewrite app_nil_r; reflexivity|].
  inversion Hd as [|? ? Hc _]; subst.
  rewrite (is_decimal_not_sign c Hc). reflexivity.
Qed.

(** The four branches of the normaliser, by the number of digits kept. *)
Lemma normalize_cases (number : option pystr) :
  let d := digits_only number in
  let r := _normalize_phone_number number in
  (length d = 10 /\ r = d) \/
  (length d = 11 /\ r = drop 1 d) \/
  (10 < length d /\ r = drop (length d - 10) d) \/
  (length d < 10 /\ r = repeat 48%N (10 - length d) ++ d).
Proof.
  intros d r. subst r. unfold _normalize_phone_number. fold d.
  destruct (Nat.eqb_spec (length d) 10) as [E|NE]; [left; auto|].
  destruct (Nat.eqb_spec (length d) 11) as [E1|NE1]; simpl.
  - destruct (startswith1 49%N d); [right; left; auto|].
    destruct (Nat.ltb_spec 10 (length d)); [|lia].
    right; right; left. split; [lia|reflexivity].
  - destruct (Nat.ltb_spec 10 (length d)).
    + right; right; left. split; [lia|reflexivity].
    + right; right; right. split; [lia|].
      apply zfill_short_digits; [apply digits_only_decimal|lia].
Qed.

Lemma normalize_length (number : option pystr) :
  length (_normalize_phone_number number) = 10.
Proof.
  destruct (normalize_cases number) as [[H ->]|[[H ->]|[[H ->]|[H ->]]]].
  - exact H.
  - rewrite length_drop. lia.
  - rewrite length_drop. lia.
  - rewrite length_app, repeat_length. lia.
Qed.

Lemma normalize_Forall (P : N -> Prop) (number : option pystr) :
  P 48%N -> Forall P (digits_only number) ->
  Forall P (_normalize_phone_number number).
Proof.
  intros H0 Hd.
  destruct (normalize_cases number) as [[H ->]|[[H ->]|[[H ->]|[H ->]]]].
  - exact Hd.
  - apply Forall_drop, Hd.
  - apply Forall_drop, Hd.
  - apply Forall_app. split; [|exact Hd].
    apply List.Forall_forall. intros c Hc. apply repeat_spec in Hc. subst. exact H0.
Qed.

(** C1 (as the code has it): for every input (a string, or [None], which
    [str()] turns into a string) the normaliser returns a string of exactly
    10 characters, each a decimal digit in the sense of the pattern class
    [\d]; when the input has no character outside ASCII, each of the 10 is
    an ASCII digit. *)
Theorem normalize_ten_decimal_digits (number : option pystr) :
  length (_normalize_phone_number number) = 10 /\
  Forall (fun c => is_decimal c = true) (_normalize_phone_number number) /\
  (forallb is_ascii (py_str number) = true ->
   forallb is_ascii_digit (_normalize_phone_number number) = true).
Proof.
  split; [apply normalize_length|]. split.
  - apply normalize_Forall; [reflexivity|apply digits_only_decimal].
  - intros Ha. apply forallb_forall. apply List.Forall_forall.
    apply normalize_Forall; [reflexivity|].
    apply List.Forall_forall. intros c Hc.
    unfold digits_only in Hc. apply List.filter_In in Hc as [Hin Hdec].
    apply is_decimal_ascii; [|exact Hdec].
    rewrite forallb_forall in Ha. apply Ha, Hin.
Qed.

(** C1 as stated fails: ARABIC-INDIC DIGIT THREE (U+0663) is matched by [\d],
    so it is kept, and the result is not made of ASCII digits. *)
Lemma normalize_not_ascii_digits :
  normalize [1635%N] = py "000000000" ++ [1635%N] /\
  forallb is_ascii_digit (normalize [1635%N]) = false.
Proof. split; reflexivity. Qed.

(** C5 (as the code has it): the example equations, the fourth with the
    last ten digits of its input. *)
Theorem normalize_examples :
  normalize (py "5551234567") = py "5551234567" /\
  normalize (py "15551234567") = py "5551234567" /\
  normalize (py "+1 (555) 123-4567") = py "5551234567" /\
  normalize (py "12345551234567") = py "5551234567" /\
  normalize (py "42") = py "0000000042".
Proof. repeat split; reflexivity. Qed.

(** C5 as stated fails on its fourth equation. *)
Lemma normalize_fourth_example_differs :
  normalize (py "12345551234567") <> py "1234567".
Proof. intros H. discriminate H. Qed.

(** ** Order of occurrence, stable sorting *)

Section BeforeFacts.
Context {A : Type}.
Implicit Types (a b x : A) (l : list A).

Lemma before_In a b l : before a b l -> In a l /\ In b l.
Proof.
  induction l as [|y l IH]; simpl; [tauto|].
  intros [[-> Hb]|H]; [tauto|]. apply IH in H. tauto.
Qed.

Lemma before_split a b l :
  before a b l <-> exists l1 l2 l3, l = l1 ++ a :: l2 ++ b :: l3.
Proof.
  split.
  - induction l as [|y l IH]; simpl; [tauto|].
    intros [[-> Hb]|H].
    + apply in_split in Hb as (l2 & l3 & ->). exists [], l2, l3. reflexivity.
    + destruct (IH H) as (l1 & l2 & l3 & ->). exists (y :: l1), l2, l3. reflexivity.
  - intros (l1 & l2 & l3 & ->). induction l1 as [|y l1 IH]; simpl.
    + left. split; [reflexivity|]. apply in_or_app. right. left. reflexivity.
    + right. exact IH.
Qed.

Lemma before_app_l a b l l' : before a b l -> before a b (l ++ l').
Proof.
  rewrite !before_split. intros (l1 & l2 & l3 & ->).
  exists l1, l2, (l3 ++ l'). rewrite <- !app_assoc. simpl.
  rewrite <- !app_assoc. reflexivity.
Qed.

Lemma before_take a b n l : before a b (take n l) -> before a b l.
Proof.
  intros H. rewrite <- (take_drop n l). apply before_app_l, H.
Qed.

Lemma before_cons_In a b l : In b l -> before a b (a :: l).
Proof. intros H. left. auto. Qed.

Lemma before_filter (f : A -> bool) a b l :
  before a b (List.filter f l) -> before a b l.
Proof.
  induction l as [|y l IH]; simpl; [tauto|].
  destruct (f y); simpl.
  - intros [[-> Hb]|H]; [left|right; auto].
    split; [reflexivity|]. apply List.filter_In in Hb. tauto.
  - intros H. right. auto.
Qed.
End BeforeFacts.

Lemma before_map {A B} (f : A -> B) (a b : A) (l : list A) :
  before a b l -> before (f a) (f b) (map f l).
Proof.
  induction l as [|y l IH]; simpl; [tauto|].
  intros [[-> Hb]|H]; [left|right; auto].
  split; [reflexivity|]. apply in_map, Hb.
Qed.

Section SortFacts.
Context {A : Type} (key : A -> Z).
Implicit Types (a b x : A) (l s : list A).

(** Sorted by decreasing key. *)
Definition descending l : Prop :=
  StronglySorted (fun a b => (key b <= key a)%Z) l.

Lemma insert_desc_perm x l : Permutation (insert_desc key x l) (x :: l).
Proof.
  induction l as [|y l IH]; simpl; [reflexivity|].
  destruct (key y <=? key x)%Z; [reflexivity|].
  rewrite IH. apply perm_swap.
Qed.

Lemma sorted_desc_perm l : Permutation (sorted_desc key l) l.
Proof.
  induction l as [|x l IH]; simpl; [reflexivity|].
  rewrite insert_desc_perm. constructor. exact IH.
Qed.

Lemma sorted_desc_In x l : In x (sorted_desc key l) <-> In x l.
Proof.
  split; apply Permutation_in; [|symmetry]; apply sorted_desc_perm.
Qed.

Lemma insert_desc_descending x s :
  descending s -> descending (insert_desc key x s).
Proof.
  unfold descending. induction 1 as [|y s Hs IH Hy]; simpl.
  - repeat constructor.
  - destruct (Z.leb_spec (key y) (key x)).
    + constructor; [constructor; assumption|].
      constructor; [assumption|].
      eapply List.Forall_impl; [|exact Hy]. simpl. intros; lia.
    + constructor; [exact IH|].
      apply List.Forall_forall. intros z Hz.
      apply (Permutation_in _ (insert_desc_perm x s)) in Hz as [<-|Hz]; [lia|].
      rewrite List.Forall_forall in Hy. auto.
Qed.

Lemma sorted_desc_descending l : descending (sorted_desc key l).
Proof.
  induction l as [|x l IH]; simpl; [constructor|].
  apply insert_desc_descending, IH.
Qed.

Lemma before_insert_desc a b x s :
  descending s ->
  before a b (insert_desc key x s) ->
  (a = x /\ In b s /\ (key b <= key x)%Z) \/
  (b = x /\ In a s /\ (key x < key a)%Z) \/
  before a b s.
Proof.
  unfold descending. induction 1 as [|y s Hs IH Hy]; simpl.
  - intros [[_ []]|[]].
  - rewrite List.Forall_forall in Hy.
    destruct (Z.leb_spec (key y) (key x)) as [Hle|Hlt]; simpl.
    + intros [[-> [<-|Hb]]|H]; [left|left|right; right; exact H].
      * split; [reflexivity|]. split; [left; reflexivity|lia].
      * split; [reflexivity|]. split; [right; exact Hb|].
        specialize (Hy _ Hb). simpl in Hy. lia.
    + intros [[-> Hb]|Hab].
      * apply (Permutation_in _ (insert_desc_perm x s)) in Hb as [<-|Hb].
        -- right; left. split; [reflexivity|]. split; [left; reflexivity|lia].
        -- right; right. left. auto.
      * destruct (IH Hab) as [(-> & Hb & Hk)|[(-> & Ha & Hk)|Hb]].
        -- left. auto.
        -- right; left. auto.
        -- right; right. right. exact Hb.
Qed.

(** The ranking a stable descending sort produces: of two entries, the one
    placed first has the larger key, or the same key and an earlier place
    in the input. *)
Lemma sorted_desc_before a b l :
  before a b (sorted_desc key l) ->
  (key b < key a)%Z \/ (key a = key b /\ before a b l).
Proof.
  revert a b. induction l as [|x l IH]; simpl; [tauto|].
  intros a b H.
  apply before_insert_desc in H; [|apply sorted_desc_descending].
  destruct H as [(-> & Hb & Hk)|[(-> & Ha & Hk)|H]].
  - apply (proj1 (sorted_desc_In _ _)) in Hb.
    destruct (Z.eq_dec (key b) (key x)) as [E|NE]; [right|left; lia].
    split; [lia|]. left. auto.
  - left. exact Hk.
  - destruct (IH _ _ H) as [?|[? ?]]; [left; assumption|right].
    split; [assumption|]. right. assumption.
Qed.
End SortFacts.

(** ** Dicts and the counting loop *)

Section DictFacts.
Context {K V : Type} `{EqDecision K}.
Implicit Types (k : K) (v : V) (d : list (K * V)).

Lemma dict_mem_keys k d : dict_mem k d = true <-> In k (map fst d).
Proof.
  induction d as [|[k' v'] d IH]; simpl; [split; [discriminate|tauto]|].
  destruct (decide (k = k')) as [->|NE]; [tauto|].
  rewrite IH. split; [tauto|]. intros [E|?]; [congruence|assumption].
Qed.

Lemma dict_get_set_eq k v default d :
  dict_get k default (dict_set k v d) = v.
Proof.
  induction d as [|[k' v'] d IH]; simpl.
  - destruct (decide (k = k)); congruence.
  - destruct (decide (k = k')) as [->|NE]; simpl.
    + destruct (decide (k' = k')); congruence.
    + destruct (decide (k = k')); congruence.
Qed.

Lemma dict_get_set_ne k k' v default d :
  k <> k' -> dict_get k' default (dict_set k v d) = dict_get k' default d.
Proof.
  intros NE. induction d as [|[k0 v0] d IH]; simpl.
  - destruct (decide (k' = k)); congruence.
  - destruct (decide (k = k0)) as [->|NE0]; simpl.
    + destruct (decide (k' = k0)); congruence.
    + destruct (decide (k' = k0)); congruence.
Qed.

Lemma dict_set_keys k v d :
  map fst (dict_set k v d) =
  if dict_mem k d then map fst d else map fst d ++ [k].
Proof.
  induction d as [|[k' v'] d IH]; simpl; [reflexivity|].
  destruct (decide (k = k')) as [->|NE]; simpl; [reflexivity|].
  rewrite IH. destruct (dict_mem k d); reflexivity.
Qed.

Lemma dict_get_In k default d :
  In k (map fst d) -> In (k, dict_get k default d) d.
Proof.
  induction d as [|[k' v'] d IH]; simpl; [tauto|].
  destruct (decide (k = k')) as [->|NE]; [auto|].
  intros [E|Hk]; [congruence|auto].
Qed.

Lemma dict_In_get k v default d :
  NoDup (map fst d) -> In (k, v) d -> dict_get k default d = v.
Proof.
  induction d as [|[k' v'] d IH]; simpl; [tauto|].
  intros Hnd Hin. apply NoDup_cons in Hnd as [Hk' Hnd].
  destruct (decide (k = k')) as [->|NE].
  - destruct Hin as [E|Hin]; [congruence|].
    exfalso. apply Hk'. apply list_elem_of_In.
    apply (in_map fst) in Hin. exact Hin.
  - destruct Hin as [E|Hin]; [congruence|auto].
Qed.
End DictFacts.

Section TallyFacts.
Context {K : Type} `{EqDecision K}.
Implicit Types (k x : K) (xs seen : list K) (d : list (K * Z)).

Let step := fun d x => dict_set x (dict_get x 0 d + 1)%Z d.

Lemma first_seen_ext seen seen' xs :
  (forall x, x ∈ seen <-> x ∈ seen') -> first_seen seen xs = first_seen seen' xs.
Proof.
  revert seen seen'. induction xs as [|x xs IH]; intros seen seen' E; simpl.
  - reflexivity.
  - destruct (decide (x ∈ seen)) as [Hx|Hx], (decide (x ∈ seen')) as [Hx'|Hx'].
    + apply IH, E.
    + apply E in Hx. contradiction.
    + apply E in Hx'. contradiction.
    + f_equal. apply IH. intros y. rewrite !elem_of_cons, E. reflexivity.
Qed.

Lemma first_seen_In a seen xs :
  In a (first_seen seen xs) <-> In a xs /\ ~ a ∈ seen.
Proof.
  revert seen. induction xs as [|x xs IH]; intros seen; simpl; [tauto|].
  destruct (decide (x ∈ seen)) as [Hx|Hx]; simpl; rewrite IH.
  - split; [tauto|]. intros [[<-|Ha] Hn]; [contradiction|tauto].
  - rewrite elem_of_cons. split.
    + intros [<-|[Ha Hn]]; [tauto|]. split; [tauto|]. tauto.
    + intros [[<-|Ha] Hn]; [tauto|].
      destruct (decide (a = x)) as [->|NE]; [tauto|]. right. tauto.
Qed.

Lemma first_seen_NoDup seen xs : NoDup (first_seen seen xs).
Proof.
  revert seen. induction xs as [|x xs IH]; intros seen; simpl; [constructor|].
  destruct (decide (x ∈ seen)); [apply IH|].
  constructor; [|apply IH].
  rewrite list_elem_of_In, first_seen_In, elem_of_cons. tauto.
Qed.

Lemma first_seen_before a b seen xs :
  before a b (first_seen seen xs) -> index_of a xs < index_of b xs.
Proof.
  revert seen. induction xs as [|x xs IH]; intros seen; simpl; [tauto|].
  destruct (decide (x ∈ seen)) as [Hx|Hx].
  - intros Hab. pose proof (before_In _ _ _ Hab) as [Ha Hb].
    apply first_seen_In in Ha as [_ Ha], Hb as [_ Hb].
    destruct (decide (a = x)) as [->|_]; [contradiction|].
    destruct (decide (b = x)) as [->|_]; [contradiction|].
    apply IH in Hab. lia.
  - simpl. intros [[-> Hb]|Hab].
    + apply first_seen_In in Hb as [_ Hb]. rewrite elem_of_cons in Hb.
      destruct (decide (x = x)); [|congruence].
      destruct (decide (b = x)); [tauto|lia].
    + pose proof (before_In _ _ _ Hab) as [Ha Hb].
      apply first_seen_In in Ha as [_ Ha], Hb as [_ Hb].
      rewrite elem_of_cons in Ha, Hb.
      destruct (decide (a = x)); [tauto|].
      destruct (decide (b = x)); [tauto|].
      apply IH in Hab. lia.
Qed.

Lemma tally_from_get k xs d :
  dict_get k 0%Z (fold_left step xs d) = (dict_get k 0 d + occurrences k xs)%Z.
Proof.
  revert d. induction xs as [|x xs IH]; intros d; simpl; [lia|].
  rewrite IH. unfold step.
  destruct (decide (k = x)) as [->|NE].
  - rewrite dict_get_set_eq. lia.
  - rewrite dict_get_set_ne by congruence. lia.
Qed.

Lemma tally_from_keys xs d :
  map fst (fold_left step xs d) = map fst d ++ first_seen (map fst d) xs.
Proof.
  revert d. induction xs as [|x xs IH]; intros d; simpl.
  - rewrite app_nil_r. reflexivity.
  - rewrite IH. unfold step. rewrite dict_set_keys.
    destruct (dict_mem x d) eqn:E.
    + apply dict_mem_keys, list_elem_of_In in E.
      destruct (decide (x ∈ map fst d)); [reflexivity|contradiction].
    + assert (~ x ∈ map fst d) as Hx.
      { rewrite list_elem_of_In, <- dict_mem_keys, E. discriminate. }
      destruct (decide (x ∈ map fst d)); [contradiction|].
      rewrite <- app_assoc. simpl. do 2 f_equal.
      apply first_seen_ext. intros y.
      rewrite elem_of_app, !elem_of_cons, elem_of_nil. tauto.
Qed.

Lemma tally_keys xs : map fst (tally xs) = first_seen [] xs.
Proof. unfold tally. fold step. rewrite tally_from_keys. reflexivity. Qed.

Lemma tally_NoDup xs : NoDup (map fst (tally xs)).
Proof. rewrite tally_keys. apply first_seen_NoDup. Qed.

(** The tally holds each distinct element once, with its number of
    occurrences. *)
Lemma tally_In k c xs :
  In (k, c) (tally xs) <-> In k xs /\ c = occurrences k xs.
Proof.
  assert (dict_get k 0%Z (tally xs) = occurrences k xs) as Hget.
  { unfold tally. fold step. rewrite tally_from_get. reflexivity. }
  assert (In k (map fst (tally xs)) <-> In k xs) as Hkeys.
  { rewrite tally_keys, first_seen_In. rewrite elem_of_nil. tauto. }
  split.
  - intros Hin. split.
    + apply Hkeys. apply (in_map fst) in Hin. exact Hin.
    + rewrite <- Hget. symmetry. apply dict_In_get; [apply tally_NoDup|exact Hin].
  - intros [Hk ->]. rewrite <- Hget. apply dict_get_In, Hkeys, Hk.
Qed.

(** The tally lists the elements in the order in which they first occur. *)
Lemma tally_before (e1 e2 : K * Z) xs :
  before e1 e2 (tally xs) -> index_of e1.1 xs < index_of e2.1 xs.
Proof.
  intros Hb. apply (before_map fst) in Hb. rewrite tally_keys in Hb.
  eapply first_seen_before, Hb.
Qed.
End TallyFacts.

(** ** Analytics: the most frequent numbers *)

(** The list the sort and the slice of lines 106-110 give: the first ten
    entries of a ranking of the distinct normalized numbers. *)
Lemma most_frequent_ranked (records : list CallRecord) :
  let numbers := map normalized_number records in
  exists ranking : list (pystr * Z),
    most_frequent records = take 10 ranking /\
    NoDup (map fst ranking) /\
    (forall n c, In (n, c) ranking <->
                 In n numbers /\ c = occurrences n numbers) /\
    (forall e1 e2, before e1 e2 ranking ->
       (e2.2 < e1.2)%Z \/
       (e1.2 = e2.2 /\ index_of e1.1 numbers < index_of e2.1 numbers)).
Proof.
  intros numbers.
  exists (sorted_desc snd (number_counts records)).
  unfold number_counts. fold numbers.
  split; [reflexivity|]. split; [|split].
  - rewrite (Permutation_map fst (sorted_desc_perm snd (tally numbers))).
    apply tally_NoDup.
  - intros n c. rewrite sorted_desc_In. apply tally_In.
  - intros e1 e2 Hb. apply sorted_desc_before in Hb as [Hlt|[Heq Hb]].
    + left. exact Hlt.
    + right. split; [exact Heq|]. apply tally_before, Hb.
Qed.

(** ** Analytics: longest and shortest call *)

Section MaxMinFacts.
Context {A : Type} (key : A -> Z).
Implicit Types (x best : A) (l pre mid : list A).

Lemma max_from_split pre best mid l :
  Forall (fun x => (key x < key best)%Z) pre ->
  Forall (fun x => (key x <= key best)%Z) mid ->
  exists l1 l2,
    pre ++ best :: mid ++ l = l1 ++ max_from key best l :: l2 /\
    Forall (fun x => (key x < key (max_from key best l))%Z) l1 /\
    Forall (fun x => (key x <= key (max_from key best l))%Z) l2.
Proof.
  revert pre best mid. induction l as [|x l IH]; intros pre best mid Hpre Hmid; simpl.
  - exists pre, mid. rewrite app_nil_r. auto.
  - destruct (Z.ltb_spec (key best) (key x)) as [Hlt|Hge].
    + destruct (IH (pre ++ best :: mid) x []) as (l1 & l2 & E & H1 & H2).
      * apply Forall_app. split; [|constructor; [exact Hlt|]].
        -- eapply List.Forall_impl; [|exact Hpre]. simpl. intros; lia.
        -- eapply List.Forall_impl; [|exact Hmid]. simpl. intros; lia.
      * constructor.
      * exists l1, l2. split; [|auto]. rewrite <- E, <- app_assoc. reflexivity.
    + destruct (IH pre best (mid ++ [x])) as (l1 & l2 & E & H1 & H2).
      * exact Hpre.
      * apply Forall_app. split; [exact Hmid|]. constructor; [lia|constructor].
      * exists l1, l2. split; [|auto]. rewrite <- E, <- app_assoc. reflexivity.
Qed.

Lemma min_from_split pre best mid l :
  Forall (fun x => (key best < key x)%Z) pre ->
  Forall (fun x => (key best <= key x)%Z) mid ->
  exists l1 l2,
    pre ++ best :: mid ++ l = l1 ++ min_from key best l :: l2 /\
    Forall (fun x => (key (min_from key best l) < key x)%Z) l1 /\
    Forall (fun x => (key (min_from key best l) <= key x)%Z) l2.
Proof.
  revert pre best mid. induction l as [|x l IH]; intros pre best mid Hpre Hmid; simpl.
  - exists pre, mid. rewrite app_nil_r. auto.
  - destruct (Z.ltb_spec (key x) (key best)) as [Hlt|Hge].
    + destruct (IH (pre ++ best :: mid) x []) as (l1 & l2 & E & H1 & H2).
      * apply Forall_app. split; [|constructor; [exact Hlt|]].
        -- eapply List.Forall_impl; [|exact Hpre]. simpl. intros; lia.
        -- eapply List.Forall_impl; [|exact Hmid]. simpl. intros; lia.
      * constructor.
      * exists l1, l2. split; [|auto]. rewrite <- E, <- app_assoc. reflexivity.
    + destruct (IH pre best (mid ++ [x])) as (l1 & l2 & E & H1 & H2).
      * exact Hpre.
      * apply Forall_app. split; [exact Hmid|]. constructor; [lia|constructor].
      * exists l1, l2. split; [|auto]. rewrite <- E, <- app_assoc. reflexivity.
Qed.

(** A split of a filtered list comes from a split of the list. *)
Lemma filter_split (f : A -> bool) l f1 x f2 :
  List.filter f l = f1 ++ x :: f2 ->
  exists l1 l2, l = l1 ++ x :: l2 /\
                List.filter f l1 = f1 /\ List.filter f l2 = f2.
Proof.
  revert f1. induction l as [|y l IH]; intros f1; simpl.
  - destruct f1; discriminate.
  - destruct (f y) eqn:Fy.
    + destruct f1 as [|z f1]; simpl.
      * intros [= -> E]. exists [], l. auto.
      * intros [= -> E]. destruct (IH _ E) as (l1 & l2 & -> & E1 & E2).
        exists (z :: l1), l2. simpl. rewrite Fy, E1. auto.
    + intros E. destruct (IH _ E) as (l1 & l2 & -> & E1 & E2).
      exists (y :: l1), l2. simpl. rewrite Fy. auto.
Qed.

Lemma Forall_of_filter (f : A -> bool) (P : A -> Prop) l :
  Forall P (List.filter f l) -> Forall (fun x => f x = true -> P x) l.
Proof.
  rewrite !List.Forall_forall. intros H x Hx Fx. apply H, List.filter_In. auto.
Qed.
End MaxMinFacts.

(** The values lines 126-130 compute: the first record of least positive
    length, if any, and the first record of greatest length. *)
Lemma shortest_longest_of_records :
  (forall records : list CallRecord,
     match shortest records with
     | None => Forall (fun r => (length_of_call r <= 0)%Z) records
     | Some s =>
         (0 < length_of_call s)%Z /\
         exists l1 l2,
           records = l1 ++ s :: l2 /\
           Forall (fun r => (0 < length_of_call r)%Z ->
                            (length_of_call s < length_of_call r)%Z) l1 /\
           Forall (fun r => (0 < length_of_call r)%Z ->
                            (length_of_call s <= length_of_call r)%Z) l2
     end) /\
  (forall (r : CallRecord) (rest : list CallRecord),
     exists m l1 l2,
       longest (r :: rest) = Some m /\
       r :: rest = l1 ++ m :: l2 /\
       Forall (fun x => (length_of_call x < length_of_call m)%Z) l1 /\
       Forall (fun x => (length_of_call x <= length_of_call m)%Z) l2).
Proof.
  split.
  - intros records. unfold shortest, min_default.
    set (pos := fun r => (0 <? length_of_call r)%Z).
    destruct (List.filter pos records) as [|x f] eqn:E.
    + apply List.Forall_forall. intros r Hr.
      destruct (Z.ltb_spec 0 (length_of_call r)) as [Hp|Hn]; [|exact Hn].
      assert (In r (List.filter pos records)) as Hin.
      { apply List.filter_In. split; [exact Hr|]. apply Z.ltb_lt, Hp. }
      rewrite E in Hin. destruct Hin.
    + destruct (min_from_split length_of_call [] x [] f) as (f1 & f2 & E' & H1 & H2);
        [constructor|constructor|].
      simpl in E'. rewrite <- E in E'.
      set (s := min_from length_of_call x f) in *.
      assert (In s (List.filter pos records)) as Hs.
      { rewrite E'. apply in_or_app. right. left. reflexivity. }
      apply List.filter_In in Hs as [_ Hs]. apply Z.ltb_lt in Hs.
      split; [exact Hs|].
      destruct (filter_split _ _ _ _ _ E') as (l1 & l2 & -> & <- & <-).
      exists l1, l2. split; [reflexivity|]. split.
      * apply Forall_of_filter in H1. eapply List.Forall_impl; [|exact H1].
        simpl. intros r Hr Hp. apply Hr. apply Z.ltb_lt, Hp.
      * apply Forall_of_filter in H2. eapply List.Forall_impl; [|exact H2].
        simpl. intros r Hr Hp. apply Hr. apply Z.ltb_lt, Hp.
  - intros r rest. simpl.
    destruct (max_from_split length_of_call [] r [] rest) as (l1 & l2 & E & H1 & H2);
      [constructor|constructor|].
    exists (max_from length_of_call r rest), l1, l2. auto.
Qed.

(** ** Analytics: incoming and outgoing calls *)

Section IncomingFacts.
Variable lower : pystr -> pystr.
Variable set_iter : gset pystr -> list pystr.

Lemma count_incoming_strings records acc :
  Forall (fun r => is_Some (direction r)) records ->
  count_incoming lower records acc
  = Return (acc + Z.of_nat (length (List.filter (incoming_record lower) records)))%Z.
Proof.
  intros H. revert acc. induction H as [|r rs [d Hd] _ IH]; intros acc; simpl.
  - f_equal. lia.
  - unfold incoming_record at 1. rewrite Hd, IH.
    destruct (is_incoming lower d); simpl; f_equal; lia.
Qed.

Lemma filter_partition_length {A} (f : A -> bool) (l : list A) :
  length (List.filter f l) + length (List.filter (fun x => negb (f x)) l)
  = length l.
Proof.
  induction l as [|x l IH]; simpl; [reflexivity|].
  destruct (f x); simpl; lia.
Qed.

(** On records whose direction is a string, the incoming count is the
    number of records whose direction lower-cases to "incoming", every
    other record counts as outgoing, and the two add up to the total. *)
Lemma incoming_outgoing_of_strings records :
  Forall (fun r => is_Some (direction r)) records ->
  exists a,
    _calculate_analytics lower set_iter records = Return a /\
    total_calls a = Z.of_nat (length records) /\
    incoming_calls a
    = Z.of_nat (length (List.filter (incoming_record lower) records)) /\
    outgoing_calls a
    = Z.of_nat (length (List.filter (fun r => negb (incoming_record lower r)) records)) /\
    (incoming_calls a + outgoing_calls a = total_calls a)%Z.
Proof.
  intros H. destruct records as [|r rs].
  - eexists. split; [reflexivity|]. simpl. repeat split; reflexivity.
  - unfold _calculate_analytics.
    rewrite (count_incoming_strings _ _ H). simpl bind.
    eexists. split; [reflexivity|]. cbn [total_calls incoming_calls outgoing_calls].
    pose proof (filter_partition_length (incoming_record lower) (r :: rs)).
    split; [reflexivity|]. simpl in *.
    destruct (incoming_record lower r); simpl in *; (split; [lia|]); split; lia.
Qed.

(** A direction that is [None] makes the count raise, whatever follows. *)
Lemma count_incoming_none r rest acc :
  direction r = None ->
  count_incoming lower (r :: rest) acc = Raise (none_has_no_attribute "lower").
Proof. intros H. simpl. rewrite H. reflexivity. Qed.
End IncomingFacts.

Lemma eqb_lower_ignore_case (d t : pystr) :
  forallb (fun c => (ascii_lower c =? c)%N) t = true ->
  pystr_eqb (map ascii_lower d) t = eq_ignore_ascii_case d t.
Proof.
  revert t. induction d as [|x d IH]; intros [|y t]; simpl; try reflexivity.
  intros Hy. apply andb_true_iff in Hy as [Hy Ht]. apply N.eqb_eq in Hy.
  rewrite Hy, (IH _ Ht). reflexivity.
Qed.

(** With ASCII lower-casing, a direction is incoming exactly when it equals
    "incoming" up to the case of its letters. *)
Lemma is_incoming_ascii (d : pystr) :
  is_incoming (map ascii_lower) d = eq_ignore_ascii_case d (py "incoming").
Proof. apply eqb_lower_ignore_case. reflexivity. Qed.

(** C8 (the code at the failing input): a record whose direction is [None],
    which is what the parser stores for a [messageDirection] element without
    text, is not counted as outgoing: computing the analytics raises
    [AttributeError], and the batch that holds it ends in the error callback. *)
Theorem incoming_count_raises_without_direction :
  (forall lower set_iter,
     _calculate_analytics lower set_iter
       [sample_record (Some (py "incoming")) [] (py "2565550001") 60;
        sample_record None [] (py "2565550002") 60]
     = Raise (none_has_no_attribute "lower")) /\
  (let doc := sample_document "2565550100"
                [sample_result "incoming" "2565550002" "30"; result_without_direction] in
   let parse := parse_file (one_file doc) sample_int sample_fromisoformat
                  sample_strftime id in
   map direction (records_of parse (py "one.xml"))
   = [Some (py "incoming"); None] /\
   _process_files_thread (one_file doc) sample_int sample_fromisoformat
     sample_strftime id (map ascii_lower) elements [py "one.xml"]
   = _on_processing_error (py "'NoneType' object has no attribute 'lower'")).
Proof.
  split; [reflexivity|]. split; vm_compute; reflexivity.
Qed.

(** ** Analytics: the empty record list *)

(** C10: on the empty record list the computation returns, with counts 0,
    durations 0.0, no frequent numbers, empty histograms and collections,
    and no longest or shortest call. *)
Theorem calculate_analytics_empty :
  forall lower set_iter,
    exists a,
      _calculate_analytics lower set_iter [] = Return a /\
      total_calls a = 0%Z /\ incoming_calls a = 0%Z /\ outgoing_calls a = 0%Z /\
      total_duration_minutes a = 0%Q /\ average_call_duration a = 0%Q /\
      unique_numbers a = 0%Z /\
      most_frequent_numbers a = [] /\
      calls_by_day a = [] /\ calls_by_hour a = [] /\
      target_numbers a = ∅ /\ common_contacts a = Some [] /\
      files_processed a = ∅ /\
      longest_call a = None /\ shortest_call a = None.
Proof.
  intros lower set_iter. eexists. split; [reflexivity|].
  simpl. repeat split; reflexivity.
Qed.

(** The statistics an [Analytics] object holds are the ones studied here. *)
Lemma calculate_analytics_fields lower set_iter records a :
  _calculate_analytics lower set_iter records = Return a ->
  most_frequent_numbers a = most_frequent records /\
  longest_call a = longest records /\
  shortest_call a = shortest records /\
  (records <> [] -> common_contacts a = _find_common_contacts set_iter records).
Proof.
  destruct records as [|r rs]; simpl.
  - intros [= <-]. simpl. repeat split; try reflexivity. congruence.
  - destruct (count_incoming lower (r :: rs) 0) as [n|e] eqn:E; simpl in E;
      rewrite E; simpl; [|discriminate].
    intros [= <-]. simpl. repeat split; reflexivity.
Qed.

(** C2: when the analytics computation returns, the most-frequent list of
    the object it leaves is the first ten entries of a ranking that holds
    every distinct normalized number once with its number of occurrences,
    ordered by decreasing count and, among equal counts, by first occurrence
    in the record sequence; on records [A,A,B,B,C] the computation returns
    and the list is [(A,2); (B,2); (C,1)]. *)
Theorem most_frequent_ranking :
  (forall (lower : pystr -> pystr) (set_iter : gset pystr -> list pystr)
          (records : list CallRecord) (a : Analytics),
     _calculate_analytics lower set_iter records = Return a ->
     let numbers := map normalized_number records in
     exists ranking : list (pystr * Z),
       most_frequent_numbers a = take 10 ranking /\
       NoDup (map fst ranking) /\
       (forall n c, In (n, c) ranking <->
                    In n numbers /\ c = occurrences n numbers) /\
       (forall e1 e2, before e1 e2 ranking ->
          (e2.2 < e1.2)%Z \/
          (e1.2 = e2.2 /\ index_of e1.1 numbers < index_of e2.1 numbers))) /\
  (let A := py "2565550001" in
   let B := py "2565550002" in
   let C := py "2565550003" in
   let r := sample_record (Some (py "outgoing")) (py "2565559999") in
   exists a,
     _calculate_analytics (map ascii_lower) elements
       [r A 10; r A 20; r B 30; r B 40; r C 50]%Z = Return a /\
     most_frequent_numbers a = [(A, 2); (B, 2); (C, 1)]%Z).
Proof.
  split.
  - intros lower set_iter records a Ha.
    apply calculate_analytics_fields in Ha as (-> & _).
    apply most_frequent_ranked.
  - eexists. split; [vm_compute; reflexivity|]. vm_compute. reflexivity.
Qed.

(** C7: when the analytics computation returns, the shortest call of the
    object it leaves is the first record of least length among those of
    length greater than 0, and is absent when there is none; the longest
    call of a non-empty record list is its first record of greatest length.
    Of a record of length 0 and one of length 45, in either order, the
    shortest call is the one of length 45 (and so is the longest); of the
    record of length 0 alone the shortest call is absent and the longest is
    that record. *)
Theorem shortest_longest_call :
  (forall (lower : pystr -> pystr) (set_iter : gset pystr -> list pystr)
          (records : list CallRecord) (a : Analytics),
     _calculate_analytics lower set_iter records = Return a ->
     match shortest_call a with
     | None => Forall (fun r => (length_of_call r <= 0)%Z) records
     | Some s =>
         (0 < length_of_call s)%Z /\
         exists l1 l2,
           records = l1 ++ s :: l2 /\
           Forall (fun r => (0 < length_of_call r)%Z ->
                            (length_of_call s < length_of_call r)%Z) l1 /\
           Forall (fun r => (0 < length_of_call r)%Z ->
                            (length_of_call s <= length_of_call r)%Z) l2
     end) /\
  (forall (lower : pystr -> pystr) (set_iter : gset pystr -> list pystr)
          (r : CallRecord) (rest : list CallRecord) (a : Analytics),
     _calculate_analytics lower set_iter (r :: rest) = Return a ->
     exists m l1 l2,
       longest_call a = Some m /\
       r :: rest = l1 ++ m :: l2 /\
       Forall (fun x => (length_of_call x < length_of_call m)%Z) l1 /\
       Forall (fun x => (length_of_call x <= length_of_call m)%Z) l2) /\
  (let r0 := sample_record (Some (py "incoming")) [] (py "2565550001") 0 in
   let r45 := sample_record (Some (py "incoming")) [] (py "2565550002") 45 in
   let analyse := _calculate_analytics (map ascii_lower) elements in
   (exists a, analyse [r0; r45] = Return a /\
              shortest_call a = Some r45 /\ longest_call a = Some r45) /\
   (exists a, analyse [r45; r0] = Return a /\
              shortest_call a = Some r45 /\ longest_call a = Some r45) /\
   (exists a, analyse [r0] = Return a /\
              shortest_call a = None /\ longest_call a = Some r0)).
Proof.
  split; [|split].
  - intros lower set_iter records a Ha.
    apply calculate_analytics_fields in Ha as (_ & _ & -> & _).
    apply shortest_longest_of_records.
  - intros lower set_iter r rest a Ha.
    apply calculate_analytics_fields in Ha as (_ & -> & _).
    apply shortest_longest_of_records.
  - repeat split; (eexists; split; [vm_compute; reflexivity|]);
      split; vm_compute; reflexivity.
Qed.

(** ** Multi-file ingestion *)

Section IngestFacts.
Variable parse : pystr -> result (list CallRecord).
Variable analyse : list CallRecord -> result Analytics.

Lemma ingest_loop_spec file_paths all_records processed_files :
  ingest_loop parse file_paths all_records processed_files
  = (all_records ++ flat_map (records_of parse) file_paths,
     processed_files ++ List.filter (parsed_ok parse) file_paths).
Proof.
  revert all_records processed_files.
  induction file_paths as [|p ps IH]; intros all_records processed_files; simpl.
  - rewrite !app_nil_r. reflexivity.
  - unfold records_of at 1, parsed_ok at 1.
    destruct (parse p) as [rs|e]; rewrite IH; simpl.
    + rewrite <- !app_assoc. reflexivity.
    + reflexivity.
Qed.

Lemma process_files_spec file_paths :
  process_files parse analyse file_paths =
  match flat_map (records_of parse) file_paths with
  | [] => _on_processing_error (py "No valid records found in any files")
  | merged =>
      match analyse merged with
      | Return a =>
          _on_processing_finished merged a
            (List.filter (parsed_ok parse) file_paths)
      | Raise e => _on_processing_error (exn_msg e)
      end
  end.
Proof.
  unfold process_files. rewrite ingest_loop_spec. simpl.
  destruct (flat_map (records_of parse) file_paths); reflexivity.
Qed.
End IngestFacts.

(** C4: a batch keeps, in order, the records of the sources whose parse
    returns and the paths of those sources, and goes on past a source whose
    parse raises; with no record at all it ends in the error callback with
    "No valid records found in any files", otherwise in the success callback
    with the merged records (unless the analytics raise, which ends in the
    error callback as well).  Of three sources with the second not
    well-formed, the records and paths of the first and third are kept. *)
Theorem process_files_thread_outcome :
  (forall et_parse int_of_str fromisoformat strftime basename lower set_iter
          (file_paths : list pystr),
     let parse := parse_file et_parse int_of_str fromisoformat strftime basename in
     let merged := flat_map (records_of parse) file_paths in
     let succeeded := List.filter (parsed_ok parse) file_paths in
     _process_files_thread et_parse int_of_str fromisoformat strftime basename
       lower set_iter file_paths
     = match merged with
       | [] => _on_processing_error (py "No valid records found in any files")
       | _ :: _ =>
           match _calculate_analytics lower set_iter merged with
           | Return a => _on_processing_finished merged a succeeded
           | Raise e => _on_processing_error (exn_msg e)
           end
       end) /\
  (let run := _process_files_thread sample_files sample_int sample_fromisoformat
                sample_strftime id (map ascii_lower) elements in
   (exists records a,
      run [py "one.xml"; py "two.xml"; py "three.xml"]
      = _on_processing_finished records a [py "one.xml"; py "three.xml"] /\
      map (fun r => (source_file r, normalized_number r, length_of_call r)) records
      = [(py "one.xml", py "2565550001", 60%Z);
         (py "three.xml", py "2565550001", 45%Z);
         (py "three.xml", py "2565550003", 0%Z)]) /\
   run [py "two.xml"; py "two.xml"]
   = _on_processing_error (py "No valid records found in any files") /\
   run [] = _on_processing_error (py "No valid records found in any files")).
Proof.
  split.
  - intros. unfold _process_files_thread. rewrite process_files_spec.
    fold parse. fold merged. fold succeeded. destruct merged; reflexivity.
  - split; [|split; vm_compute; reflexivity].
    eexists _, _. split; [vm_compute; reflexivity|]. reflexivity.
Qed.

(** ** The parser *)

Section ParserFacts.
Variable int_of_str : pystr -> option Z.
Variable fromisoformat : pystr -> option datetime.
Variable strftime : datetime -> pystr -> pystr.
Variable basename : pystr -> pystr.
Variables target_number file_path : pystr.

Let build :=
  record_of_result int_of_str fromisoformat strftime basename
    target_number file_path.

(** As long as no element raises anything but [AttributeError] or
    [ValueError], the loop returns one record per element that builds,
    in document order. *)
Lemma parse_results_skips results records :
  Forall (builds_or_skips build) results ->
  parse_results int_of_str fromisoformat strftime basename target_number
    file_path results records
  = Return (records ++ flat_map (kept_record build) results).
Proof.
  intros H. revert records.
  induction H as [|r rs Hr _ IH]; intros records; simpl.
  - rewrite app_nil_r. reflexivity.
  - unfold builds_or_skips in Hr. unfold kept_record at 1. fold build.
    destruct (build r) as [record|e].
    + rewrite IH, <- app_assoc. reflexivity.
    + rewrite Hr, IH. reflexivity.
Qed.

(** An element that raises another exception ends the loop, and the
    records built so far are lost with it. *)
Lemma parse_results_aborts r rest records e :
  build r = Raise e -> is_attribute_or_value_error e = false ->
  parse_results int_of_str fromisoformat strftime basename target_number
    file_path (r :: rest) records
  = Raise e.
Proof. intros Hr He. simpl. fold build. rewrite Hr, He. reflexivity. Qed.

(** A [lengthOfCall] child without text raises [TypeError]. *)
Lemma record_of_result_type_error tag text d n s e l rest :
  build (Element tag text
           (Element (py "messageDirection") d [] ::
            Element (py "remoteNumber") n [] ::
            Element (py "startTime") s [] ::
            Element (py "endTime") e [] ::
            Element (py "lengthOfCall") None l :: rest))
  = Raise (mkExn TypeError
      (py "int() argument must be a string, a bytes-like object or a real number, not 'NoneType'")).
Proof. reflexivity. Qed.
End ParserFacts.

(** C6 (the code at the failing input): a results element whose
    [lengthOfCall] child has no text is not skipped: [int(None)] raises
    [TypeError], which the loop does not catch, and the parse of the whole
    document fails, the well-formed element after it included.  An element
    with no [lengthOfCall] child, or one whose text is not a number, is
    skipped and the parse goes on. *)
Theorem parse_file_aborts_on_empty_length :
  (forall int_of_str fromisoformat strftime basename file_path,
     parse_file
       (one_file (sample_document "2565550100"
                    [result_without_length; sample_result "incoming" "2565550002" "30"]))
       int_of_str fromisoformat strftime basename file_path
     = Raise (mkExn Exception_
         (py "Failed to parse XML file: int() argument must be a string, a bytes-like object or a real number, not 'NoneType'"))) /\
  (let parse doc :=
     parse_file (one_file doc) sample_int sample_fromisoformat sample_strftime id
       (py "one.xml") in
   (exists records,
      parse (sample_document "2565550100"
               [result_missing_length; result_bad_length;
                sample_result "incoming" "2565550002" "30"])
      = Return records /\
      map (fun r => (normalized_number r, length_of_call r)) records
      = [(py "2565550002", 30%Z)]) /\
   parse (sample_document "2565550100"
            [sample_result "incoming" "2565550002" "30"; result_without_length])
   = Raise (mkExn Exception_
       (py "Failed to parse XML file: int() argument must be a string, a bytes-like object or a real number, not 'NoneType'"))).
Proof.
  split; [reflexivity|]. split.
  - eexists. split; [vm_compute; reflexivity|reflexivity].
  - vm_compute. reflexivity.
Qed.

(** ** Analytics: common contacts *)

Section GroupFacts.
Implicit Types (t n : pystr) (tg : list (pystr * gset pystr))
         (r : CallRecord) (records : list CallRecord).

Let group_step tg r :=
  if truthy (target_number r) then
    let tg' :=
      if dict_mem (target_number r) tg then tg
      else dict_set (target_number r) ∅ tg in
    dict_set (target_number r)
      (dict_get (target_number r) ∅ tg' ∪ {[normalized_number r]}) tg'
  else tg.

Lemma dict_get_absent {V} t (default : V) (d : list (pystr * V)) :
  dict_mem t d = false -> dict_get t default d = default.
Proof.
  induction d as [|[k v] d IH]; simpl; [reflexivity|].
  destruct (decide (t = k)); [discriminate|exact IH].
Qed.

Lemma dict_mem_set {V} t (v : V) (d : list (pystr * V)) :
  dict_mem t (dict_set t v d) = true.
Proof.
  induction d as [|[k v'] d IH]; simpl.
  - destruct (decide (t = t)); congruence.
  - destruct (decide (t = k)) as [->|NE]; simpl.
    + destruct (decide (k = k)); congruence.
    + destruct (decide (t = k)); [congruence|exact IH].
Qed.

Lemma group_step_keys tg r :
  map fst (group_step tg r) =
  if truthy (target_number r) && negb (dict_mem (target_number r) tg)
  then map fst tg ++ [target_number r] else map fst tg.
Proof.
  unfold group_step. destruct (truthy (target_number r)); simpl; [|reflexivity].
  destruct (dict_mem (target_number r) tg) eqn:E; simpl.
  - rewrite dict_set_keys, E. reflexivity.
  - rewrite dict_set_keys, dict_mem_set, dict_set_keys, E. reflexivity.
Qed.

Lemma group_step_get tg r t :
  dict_get t ∅ (group_step tg r) =
  if truthy (target_number r) && bool_decide (target_number r = t)
  then dict_get t ∅ tg ∪ {[normalized_number r]}
  else dict_get t ∅ tg.
Proof.
  unfold group_step. destruct (truthy (target_number r)); simpl; [|reflexivity].
  destruct (bool_decide_reflect (target_number r = t)) as [<-|NE].
  - rewrite dict_get_set_eq.
    destruct (dict_mem (target_number r) tg) eqn:E; [reflexivity|].
    rewrite dict_get_set_eq, (dict_get_absent _ _ _ E). reflexivity.
  - rewrite dict_get_set_ne by exact NE.
    destruct (dict_mem (target_number r) tg); [reflexivity|].
    rewrite dict_get_set_ne by exact NE. reflexivity.
Qed.

Lemma groups_from_keys records tg :
  map fst (fold_left group_step records tg) =
  map fst tg
  ++ first_seen (map fst tg) (List.filter truthy (map target_number records)).
Proof.
  revert tg. induction records as [|r rs IH]; intros tg; simpl.
  - rewrite app_nil_r. reflexivity.
  - rewrite IH, group_step_keys.
    destruct (truthy (target_number r)) eqn:T; simpl; [|reflexivity].
    destruct (dict_mem (target_number r) tg) eqn:E; simpl.
    + apply dict_mem_keys, list_elem_of_In in E.
      destruct (decide (target_number r ∈ map fst tg)); [reflexivity|contradiction].
    + assert (~ target_number r ∈ map fst tg) as Hx.
      { rewrite list_elem_of_In, <- dict_mem_keys, E. discriminate. }
      destruct (decide (target_number r ∈ map fst tg)); [contradiction|].
      rewrite <- app_assoc. simpl. do 2 f_equal.
      apply first_seen_ext. intros y.
      rewrite elem_of_app, !elem_of_cons, elem_of_nil. tauto.
Qed.

Lemma groups_from_get records tg t n :
  n ∈ dict_get t ∅ (fold_left group_step records tg) <->
  n ∈ dict_get t ∅ tg \/ (truthy t = true /\ dials records t n = true).
Proof.
  revert tg. induction records as [|r rs IH]; intros tg; simpl.
  - split; [tauto|]. intros [?|[_ ?]]; [assumption|discriminate].
  - rewrite IH, group_step_get.
    destruct (bool_decide_reflect (target_number r = t)) as [E|NE];
      destruct (bool_decide_reflect (normalized_number r = n)) as [E'|NE'];
      simpl; rewrite ?andb_true_r, ?andb_false_r.
    + subst. destruct (truthy (target_number r)) eqn:T.
      * rewrite elem_of_union, elem_of_singleton. tauto.
      * split; [intros [?|[? ?]]; [tauto|discriminate]|].
        intros [?|[? ?]]; [tauto|discriminate].
    + subst. destruct (truthy (target_number r)) eqn:T; [|tauto].
      rewrite elem_of_union, elem_of_singleton.
      split; [intros [[?|?]|?]; [tauto|congruence|tauto]|tauto].
    + tauto.
    + tauto.
Qed.

Lemma target_groups_keys records :
  map fst (target_groups records) = targets_seen records.
Proof. unfold target_groups. apply (groups_from_keys records []). Qed.

Lemma target_groups_get records t n :
  n ∈ dict_get t ∅ (target_groups records) <->
  truthy t = true /\ dials records t n = true.
Proof.
  change (target_groups records) with (fold_left group_step records []).
  rewrite (groups_from_get records [] t n). simpl.
  rewrite elem_of_empty. tauto.
Qed.

Lemma targets_seen_truthy records t :
  In t (targets_seen records) -> truthy t = true.
Proof.
  unfold targets_seen. rewrite first_seen_In. intros [H _].
  apply List.filter_In in H. tauto.
Qed.

(** Each group is the set of numbers dialled under its target. *)
Lemma target_groups_In records (g : pystr * gset pystr) n :
  In g (target_groups records) ->
  bool_decide (n ∈ g.2) = dials records g.1 n.
Proof.
  intros Hg. destruct g as [t ns]. simpl.
  assert (dict_get t ∅ (target_groups records) = ns) as <-.
  { apply dict_In_get; [|exact Hg].
    rewrite target_groups_keys. apply first_seen_NoDup. }
  assert (truthy t = true) as T.
  { apply (targets_seen_truthy records). rewrite <- target_groups_keys.
    apply (in_map fst) in Hg. exact Hg. }
  apply eq_true_iff_eq. rewrite bool_decide_eq_true, target_groups_get. tauto.
Qed.

Lemma targets_with_spec records n :
  targets_with (target_groups records) n = dialing_targets records n.
Proof.
  unfold targets_with, dialing_targets. rewrite <- target_groups_keys.
  assert (forall tg, (forall g, In g tg -> bool_decide (n ∈ g.2) = dials records g.1 n) ->
            map fst (List.filter (fun g => bool_decide (n ∈ g.2)) tg)
            = List.filter (fun t => dials records t n) (map fst tg)) as H.
  { induction tg as [|g tg IH]; intros Hg; simpl; [reflexivity|].
    rewrite (Hg g) by (left; reflexivity).
    destruct (dials records g.1 n); simpl; rewrite IH; auto.
    - intros; apply Hg; right; assumption.
    - intros; apply Hg; right; assumption. }
  apply H. intros g. apply target_groups_In.
Qed.
End GroupFacts.

Lemma all_numbers_from (tg : list (pystr * gset pystr)) (acc : gset pystr) n :
  n ∈ fold_left (fun acc g => acc ∪ g.2) tg acc <->
  n ∈ acc \/ exists g, In g tg /\ n ∈ g.2.
Proof.
  revert acc. induction tg as [|g tg IH]; intros acc; simpl.
  - split; [tauto|]. intros [?|(g & [] & _)]. assumption.
  - rewrite IH, elem_of_union. split.
    + intros [[?|?]|(g' & ? & ?)]; [tauto|right; exists g; tauto|right; exists g'; tauto].
    + intros [?|(g' & [<-|?] & ?)]; [tauto|tauto|right; exists g'; tauto].
Qed.

Lemma dials_spec records t n :
  dials records t n = true <->
  exists r, In r records /\ target_number r = t /\ normalized_number r = n.
Proof.
  unfold dials. rewrite existsb_exists. split.
  - intros (r & Hr & H). apply andb_true_iff in H as [H1 H2].
    apply bool_decide_eq_true in H1, H2. exists r. auto.
  - intros (r & Hr & H1 & H2). exists r. split; [exact Hr|].
    apply andb_true_iff. rewrite !bool_decide_eq_true. auto.
Qed.

Lemma targets_seen_In records t :
  In t (targets_seen records) <->
  truthy t = true /\ exists r, In r records /\ target_number r = t.
Proof.
  unfold targets_seen. rewrite first_seen_In, List.filter_In, in_map_iff, elem_of_nil.
  split.
  - intros [[(r & <- & Hr) T] _]. split; [exact T|]. exists r. auto.
  - intros [T (r & Hr & <-)]. split; [|tauto]. split; [|exact T]. exists r. auto.
Qed.

Lemma dialed_numbers_In records n :
  n ∈ dialed_numbers records <->
  exists r, In r records /\ truthy (target_number r) = true /\ normalized_number r = n.
Proof.
  unfold dialed_numbers. rewrite elem_of_list_to_set, list_elem_of_In, in_map_iff.
  split.
  - intros (r & <- & Hr). apply List.filter_In in Hr. exists r. tauto.
  - intros (r & Hr & T & <-). exists r. split; [reflexivity|].
    apply List.filter_In. auto.
Qed.

Lemma all_numbers_spec records :
  all_numbers (target_groups records) = dialed_numbers records.
Proof.
  apply set_eq. intros n. unfold all_numbers.
  rewrite all_numbers_from, dialed_numbers_In, elem_of_empty. split.
  - intros [[]|(g & Hg & Hn)].
    apply (bool_decide_eq_true_2 _) in Hn. rewrite (target_groups_In _ _ _ Hg) in Hn.
    apply dials_spec in Hn as (r & Hr & Ht & Hn). exists r.
    split; [exact Hr|]. split; [|exact Hn]. rewrite Ht.
    apply (targets_seen_truthy records). rewrite <- target_groups_keys.
    apply (in_map fst) in Hg. exact Hg.
  - intros (r & Hr & T & Hn). right.
    assert (In (target_number r) (map fst (target_groups records))) as Hk.
    { rewrite target_groups_keys. apply targets_seen_In. split; [exact T|]. eauto. }
    apply (dict_get_In _ ∅) in Hk.
    eexists. split; [exact Hk|]. simpl.
    apply target_groups_get. split; [exact T|]. apply dials_spec. eauto.
Qed.

Lemma fold_append_if {A B} (c : A -> bool) (f : A -> B) (l : list A) (acc : list B) :
  fold_left (fun cc x => if c x then cc ++ [f x] else cc) l acc
  = acc ++ map f (List.filter c l).
Proof.
  revert acc. induction l as [|x l IH]; intros acc; simpl.
  - rewrite app_nil_r. reflexivity.
  - rewrite IH. destruct (c x); simpl; [rewrite <- app_assoc|]; reflexivity.
Qed.

Lemma fold_left_pointwise {A B} (f g : A -> B -> A) (l : list B) (a : A) :
  (forall a x, f a x = g a x) -> fold_left f l a = fold_left g l a.
Proof.
  intros E. revert a. induction l as [|x l IH]; intros a; simpl; [reflexivity|].
  rewrite E. apply IH.
Qed.

(** [_find_common_contacts] in closed form. *)
Lemma find_common_contacts_eq set_iter records :
  _find_common_contacts set_iter records =
  if 1 <? length (targets_seen records) then
    Some (sorted_desc contact_count
            (map (entry_of records)
               (List.filter (is_common records)
                  (set_iter (dialed_numbers records)))))
  else None.
Proof.
  unfold _find_common_contacts.
  rewrite <- (target_groups_keys records), length_map.
  destruct (1 <? length (target_groups records)); [|reflexivity].
  f_equal. f_equal. rewrite all_numbers_spec.
  pose proof (fold_append_if (is_common records) (entry_of records)
                (set_iter (dialed_numbers records)) []) as E.
  simpl in E. rewrite <- E. clear E.
  apply fold_left_pointwise. intros cc n. unfold is_common, entry_of.
  rewrite targets_with_spec. reflexivity.
Qed.

Lemma filter_Permutation_list {A} (c : A -> bool) (l l' : list A) :
  Permutation l l' -> Permutation (List.filter c l) (List.filter c l').
Proof.
  induction 1 as [|x l l' _ IH|x y l|l l' l'' _ IH1 _ IH2]; simpl.
  - reflexivity.
  - destruct (c x); [constructor|]; exact IH.
  - destruct (c x), (c y); try reflexivity. apply perm_swap.
  - etransitivity; eassumption.
Qed.

Lemma map_number_entry records (l : list pystr) :
  map contact_number (map (entry_of records) l) = l.
Proof. induction l as [|n l IH]; simpl; [|rewrite IH]; reflexivity. Qed.

Lemma is_common_dialed records n :
  is_common records n = true -> n ∈ dialed_numbers records.
Proof.
  unfold is_common, dialing_targets. intros H. apply Nat.ltb_lt in H.
  destruct (List.filter (fun t => dials records t n) (targets_seen records))
    as [|t ts] eqn:E; [simpl in H; lia|].
  assert (In t (List.filter (fun t => dials records t n) (targets_seen records))) as Ht.
  { rewrite E. left. reflexivity. }
  apply List.filter_In in Ht as [Ht Hd].
  apply targets_seen_truthy in Ht. apply dials_spec in Hd as (r & Hr & <- & Hn).
  apply dialed_numbers_In. eauto.
Qed.

Section CommonContacts.
(** The order in which the loop visits the set of numbers: some
    enumeration of its elements. *)
Variable set_iter : gset pystr -> list pystr.
Hypothesis set_iter_elements : forall X, Permutation (set_iter X) (elements X).

Lemma set_iter_In X n : In n (set_iter X) <-> n ∈ X.
Proof.
  rewrite <- elem_of_elements, list_elem_of_In.
  split; apply Permutation_in; [|symmetry]; apply set_iter_elements.
Qed.

Lemma set_iter_NoDup X : NoDup (set_iter X).
Proof. rewrite set_iter_elements. apply NoDup_elements. Qed.

(** C3 (as the code has it): with at least two distinct non-empty target
    numbers among the records, a number is in the common-contacts list
    exactly when more than one distinct target dials it, once; its entry
    carries those targets, in order of first appearance, and their count;
    the list is in decreasing order of count, and entries of equal count
    are in the order in which the set of numbers is visited.  For [T1]
    dialing [X], [Y] and [T2] dialing [Y], [Z] the list is the one entry
    [Y], targets [T1; T2], count 2. *)
Theorem common_contacts_spec :
  (forall records : list CallRecord,
     1 < length (targets_seen records) ->
     exists cc,
       _find_common_contacts set_iter records = Some cc /\
       (forall n, In n (map contact_number cc) <->
                  1 < length (dialing_targets records n)) /\
       NoDup (map contact_number cc) /\
       Forall (fun e =>
                 contact_target_numbers e
                 = dialing_targets records (contact_number e) /\
                 contact_count e = Z.of_nat (length (contact_target_numbers e)))
              cc /\
       descending contact_count cc /\
       (forall e1 e2, before e1 e2 cc -> contact_count e1 = contact_count e2 ->
          before (contact_number e1) (contact_number e2)
                 (set_iter (dialed_numbers records)))) /\
  _find_common_contacts set_iter two_targets_sharing_one
  = Some [mkContact (py "2565550002") [py "2565550100"; py "2565550200"] 2].
Proof.
  split.
  - intros records Htwo. rewrite find_common_contacts_eq.
    apply Nat.ltb_lt in Htwo. rewrite Htwo.
    set (cands := List.filter (is_common records) (set_iter (dialed_numbers records))).
    eexists. split; [reflexivity|].
    assert (Permutation (map contact_number
              (sorted_desc contact_count (map (entry_of records) cands))) cands) as Hperm.
    { rewrite (Permutation_map contact_number (sorted_desc_perm _ _)).
      rewrite map_number_entry. reflexivity. }
    split; [|split; [|split; [|split]]].
    + intros n. rewrite <- Nat.ltb_lt. fold (is_common records n).
      split.
      * intros Hn. apply (Permutation_in _ Hperm) in Hn.
        apply List.filter_In in Hn. tauto.
      * intros Hc. apply (Permutation_in _ (Permutation_sym Hperm)).
        apply List.filter_In. split; [|exact Hc].
        apply set_iter_In, is_common_dialed, Hc.
    + rewrite Hperm. unfold cands.
      apply NoDup_ListNoDup, List.NoDup_filter, NoDup_ListNoDup, set_iter_NoDup.
    + apply List.Forall_forall. intros e He.
      apply sorted_desc_In, in_map_iff in He as (n & <- & _). split; reflexivity.
    + apply sorted_desc_descending.
    + intros e1 e2 Hb Hc. apply sorted_desc_before in Hb as [Hlt|[_ Hb]]; [lia|].
      apply (before_map contact_number) in Hb. rewrite map_number_entry in Hb.
      apply before_filter in Hb. exact Hb.
  - rewrite find_common_contacts_eq.
    assert (List.filter (is_common two_targets_sharing_one)
              (set_iter (dialed_numbers two_targets_sharing_one))
            = [py "2565550002"]) as ->.
    { apply Permutation_length_1_inv.
      rewrite (filter_Permutation_list _ _ _ (set_iter_elements _)).
      vm_compute. reflexivity. }
    vm_compute. reflexivity.
Qed.
End CommonContacts.

(** The theorem at the enumeration [elements] and the records of two
    targets that share two numbers. *)
Lemma common_contacts_spec_witness :
  (exists cc,
     _find_common_contacts elements two_targets_sharing_two = Some cc /\
     (forall n, In n (map contact_number cc) <->
                1 < length (dialing_targets two_targets_sharing_two n)) /\
     NoDup (map contact_number cc) /\
     Forall (fun e =>
               contact_target_numbers e
               = dialing_targets two_targets_sharing_two (contact_number e) /\
               contact_count e = Z.of_nat (length (contact_target_numbers e)))
            cc /\
     descending contact_count cc /\
     (forall e1 e2, before e1 e2 cc -> contact_count e1 = contact_count e2 ->
        before (contact_number e1) (contact_number e2)
               (elements (dialed_numbers two_targets_sharing_two)))) /\
  _find_common_contacts elements two_targets_sharing_one
  = Some [mkContact (py "2565550002") [py "2565550100"; py "2565550200"] 2].
Proof.
  destruct (common_contacts_spec elements (fun X => Permutation_refl _)) as [H1 H2].
  split; [|exact H2].
  apply (H1 two_targets_sharing_two). vm_compute. lia.
Defined.

(** C3 as stated fails: there is an order of visiting the set under which
    two entries of equal count come out with the greater number first. *)
Lemma common_contacts_ties_not_lexicographic :
  exists set_iter cc,
    (forall X, Permutation (set_iter X) (elements X)) /\
    _find_common_contacts set_iter two_targets_sharing_two = Some cc /\
    map contact_number cc = [py "2565550002"; py "2565550001"] /\
    map contact_count cc = [2; 2]%Z /\
    ~ ties_lexicographic cc.
Proof.
  exists elements. eexists. split; [reflexivity|].
  split; [vm_compute; reflexivity|].
  split; [reflexivity|]. split; [reflexivity|].
  intros H.
  match type of H with
  | ties_lexicographic [?e1; ?e2] =>
      assert (before e1 e2 [e1; e2]) as Hb by (left; split; [reflexivity|left; reflexivity]);
      specialize (H e1 e2 Hb eq_refl)
  end.
  vm_compute in H. discriminate H.
Qed.

(** ** Export *)

Lemma escape_value_no_formula (v : cell_value) (s : pystr) :
  escape_value v = VStr s -> startswith1 61%N s = false.
Proof.
  destruct v as [n|q|t]; simpl; try discriminate.
  destruct (startswith1 61%N t) eqn:E; intros [= <-]; [reflexivity|exact E].
Qed.

Lemma escape_sheet_no_formula (ws : worksheet) :
  no_formula_string (escape_value <$> ws).
Proof.
  intros rc s. rewrite lookup_fmap.
  destruct (ws !! rc) as [v|]; simpl; [|discriminate].
  intros [= H]. eapply escape_value_no_formula, H.
Qed.

Lemma escape_sheet_escaped_from (ws : worksheet) :
  escaped_from ws (escape_value <$> ws).
Proof.
  intros rc. rewrite lookup_fmap.
  destruct (ws !! rc) as [[n|q|t]|]; simpl; try reflexivity.
  destruct (startswith1 61%N t); reflexivity.
Qed.

(** When [common_contacts] was never assigned (records under at most one
    target), the export raises before anything is saved. *)
Lemma export_fails_without_common_contacts strftime format_2f records a :
  common_contacts a = None ->
  export_data strftime format_2f records a
  = Raise (mkExn Exception_
      (py "Excel export failed: 'Analytics' object has no attribute 'common_contacts'")).
Proof.
  intros H. unfold export_data, filled_workbook, _export_common_contacts.
  rewrite H. reflexivity.
Qed.

(** C9: in the workbook that is saved, each sheet is the sheet the writers
    produced with an apostrophe put before every string that starts with
    ['='] and every other cell, the numeric ones included, unchanged; so no
    string cell of the saved workbook starts with ['='].  A raw remote
    number "=2565550003" is saved as "'=2565550003", the banner lines of the
    summary get the apostrophe too, and the duration 50 stays the number 50. *)
Theorem export_escapes_formulas :
  (forall strftime format_2f records analytics,
     match export_data strftime format_2f records analytics with
     | Raise _ => True
     | Return wb =>
         exists wb0,
           filled_workbook strftime format_2f records analytics = Return wb0 /\
           Forall2 (fun sheet0 sheet =>
                      sheet.1 = sheet0.1 /\ escaped_from sheet0.2 sheet.2) wb0 wb /\
           Forall (fun sheet => no_formula_string sheet.2) wb
     end) /\
  (exists a wb records_sheet summary_sheet,
     _calculate_analytics (map ascii_lower) elements records_with_formula = Return a /\
     export_data sample_strftime sample_format_2f records_with_formula a = Return wb /\
     wb !! 0 = Some (py "Call Records", records_sheet) /\
     wb !! 2 = Some (py "Summary Report", summary_sheet) /\
     records_sheet !! (6, 3) = Some (VStr (py "'=2565550003")) /\
     records_sheet !! (6, 7) = Some (VInt 50) /\
     summary_sheet !! (1, 1)
     = Some (VStr (py "'=== TELECOMMUNICATION DATA ANALYSIS ==="))).
Proof.
  split.
  - intros strftime format_2f records analytics. unfold export_data.
    destruct (filled_workbook strftime format_2f records analytics) as [wb0|e];
      [|exact I].
    exists wb0. split; [reflexivity|]. unfold clean_up. split.
    + induction wb0 as [|sheet wb0 IH]; simpl; constructor; [|exact IH].
      simpl. split; [reflexivity|apply escape_sheet_escaped_from].
    + apply List.Forall_forall. intros sheet Hs.
      apply in_map_iff in Hs as (sheet0 & <- & _). simpl.
      apply escape_sheet_no_formula.
  - eexists _, _, _, _.
    split; [vm_compute; reflexivity|].
    split; [vm_compute; reflexivity|].
    split; [reflexivity|]. split; [reflexivity|].
    split; [|split]; vm_compute; reflexivity.
Qed.


(* ===================================================================== *)
(** * Further properties of the code *)
(* ===================================================================== *)

(** ** The normaliser, continued *)

Lemma filter_all_true {A} (f : A -> bool) (l : list A) :
  Forall (fun x => f x = true) l -> List.filter f l = l.
Proof.
  induction 1 as [|x l Hx _ IH]; simpl; [reflexivity|].
  rewrite Hx, IH. reflexivity.
Qed.

Lemma drop_repeat_app (n k : nat) (c : N) (d : pystr) :
  k <= n -> drop k (repeat c n ++ d) = repeat c (n - k) ++ d.
Proof.
  revert k. induction n as [|n IH]; intros [|k] Hk; simpl; try reflexivity; try lia.
  apply IH. lia.
Qed.

(** X1: normalising is idempotent: a normalized number, normalized again,
    is unchanged. *)
Theorem normalize_idempotent (number : option pystr) :
  normalize (_normalize_phone_number number) = _normalize_phone_number number.
Proof.
  pose proof (normalize_length number) as Hlen.
  assert (Forall (fun c => is_decimal c = true) (_normalize_phone_number number)) as Hdec.
  { apply normalize_Forall; [reflexivity|apply digits_only_decimal]. }
  unfold normalize, _normalize_phone_number at 1.
  cbv zeta. unfold digits_only at 1 2 3 4 5 6. simpl py_str.
  rewrite (filter_all_true _ _ Hdec), Hlen. reflexivity.
Qed.

(** X2: the result is the last ten characters of ten zeros followed by the
    digits of the input; the branch for eleven digits with a leading 1 gives
    nothing the general truncation would not.  So whatever precedes the last
    ten digits is discarded. *)
Theorem normalize_closed_form :
  (forall number : option pystr,
     _normalize_phone_number number
     = last_n 10 (repeat 48%N 10 ++ digits_only number)) /\
  (forall prefix d : pystr,
     Forall (fun c => is_decimal c = true) prefix ->
     Forall (fun c => is_decimal c = true) d ->
     length d = 10 ->
     normalize (prefix ++ d) = d).
Proof.
  assert (forall number : option pystr,
            _normalize_phone_number number
            = last_n 10 (repeat 48%N 10 ++ digits_only number)) as Hclosed.
  { intros number. unfold last_n. rewrite length_app, repeat_length.
    replace (10 + length (digits_only number) - 10) with (length (digits_only number)) by lia.
    destruct (normalize_cases number) as [[H ->]|[[H ->]|[[H ->]|[H ->]]]].
    - rewrite H. rewrite drop_app_length'; [reflexivity|symmetry; apply repeat_length].
    - rewrite H. change 11 with (10 + 1). rewrite <- drop_drop.
      rewrite drop_app_length'; [reflexivity|symmetry; apply repeat_length].
    - replace (length (digits_only number)) with (10 + (length (digits_only number) - 10)) at 2 by lia.
      rewrite <- drop_drop.
      rewrite drop_app_length'; [reflexivity|symmetry; apply repeat_length].
    - rewrite drop_repeat_app by lia. reflexivity. }
  split; [exact Hclosed|].
  intros prefix d Hp Hd Hlen. unfold normalize. rewrite Hclosed.
  unfold digits_only. simpl py_str.
  rewrite (filter_all_true is_decimal (prefix ++ d)) by (apply Forall_app; auto).
  unfold last_n. rewrite !length_app, repeat_length, Hlen.
  replace (10 + (length prefix + 10) - 10) with (10 + length prefix) by lia.
  rewrite <- drop_drop.
  rewrite drop_app_length' by (symmetry; apply repeat_length).
  rewrite drop_app_length; reflexivity.
Qed.

(** ** The parser, continued *)

Section ParserMore.
Variable et_parse : pystr -> result element.
Variable int_of_str : pystr -> option Z.
Variable fromisoformat : pystr -> option datetime.
Variable strftime : datetime -> pystr -> pystr.
Variable basename : pystr -> pystr.

Let build (target_number file_path : pystr) :=
  record_of_result int_of_str fromisoformat strftime basename
    target_number file_path.

Lemma parse_results_returns target_number file_path results acc records :
  parse_results int_of_str fromisoformat strftime basename target_number
    file_path results acc = Return records ->
  Forall (builds_or_skips (build target_number file_path)) results /\
  records = acc ++ flat_map (kept_record (build target_number file_path)) results.
Proof.
  revert acc records. induction results as [|r rs IH]; intros acc records; simpl.
  - intros [= <-]. split; [constructor|]. rewrite app_nil_r. reflexivity.
  - fold (build target_number file_path).
    destruct (build target_number file_path r) as [record|e] eqn:Hr.
    + intros H. apply IH in H as [HF ->]. split.
      * constructor; [|exact HF]. unfold builds_or_skips. rewrite Hr. exact I.
      * unfold kept_record at 2. rewrite Hr, <- app_assoc. reflexivity.
    + destruct (is_attribute_or_value_error e) eqn:E; [|discriminate].
      intros H. apply IH in H as [HF ->]. split.
      * constructor; [|exact HF]. unfold builds_or_skips. rewrite Hr. exact E.
      * unfold kept_record at 2. rewrite Hr. reflexivity.
Qed.

Lemma parse_file_inv (file_path : pystr) (records : list CallRecord) :
  parse_file et_parse int_of_str fromisoformat strftime basename file_path
  = Return records ->
  exists root,
    et_parse file_path = Return root /\
    Forall (builds_or_skips
              (record_of_result int_of_str fromisoformat strftime basename
                 (target_of root) file_path))
           (findall_descendants "results" root) /\
    records
    = flat_map (kept_record
                  (record_of_result int_of_str fromisoformat strftime basename
                     (target_of root) file_path))
               (findall_descendants "results" root).
Proof.
  unfold parse_file.
  destruct (et_parse file_path) as [root|e]; [|discriminate].
  destruct (parse_results _ _ _ _ _ _ _ _) as [rs|e] eqn:E; [|discriminate].
  intros [= <-]. apply parse_results_returns in E as [HF ->].
  exists root. auto.
Qed.

(** X3: [parse_file] returns exactly when the document can be read and no
    results element raises anything but [AttributeError] or [ValueError];
    the records are then those of the elements that build, one each, in
    document order. *)
Theorem parse_file_returns_iff (file_path : pystr) (records : list CallRecord) :
  parse_file et_parse int_of_str fromisoformat strftime basename file_path
  = Return records
  <->
  exists root,
    et_parse file_path = Return root /\
    Forall (builds_or_skips
              (record_of_result int_of_str fromisoformat strftime basename
                 (target_of root) file_path))
           (findall_descendants "results" root) /\
    records
    = flat_map (kept_record
                  (record_of_result int_of_str fromisoformat strftime basename
                     (target_of root) file_path))
               (findall_descendants "results" root).
Proof.
  split; [apply parse_file_inv|].
  unfold parse_file. intros (root & -> & HF & ->).
  rewrite (parse_results_skips _ _ _ _ _ _ _ [] HF). reflexivity.
Qed.

(** X4: besides [AttributeError] and [ValueError], a results element can
    only raise [TypeError], when its [lengthOfCall] child has no text, or
    [OverflowError], when its call length is too large for a float. *)
Theorem uncaught_exceptions_of_result target_number file_path (r : element) (e : exn) :
  record_of_result int_of_str fromisoformat strftime basename
    target_number file_path r = Raise e ->
  is_attribute_or_value_error e = false ->
  (exn_class_of e = TypeError /\
   exists child, find_child "lengthOfCall" r = Some child /\ text_of child = None)
  \/
  (exn_class_of e = OverflowError /\
   exists child s n,
     find_child "lengthOfCall" r = Some child /\ text_of child = Some s /\
     int_of_str s = Some n /\ int_too_large_for_float n = true).
Proof.
  unfold record_of_result, dot_text, py_int, CallRecord_init, parse_time, minutes_of, bind.
  destruct (find_child "messageDirection" r); [|intros [= <-]; discriminate].
  destruct (find_child "remoteNumber" r); [|intros [= <-]; discriminate].
  destruct (find_child "startTime" r) as [st|]; [|intros [= <-]; discriminate].
  destruct (find_child "endTime" r) as [et|]; [|intros [= <-]; discriminate].
  destruct (find_child "lengthOfCall" r) as [child|]; [|intros [= <-]; discriminate].
  destruct (text_of child) as [s|] eqn:Ht.
  - destruct (int_of_str s) as [n|] eqn:Hn; [|intros [= <-]; discriminate].
    destruct (text_of st) as [ts|]; [|intros [= <-]; discriminate].
    destruct (fromisoformat (replace_Z ts)); [|intros [= <-]; discriminate].
    destruct (text_of et) as [te|]; [|intros [= <-]; discriminate].
    destruct (fromisoformat (replace_Z te)); [|intros [= <-]; discriminate].
    destruct (int_too_large_for_float n) eqn:Hbig; [|discriminate].
    intros [= <-] _. right. split; [reflexivity|]. exists child, s, n. auto.
  - intros [= <-] _. left. split; [reflexivity|]. exists child. auto.
Qed.

(** X5: a results element that lacks one of the five children is always
    skipped: it raises [AttributeError] before anything else can go wrong. *)
Theorem missing_child_is_skipped target_number file_path (r : element) (tag : string) :
  In tag five_children ->
  find_child tag r = None ->
  exists e,
    record_of_result int_of_str fromisoformat strftime basename
      target_number file_path r = Raise e /\
    e = none_has_no_attribute "text".
Proof.
  intros Htag Hnone. exists (none_has_no_attribute "text"). split; [|reflexivity].
  unfold record_of_result, dot_text, bind.
  destruct (find_child "messageDirection" r) eqn:E1; [|reflexivity].
  destruct (find_child "remoteNumber" r) eqn:E2; [|reflexivity].
  destruct (find_child "startTime" r) eqn:E3; [|reflexivity].
  destruct (find_child "endTime" r) eqn:E4; [|reflexivity].
  destruct (find_child "lengthOfCall" r) eqn:E5; [|reflexivity].
  exfalso. unfold five_children in Htag. simpl in Htag.
  destruct Htag as [<-|[<-|[<-|[<-|[<-|[]]]]]]; congruence.
Qed.

Lemma CallRecord_init_well_built d n s e len target source r :
  CallRecord_init fromisoformat strftime d n s e len target source = Return r ->
  well_built (if truthy target then normalize target else []) source r.
Proof.
  unfold CallRecord_init, parse_time, minutes_of, bind.
  destruct s as [ts|]; [|discriminate].
  destruct (fromisoformat (replace_Z ts)); [|discriminate].
  destruct e as [te|]; [|discriminate].
  destruct (fromisoformat (replace_Z te)); [|discriminate].
  destruct (int_too_large_for_float len) eqn:Hbig; [discriminate|].
  intros [= <-]. unfold well_built. simpl.
  repeat split; try reflexivity; try assumption. apply normalize_length.
Qed.

Lemma record_of_result_well_built target file_path el r :
  record_of_result int_of_str fromisoformat strftime basename target file_path el
  = Return r ->
  well_built (if truthy target then normalize target else []) (basename file_path) r.
Proof.
  unfold record_of_result, dot_text, py_int, bind.
  destruct (find_child "messageDirection" el); [|discriminate].
  destruct (find_child "remoteNumber" el); [|discriminate].
  destruct (find_child "startTime" el); [|discriminate].
  destruct (find_child "endTime" el); [|discriminate].
  destruct (find_child "lengthOfCall" el) as [c|]; [|discriminate].
  destruct (text_of c) as [t|]; [|discriminate].
  destruct (int_of_str t); [|discriminate].
  apply CallRecord_init_well_built.
Qed.

(** X6: all records of one parse carry the same target number, which is
    empty or has 10 characters, and the base name of the file; each has a
    10-character normalized number derived from its raw number, start and
    end times without offset, and a call length that fits a float. *)
Theorem parsed_records_well_built (file_path : pystr) (records : list CallRecord) :
  parse_file et_parse int_of_str fromisoformat strftime basename file_path
  = Return records ->
  exists target,
    (target = [] \/ length target = 10) /\
    Forall (well_built target (basename file_path)) records.
Proof.
  intros H. apply parse_file_inv in H as (root & _ & _ & ->).
  exists (if truthy (target_of root) then normalize (target_of root) else []).
  split.
  - destruct (truthy (target_of root)); [right; apply normalize_length|left; reflexivity].
  - apply List.Forall_forall. intros r Hr.
    apply in_flat_map in Hr as (el & _ & Hr). unfold kept_record in Hr.
    destruct (record_of_result _ _ _ _ _ _ el) as [r'|e] eqn:E; [|destruct Hr].
    destruct Hr as [<-|[]]. eapply record_of_result_well_built, E.
Qed.
End ParserMore.

(** Witnesses for the parser properties, in the sample environment. *)
Lemma uncaught_exceptions_of_result_witness :
  let e := mkExn TypeError
             (py "int() argument must be a string, a bytes-like object or a real number, not 'NoneType'") in
  (exn_class_of e = TypeError /\
   exists child,
     find_child "lengthOfCall" result_without_length = Some child /\
     text_of child = None)
  \/
  (exn_class_of e = OverflowError /\
   exists child s n,
     find_child "lengthOfCall" result_without_length = Some child /\
     text_of child = Some s /\
     sample_int s = Some n /\ int_too_large_for_float n = true).
Proof.
  apply (uncaught_exceptions_of_result sample_int sample_fromisoformat
           sample_strftime id [] (py "one.xml") result_without_length);
    reflexivity.
Defined.

Lemma missing_child_is_skipped_witness :
  exists e,
    record_of_result sample_int sample_fromisoformat sample_strftime id
      [] (py "one.xml") result_missing_length = Raise e /\
    e = none_has_no_attribute "text".
Proof.
  apply (missing_child_is_skipped sample_int sample_fromisoformat
           sample_strftime id [] (py "one.xml") result_missing_length
           "lengthOfCall").
  - simpl. tauto.
  - reflexivity.
Defined.

Lemma parsed_records_well_built_witness :
  let parse := parse_file sample_files sample_int sample_fromisoformat
                 sample_strftime id in
  exists target,
    (target = [] \/ length target = 10) /\
    Forall (well_built target (py "three.xml"))
           (records_of parse (py "three.xml")).
Proof.
  apply (parsed_records_well_built sample_files sample_int sample_fromisoformat
           sample_strftime id (py "three.xml")).
  vm_compute. reflexivity.
Defined.

(** ** Analytics, continued *)

Section AnalyticsMore.
Variable lower : pystr -> pystr.
Variable set_iter : gset pystr -> list pystr.

Lemma count_incoming_returns records acc n :
  count_incoming lower records acc = Return n -> Forall has_direction records.
Proof.
  revert acc. induction records as [|r rs IH]; intros acc; simpl; [constructor|].
  destruct (direction r) as [d|] eqn:Hd; [|discriminate].
  intros H. constructor; [unfold has_direction; rewrite Hd; eauto|eapply IH, H].
Qed.

Lemma count_incoming_raises records acc e :
  count_incoming lower records acc = Raise e -> e = none_has_no_attribute "lower".
Proof.
  revert acc. induction records as [|r rs IH]; intros acc; simpl; [discriminate|].
  destruct (direction r); [apply IH|]. intros [= <-]. reflexivity.
Qed.

(** X7: computing the analytics returns exactly when the direction of every
    record is a string; otherwise it raises the [AttributeError] of
    [None.lower], whatever else the records hold.  When it returns, the
    incoming count is the number of records whose direction lower-cases to
    "incoming", every other record counts as outgoing, and the two add up
    to the total. *)
Theorem calculate_analytics_returns_iff (records : list CallRecord) :
  ((exists a, _calculate_analytics lower set_iter records = Return a)
   <-> Forall has_direction records) /\
  (forall e, _calculate_analytics lower set_iter records = Raise e ->
             e = none_has_no_attribute "lower") /\
  (forall a, _calculate_analytics lower set_iter records = Return a ->
     total_calls a = Z.of_nat (length records) /\
     incoming_calls a
     = Z.of_nat (length (List.filter (incoming_record lower) records)) /\
     outgoing_calls a
     = Z.of_nat (length (List.filter (fun r => negb (incoming_record lower r)) records)) /\
     (incoming_calls a + outgoing_calls a = total_calls a)%Z).
Proof.
  assert ((exists a, _calculate_analytics lower set_iter records = Return a)
          -> Forall has_direction records) as Hfwd.
  { intros [a Ha]. destruct records as [|r rs]; [constructor|].
    unfold _calculate_analytics in Ha.
    destruct (count_incoming lower (r :: rs) 0) as [n|e] eqn:E; [|discriminate].
    eapply count_incoming_returns, E. }
  split; [split; [exact Hfwd|]|split].
  - intros H. destruct (incoming_outgoing_of_strings lower set_iter records H)
      as (a & Ha & _). eauto.
  - intros e. destruct records as [|r rs]; [discriminate|].
    unfold _calculate_analytics.
    destruct (count_incoming lower (r :: rs) 0) as [n|e'] eqn:E; [discriminate|].
    simpl. intros [= <-]. eapply count_incoming_raises, E.
  - intros a Ha.
    destruct (incoming_outgoing_of_strings lower set_iter records (Hfwd (ex_intro _ a Ha)))
      as (a' & Ha' & H). rewrite Ha in Ha'. injection Ha' as <-. exact H.
Qed.
End AnalyticsMore.

Section CountFacts.
Context {K : Type} `{EqDecision K}.
Implicit Types (k : K) (xs : list K) (d : list (K * Z)).

Lemma sum_counts_incr k d :
  sum_counts (dict_set k (dict_get k 0 d + 1)%Z d) = (sum_counts d + 1)%Z.
Proof.
  unfold sum_counts. induction d as [|[k' v] d IH]; simpl; [lia|].
  destruct (decide (k = k')); simpl; [lia|].
  (* the value written does not depend on the entries already passed *)
  assert (forall w, fold_right Z.add 0%Z (map snd (dict_set k w d))
                    = (fold_right Z.add 0 (map snd d) - dict_get k 0 d + w)%Z) as H.
  { clear. induction d as [|[k0 v0] d IH]; intros w; simpl; [lia|].
    destruct (decide (k = k0)); simpl; [lia|]. rewrite IH. lia. }
  rewrite H. lia.
Qed.

Lemma sum_counts_tally xs : sum_counts (tally xs) = Z.of_nat (length xs).
Proof.
  unfold tally.
  assert (forall d, sum_counts
                      (fold_left (fun d x => dict_set x (dict_get x 0 d + 1)%Z d) xs d)
                    = (sum_counts d + Z.of_nat (length xs))%Z) as H.
  { induction xs as [|x xs IH]; intros d; simpl length; simpl fold_left; [lia|].
    rewrite IH, sum_counts_incr. lia. }
  rewrite H. reflexivity.
Qed.

Lemma first_seen_length seen xs : length (first_seen seen xs) <= length xs.
Proof.
  revert seen. induction xs as [|x xs IH]; intros seen; simpl; [lia|].
  destruct (decide (x ∈ seen)); simpl.
  - specialize (IH seen). lia.
  - specialize (IH (x :: seen)). lia.
Qed.

Lemma first_seen_nonempty x xs : first_seen [] (x :: xs) <> [].
Proof.
  simpl. destruct (decide (x ∈ [])) as [H|_]; [|discriminate].
  apply elem_of_nil in H. destruct H.
Qed.
End CountFacts.

(** The number of distinct elements of a list, as a set has it. *)
Lemma size_list_to_set_first_seen (l : list pystr) :
  size (list_to_set l : gset pystr) = length (first_seen [] l).
Proof.
  rewrite <- (size_list_to_set (C := gset pystr) (first_seen [] l))
    by apply first_seen_NoDup.
  f_equal. apply set_eq. intros x.
  rewrite !elem_of_list_to_set, !list_elem_of_In, first_seen_In, elem_of_nil. tauto.
Qed.

Lemma sum_counts_perm {K} (d d' : list (K * Z)) :
  Permutation d d' -> sum_counts d = sum_counts d'.
Proof.
  unfold sum_counts.
  induction 1 as [|x l l' _ IH|x y l|l l' l'' _ IH1 _ IH2]; simpl; lia.
Qed.

Lemma sum_counts_take {K} (n : nat) (d : list (K * Z)) :
  Forall (fun e => (0 <= e.2)%Z) d ->
  (sum_counts (take n d) <= sum_counts d)%Z /\ (0 <= sum_counts (take n d))%Z.
Proof.
  unfold sum_counts. intros H. revert n.
  induction H as [|e d He _ IH]; intros [|n]; simpl; try lia.
  - assert (0 <= fold_right Z.add 0 (map snd d))%Z as Hd.
    { specialize (IH (length d)). rewrite firstn_all in IH. lia. }
    lia.
  - specialize (IH n). lia.
Qed.

Lemma occurrences_nonneg {K} `{EqDecision K} (x : K) (l : list K) :
  (0 <= occurrences x l)%Z.
Proof. induction l as [|y l IH]; simpl; [lia|]. destruct (decide (x = y)); lia. Qed.

Lemma occurrences_In {K} `{EqDecision K} (x : K) (l : list K) :
  In x l -> (1 <= occurrences x l)%Z.
Proof.
  induction l as [|y l IH]; simpl; [tauto|].
  pose proof (occurrences_nonneg x l).
  destruct (decide (x = y)) as [->|NE]; [lia|].
  intros [E|Hin]; [congruence|]. specialize (IH Hin). lia.
Qed.

Lemma tally_length {K} `{EqDecision K} (xs : list K) :
  length (tally xs) = length (first_seen [] xs).
Proof. rewrite <- tally_keys, length_map. reflexivity. Qed.

Lemma most_frequent_counts (records : list CallRecord) :
  Forall (fun e => (1 <= e.2)%Z) (most_frequent records).
Proof.
  unfold most_frequent, number_counts. apply List.Forall_forall. intros [n c] Hin.
  assert (In (n, c) (sorted_desc snd (tally (map normalized_number records)))) as Hs.
  { rewrite <- (take_drop 10 (sorted_desc snd _)). apply in_or_app. left. exact Hin. }
  apply (proj1 (sorted_desc_In _ _ _)) in Hs. apply tally_In in Hs as [Hn ->].
  simpl. apply occurrences_In, Hn.
Qed.

Section AnalyticsInvariants.
Variable lower : pystr -> pystr.
Variable set_iter : gset pystr -> list pystr.

(** The object a returning computation leaves. *)
Lemma calculate_analytics_inv (records : list CallRecord) (a : Analytics) :
  _calculate_analytics lower set_iter records = Return a ->
  total_calls a = Z.of_nat (length records) /\
  unique_numbers a
  = Z.of_nat (size (list_to_set (map normalized_number records) : gset pystr)) /\
  most_frequent_numbers a = most_frequent records /\
  calls_by_day a = tally (map date records) /\
  calls_by_hour a = tally (map (fun r => hour (start_time r)) records) /\
  target_numbers a
  = list_to_set (List.filter truthy (map target_number records)) /\
  files_processed a
  = list_to_set (List.filter truthy (map source_file records)) /\
  (records <> [] -> common_contacts a = _find_common_contacts set_iter records).
Proof.
  destruct records as [|r rs]; simpl.
  - intros [= <-]. simpl. repeat split; try reflexivity. congruence.
  - destruct (count_incoming lower (r :: rs) 0) as [n|e] eqn:E; simpl in E;
      rewrite E; simpl; [|discriminate].
    intros [= <-]. simpl. repeat split; reflexivity.
Qed.

(** X8: the per-day and per-hour histograms each add up to the total number
    of calls; the counts of the most-frequent list add up to at most the
    total, and to the total when there are no more than ten distinct
    numbers. *)
Theorem histograms_add_up (records : list CallRecord) (a : Analytics) :
  _calculate_analytics lower set_iter records = Return a ->
  sum_counts (calls_by_day a) = total_calls a /\
  sum_counts (calls_by_hour a) = total_calls a /\
  (sum_counts (most_frequent_numbers a) <= total_calls a)%Z /\
  ((unique_numbers a <= 10)%Z ->
   sum_counts (most_frequent_numbers a) = total_calls a).
Proof.
  intros H. apply calculate_analytics_inv in H
    as (-> & -> & -> & -> & -> & _).
  rewrite !sum_counts_tally, !length_map.
  assert (sum_counts (sorted_desc snd (number_counts records))
          = Z.of_nat (length records)) as Hall.
  { rewrite (sum_counts_perm _ _ (sorted_desc_perm snd _)).
    unfold number_counts. rewrite sum_counts_tally, length_map. reflexivity. }
  split; [reflexivity|]. split; [reflexivity|]. unfold most_frequent. split.
  - rewrite <- Hall. apply sum_counts_take.
    apply List.Forall_forall. intros [n c] Hin.
    apply sorted_desc_In, tally_In in Hin as [_ ->]. simpl. apply occurrences_nonneg.
  - intros Hle. rewrite size_list_to_set_first_seen in Hle.
    rewrite take_ge; [exact Hall|].
    rewrite (Permutation_length (sorted_desc_perm snd _)).
    unfold number_counts. rewrite tally_length. lia.
Qed.

(** X9: the unique-number count is the number of entries of the full
    ranking, at most the total and at least 1 for a non-empty record list;
    the most-frequent list has min(10, unique) entries, each with a count
    of at least 1. *)
Theorem unique_numbers_bounds (records : list CallRecord) (a : Analytics) :
  _calculate_analytics lower set_iter records = Return a ->
  unique_numbers a = Z.of_nat (length (number_counts records)) /\
  (unique_numbers a <= total_calls a)%Z /\
  (records <> [] -> (1 <= unique_numbers a)%Z) /\
  Z.of_nat (length (most_frequent_numbers a)) = Z.min 10 (unique_numbers a) /\
  Forall (fun e => (1 <= e.2)%Z) (most_frequent_numbers a).
Proof.
  intros H. apply calculate_analytics_inv in H
    as (-> & -> & -> & _).
  rewrite size_list_to_set_first_seen. unfold number_counts at 1.
  rewrite tally_length.
  split; [reflexivity|]. split; [|split; [|split]].
  - pose proof (first_seen_length [] (map normalized_number records)) as Hl.
    rewrite length_map in Hl. lia.
  - intros Hne. destruct records as [|r rs]; [congruence|].
    pose proof (first_seen_nonempty (normalized_number r) (map normalized_number rs)) as Hn.
    simpl map.
    destruct (first_seen [] (normalized_number r :: map normalized_number rs));
      [congruence|simpl; lia].
  - unfold most_frequent. rewrite length_take.
    rewrite (Permutation_length (sorted_desc_perm snd _)).
    unfold number_counts. rewrite tally_length. lia.
  - apply most_frequent_counts.
Qed.

(** X11: the [common_contacts] attribute exists exactly when the records
    (non-empty) name more than one distinct target, that is when the set of
    target numbers has more than one element. *)
Theorem common_contacts_assigned_iff (r : CallRecord) (rest : list CallRecord)
    (a : Analytics) :
  _calculate_analytics lower set_iter (r :: rest) = Return a ->
  size (target_numbers a) = length (targets_seen (r :: rest)) /\
  (common_contacts a = None <-> size (target_numbers a) <= 1) /\
  (is_Some (common_contacts a) <-> 1 < size (target_numbers a)).
Proof.
  intros H. apply calculate_analytics_inv in H
    as (_ & _ & _ & _ & _ & -> & _ & Hcc).
  rewrite Hcc by discriminate.
  rewrite size_list_to_set_first_seen. fold (targets_seen (r :: rest)).
  rewrite find_common_contacts_eq.
  split; [reflexivity|].
  destruct (Nat.ltb_spec 1 (length (targets_seen (r :: rest)))) as [Hlt|Hge].
  - split; split; intros H; try discriminate; try lia; eauto.
  - split; split; intros H; try reflexivity; try lia.
    destruct H as [? H]. discriminate H.
Qed.
End AnalyticsInvariants.

(** X10: when both exist, the shortest call is no longer than the longest;
    both are records of the list, and no record is longer than the longest. *)
Theorem shortest_at_most_longest (records : list CallRecord) (s m : CallRecord) :
  shortest records = Some s ->
  longest records = Some m ->
  In s records /\ In m records /\
  (length_of_call s <= length_of_call m)%Z /\
  Forall (fun r => (length_of_call r <= length_of_call m)%Z) records.
Proof.
  intros Hs Hm.
  assert (In m records /\
          Forall (fun r => (length_of_call r <= length_of_call m)%Z) records) as [Hin Hmax].
  { destruct records as [|r rest]; [discriminate|]. simpl in Hm. injection Hm as <-.
    destruct (max_from_split length_of_call [] r [] rest) as (l1 & l2 & E & H1 & H2);
      [constructor|constructor|].
    simpl in E. rewrite E. split; [apply in_or_app; right; left; reflexivity|].
    apply Forall_app. split; [|constructor; [lia|exact H2]].
    eapply List.Forall_impl; [|exact H1]. simpl. intros; lia. }
  assert (In s records) as Hsin.
  { unfold shortest, min_default in Hs.
    destruct (List.filter _ records) as [|x f] eqn:E; [discriminate|].
    injection Hs as <-.
    destruct (min_from_split length_of_call [] x [] f) as (f1 & f2 & E' & _);
      [constructor|constructor|].
    simpl in E'. rewrite <- E in E'.
    assert (In (min_from length_of_call x f)
               (List.filter (fun r => (0 <? length_of_call r)%Z) records)) as H.
    { rewrite E'. apply in_or_app. right. left. reflexivity. }
    apply List.filter_In in H. tauto. }
  split; [exact Hsin|]. split; [exact Hin|]. split; [|exact Hmax].
  rewrite List.Forall_forall in Hmax. apply Hmax, Hsin.
Qed.

(** X12: every common-contact entry has a count of at least 2 and at most
    the number of distinct targets; its targets are distinct, non-empty, and
    each of them dials the number. *)
Theorem common_contact_entries set_iter (records : list CallRecord)
    (cc : list contact) :
  _find_common_contacts set_iter records = Some cc ->
  Forall (fun e =>
            (2 <= contact_count e <= Z.of_nat (length (targets_seen records)))%Z /\
            contact_count e = Z.of_nat (length (contact_target_numbers e)) /\
            NoDup (contact_target_numbers e) /\
            (forall t, In t (contact_target_numbers e) ->
               truthy t = true /\ dials records t (contact_number e) = true) /\
            contact_number e ∈ dialed_numbers records)
         cc.
Proof.
  rewrite find_common_contacts_eq.
  destruct (1 <? length (targets_seen records)); [|discriminate].
  intros [= <-]. apply List.Forall_forall. intros e He.
  apply (proj1 (sorted_desc_In _ _ _)) in He.
  apply in_map_iff in He as (n & <- & Hn).
  apply List.filter_In in Hn as [_ Hc]. simpl.
  pose proof (is_common_dialed _ _ Hc) as Hd.
  unfold is_common in Hc. apply Nat.ltb_lt in Hc.
  unfold dialing_targets in *.
  pose proof (List.filter_length_le (fun t => dials records t n) (targets_seen records)).
  split; [lia|]. split; [reflexivity|]. split; [|split; [|exact Hd]].
  - apply NoDup_ListNoDup, List.NoDup_filter, NoDup_ListNoDup.
    unfold targets_seen. apply first_seen_NoDup.
  - intros t Ht. apply List.filter_In in Ht as [Ht Hdial].
    split; [eapply targets_seen_truthy, Ht|exact Hdial].
Qed.

Lemma common_contact_entries_witness :
  Forall (fun e =>
            (2 <= contact_count e
             <= Z.of_nat (length (targets_seen two_targets_sharing_two)))%Z /\
            contact_count e = Z.of_nat (length (contact_target_numbers e)) /\
            NoDup (contact_target_numbers e) /\
            (forall t, In t (contact_target_numbers e) ->
               truthy t = true /\
               dials two_targets_sharing_two t (contact_number e) = true) /\
            contact_number e ∈ dialed_numbers two_targets_sharing_two)
         [mkContact (py "2565550002") [py "2565550100"; py "2565550200"] 2;
          mkContact (py "2565550001") [py "2565550100"; py "2565550200"] 2].
Proof.
  apply (common_contact_entries elements two_targets_sharing_two).
  vm_compute. reflexivity.
Defined.

(** X13: whenever [str.lower] acts on ASCII strings as ASCII lower-casing
    does, an ASCII direction is incoming exactly when it equals "incoming"
    up to the case of its letters. *)
Theorem incoming_ignores_ascii_case (lower : pystr -> pystr) (d : pystr) :
  (forall s, forallb is_ascii s = true -> lower s = map ascii_lower s) ->
  forallb is_ascii d = true ->
  is_incoming lower d = eq_ignore_ascii_case d (py "incoming").
Proof.
  intros Hlower Hd. unfold is_incoming. rewrite (Hlower d Hd).
  apply eqb_lower_ignore_case. reflexivity.
Qed.

Lemma incoming_ignores_ascii_case_witness :
  is_incoming (map ascii_lower) (py "InComing") = true.
Proof.
  rewrite (incoming_ignores_ascii_case (map ascii_lower) (py "InComing"));
    [reflexivity|intros; reflexivity|reflexivity].
Defined.

Lemma histograms_add_up_witness :
  let a := sample_analytics two_targets_sharing_two in
  sum_counts (calls_by_day a) = total_calls a /\
  sum_counts (calls_by_hour a) = total_calls a /\
  (sum_counts (most_frequent_numbers a) <= total_calls a)%Z /\
  ((unique_numbers a <= 10)%Z ->
   sum_counts (most_frequent_numbers a) = total_calls a).
Proof.
  apply (histograms_add_up (map ascii_lower) elements two_targets_sharing_two).
  vm_compute. reflexivity.
Defined.

Lemma unique_numbers_bounds_witness :
  let a := sample_analytics one_target in
  unique_numbers a = Z.of_nat (length (number_counts one_target)) /\
  (unique_numbers a <= total_calls a)%Z /\
  (one_target <> [] -> (1 <= unique_numbers a)%Z) /\
  Z.of_nat (length (most_frequent_numbers a)) = Z.min 10 (unique_numbers a) /\
  Forall (fun e => (1 <= e.2)%Z) (most_frequent_numbers a).
Proof.
  apply (unique_numbers_bounds (map ascii_lower) elements one_target).
  vm_compute. reflexivity.
Defined.

Lemma common_contacts_assigned_iff_witness :
  let a := sample_analytics one_target in
  size (target_numbers a) = length (targets_seen one_target) /\
  (common_contacts a = None <-> size (target_numbers a) <= 1) /\
  (is_Some (common_contacts a) <-> 1 < size (target_numbers a)).
Proof.
  apply (common_contacts_assigned_iff (map ascii_lower) elements
           (hd (sample_record None [] [] 0) one_target) (tl one_target)).
  vm_compute. reflexivity.
Defined.

Lemma shortest_at_most_longest_witness :
  let r := sample_record (Some (py "Incoming")) (py "2565550100") in
  In (r (py "2565550001") 10%Z) one_target /\
  In (r (py "2565550001") 25%Z) one_target /\
  (length_of_call (r (py "2565550001") 10%Z)
   <= length_of_call (r (py "2565550001") 25%Z))%Z /\
  Forall (fun x => (length_of_call x
                    <= length_of_call (r (py "2565550001") 25%Z))%Z) one_target.
Proof.
  apply (shortest_at_most_longest one_target); reflexivity.
Defined.

(** ** Multi-file ingestion, continued *)

Section IngestMore.
Variable et_parse : pystr -> result element.
Variable int_of_str : pystr -> option Z.
Variable fromisoformat : pystr -> option datetime.
Variable strftime : datetime -> pystr -> pystr.
Variable basename : pystr -> pystr.
Variable lower : pystr -> pystr.
Variable set_iter : gset pystr -> list pystr.

Let parse := parse_file et_parse int_of_str fromisoformat strftime basename.

Lemma calculate_analytics_raise_inv (records : list CallRecord) (e : exn) :
  _calculate_analytics lower set_iter records = Raise e ->
  e = none_has_no_attribute "lower" /\ ~ Forall has_direction records.
Proof.
  intros H. split.
  - destruct records as [|r rs]; [discriminate|].
    unfold _calculate_analytics in H.
    destruct (count_incoming lower (r :: rs) 0) as [n|e'] eqn:E; [discriminate|].
    simpl in H. injection H as <-. eapply count_incoming_raises, E.
  - intros HF.
    destruct (incoming_outgoing_of_strings lower set_iter records HF) as (a & Ha & _).
    congruence.
Qed.

Lemma calculate_analytics_return_directions (records : list CallRecord) a :
  _calculate_analytics lower set_iter records = Return a ->
  Forall has_direction records.
Proof.
  destruct records as [|r rs]; [constructor|].
  unfold _calculate_analytics.
  destruct (count_incoming lower (r :: rs) 0) as [n|e] eqn:E; [|discriminate].
  intros _. eapply count_incoming_returns, E.
Qed.

Lemma merged_record_source (file_paths : list pystr) (r : CallRecord) :
  In r (flat_map (records_of parse) file_paths) ->
  exists p, In p file_paths /\ parsed_ok parse p = true /\
            source_file r = basename p.
Proof.
  intros H. apply in_flat_map in H as (p & Hp & Hr). exists p.
  unfold records_of in Hr. unfold parsed_ok.
  destruct (parse p) as [rs|e] eqn:E; [|destruct Hr].
  split; [exact Hp|]. split; [reflexivity|].
  unfold parse in E. apply parse_file_inv in E as (root & _ & _ & ->).
  apply in_flat_map in Hr as (el & _ & Hr). unfold kept_record in Hr.
  destruct (record_of_result _ _ _ _ _ _ el) as [r'|e] eqn:E'; [|destruct Hr].
  destruct Hr as [<-|[]].
  apply record_of_result_well_built in E'. unfold well_built in E'. tauto.
Qed.

(** X14: the error callback carries one of two messages only: the
    no-records message, when no record survives, or the [AttributeError] of
    a record without direction.  The message of a source that failed to
    parse never reaches it. *)
Theorem process_files_error_messages (file_paths : list pystr) (msg : pystr) :
  _process_files_thread et_parse int_of_str fromisoformat strftime basename
    lower set_iter file_paths = _on_processing_error msg ->
  (msg = py "No valid records found in any files" /\
   flat_map (records_of parse) file_paths = [])
  \/
  (msg = py "'NoneType' object has no attribute 'lower'" /\
   ~ Forall has_direction (flat_map (records_of parse) file_paths)).
Proof.
  unfold _process_files_thread. rewrite process_files_spec. fold parse.
  set (analyse := _calculate_analytics lower set_iter).
  destruct (flat_map (records_of parse) file_paths) as [|r rs] eqn:E.
  - intros [= <-]. left. auto.
  - cbv zeta. destruct (analyse (r :: rs)) as [a|e] eqn:Ha; [intros [=]|].
    intros [= <-]. subst analyse.
    apply calculate_analytics_raise_inv in Ha as [-> Hn].
    right. split; [reflexivity|exact Hn].
Qed.

(** X15: the success callback never carries an empty record list or an
    empty file list; its analytics are those of its records, whose
    directions are all strings; every file it lists is one of the given
    paths that parsed, and every record names the base name of one of them
    as its source. *)
Theorem process_files_success (file_paths : list pystr)
    (records : list CallRecord) (a : Analytics) (files : list pystr) :
  _process_files_thread et_parse int_of_str fromisoformat strftime basename
    lower set_iter file_paths = _on_processing_finished records a files ->
  records <> [] /\ files <> [] /\
  _calculate_analytics lower set_iter records = Return a /\
  Forall has_direction records /\
  (forall p, In p files <-> In p file_paths /\ parsed_ok parse p = true) /\
  Forall (fun r => exists p, In p files /\ source_file r = basename p) records.
Proof.
  unfold _process_files_thread. rewrite process_files_spec. fold parse.
  set (analyse := _calculate_analytics lower set_iter).
  destruct (flat_map (records_of parse) file_paths) as [|r rs] eqn:E; [intros [=]|].
  cbv zeta. destruct (analyse (r :: rs)) as [a'|e] eqn:Ha; [|intros [=]].
  intros [= <- <- <-]. subst analyse.
  assert (forall p, In p (List.filter (parsed_ok parse) file_paths)
                    <-> In p file_paths /\ parsed_ok parse p = true) as Hfiles.
  { intros p. apply List.filter_In. }
  assert (Forall (fun r0 => exists p, In p (List.filter (parsed_ok parse) file_paths)
                                      /\ source_file r0 = basename p) (r :: rs)) as Hsrc.
  { rewrite <- E. apply List.Forall_forall. intros r0 Hr0.
    apply merged_record_source in Hr0 as (p & Hp & Hok & Hs).
    exists p. split; [apply Hfiles; auto|exact Hs]. }
  split; [discriminate|]. split.
  - inversion Hsrc as [|? ? (p & Hp & _) _]; subst. intros Hnil.
    rewrite Hnil in Hp. destruct Hp.
  - split; [exact Ha|]. split; [|split; [exact Hfiles|exact Hsrc]].
    eapply calculate_analytics_return_directions, Ha.
Qed.
End IngestMore.

Lemma process_files_error_messages_witness :
  let parse := parse_file sample_files sample_int sample_fromisoformat
                 sample_strftime id in
  (py "No valid records found in any files" = py "No valid records found in any files" /\
   flat_map (records_of parse) [py "two.xml"] = [])
  \/
  (py "No valid records found in any files"
   = py "'NoneType' object has no attribute 'lower'" /\
   ~ Forall has_direction (flat_map (records_of parse) [py "two.xml"])).
Proof.
  apply (process_files_error_messages sample_files sample_int sample_fromisoformat
           sample_strftime id (map ascii_lower) elements [py "two.xml"]).
  vm_compute. reflexivity.
Defined.

Lemma process_files_success_witness :
  let parse := parse_file sample_files sample_int sample_fromisoformat
                 sample_strftime id in
  let file_paths := [py "one.xml"; py "two.xml"; py "three.xml"] in
  let records := flat_map (records_of parse) file_paths in
  let files := [py "one.xml"; py "three.xml"] in
  records <> [] /\ files <> [] /\
  _calculate_analytics (map ascii_lower) elements records
  = Return (sample_analytics records) /\
  Forall has_direction records /\
  (forall p, In p files <-> In p file_paths /\ parsed_ok parse p = true) /\
  Forall (fun r => exists p, In p files /\ source_file r = id p) records.
Proof.
  apply (process_files_success sample_files sample_int sample_fromisoformat
           sample_strftime id (map ascii_lower) elements).
  vm_compute. reflexivity.
Defined.

(** ** Export, continued *)

Lemma lookup_ws_cell (row column : nat) (v : option cell_value)
    (ws : worksheet) (r c : nat) :
  ws_cell row column v ws !! (r, c) =
  match (if (r =? row) && (c =? column) then v else None) with
  | Some x => Some x
  | None => ws !! (r, c)
  end.
Proof.
  unfold ws_cell.
  destruct (Nat.eqb_spec r row) as [->|Hr], (Nat.eqb_spec c column) as [->|Hc];
    simpl; destruct v as [x|]; try reflexivity.
  - apply lookup_insert_eq.
  - apply lookup_insert_ne. congruence.
  - apply lookup_insert_ne. congruence.
  - apply lookup_insert_ne. congruence.
Qed.

Lemma lookup_write_row (row column : nat) (values : list (option cell_value))
    (ws : worksheet) (r c : nat) :
  write_row row column values ws !! (r, c) =
  match written_in_row row column values r c with
  | Some x => Some x
  | None => ws !! (r, c)
  end.
Proof.
  unfold written_in_row.
  revert column ws. induction values as [|v vs IH]; intros column ws.
  - cbn [write_row]. destruct ((r =? row) && (column <=? c)); reflexivity.
  - cbn [write_row]. rewrite IH, lookup_ws_cell.
    destruct (Nat.eqb_spec r row) as [->|Hr]; cbn [andb]; [|reflexivity].
    destruct (Nat.leb_spec (S column) c) as [Hlt|Hge].
    + assert ((column <=? c) = true) as -> by (apply Nat.leb_le; lia).
      assert ((c =? column) = false) as -> by (apply Nat.eqb_neq; lia).
      replace (c - column) with (S (c - S column)) by lia.
      change ((v :: vs) !! S (c - S column)) with (vs !! (c - S column)).
      destruct (mjoin (vs !! (c - S column))); reflexivity.
    + destruct (Nat.eqb_spec c column) as [->|Hc].
      * rewrite Nat.leb_refl, Nat.sub_diag.
        change ((v :: vs) !! 0) with (Some v). destruct v; reflexivity.
      * assert ((column <=? c) = false) as -> by (apply Nat.leb_gt; lia).
        reflexivity.
Qed.

Lemma lookup_write_rows (row : nat) (rows : list (list (option cell_value)))
    (ws : worksheet) (r c : nat) :
  write_rows row rows ws !! (r, c) =
  match written row rows r c with
  | Some x => Some x
  | None => ws !! (r, c)
  end.
Proof.
  unfold written.
  revert row ws. induction rows as [|vs rows IH]; intros row ws.
  - cbn [write_rows]. destruct ((row <=? r) && (1 <=? c)); reflexivity.
  - cbn [write_rows]. rewrite IH, lookup_write_row. unfold written_in_row.
    destruct (Nat.leb_spec (S row) r) as [Hlt|Hge]; cbn [andb].
    + assert ((row <=? r) = true) as -> by (apply Nat.leb_le; lia).
      assert ((r =? row) = false) as -> by (apply Nat.eqb_neq; lia).
      cbn [andb].
      replace (r - row) with (S (r - S row)) by lia.
      change ((vs :: rows) !! S (r - S row)) with (rows !! (r - S row)).
      destruct (1 <=? c); [|reflexivity].
      destruct (rows !! (r - S row)) as [values|]; [|reflexivity].
      destruct (mjoin (values !! (c - 1))); reflexivity.
    + destruct (Nat.eqb_spec r row) as [->|Hr]; cbn [andb].
      * rewrite Nat.leb_refl, Nat.sub_diag. cbn [andb].
        change ((vs :: rows) !! 0) with (Some vs). reflexivity.
      * assert ((row <=? r) = false) as -> by (apply Nat.leb_gt; lia).
        reflexivity.
Qed.

Lemma escape_value_idempotent (v : cell_value) :
  escape_value (escape_value v) = escape_value v.
Proof.
  destruct v as [n|q|s]; simpl; try reflexivity.
  destruct (startswith1 61%N s) eqn:E; simpl; [reflexivity|rewrite E; reflexivity].
Qed.

(** X18: the clean-up is idempotent: run again on a cleaned workbook, it
    changes nothing, so a string is never given a second apostrophe. *)
Theorem clean_up_idempotent (wb : workbook) :
  clean_up (clean_up wb) = clean_up wb.
Proof.
  unfold clean_up. rewrite map_map. apply map_ext. intros [title ws]. simpl.
  f_equal. apply map_eq. intros rc. rewrite !lookup_fmap.
  destruct (ws !! rc) as [v|]; simpl; [|reflexivity].
  rewrite escape_value_idempotent. reflexivity.
Qed.

Lemma normalize_not_formula (number : option pystr) :
  startswith1 61%N (_normalize_phone_number number) = false.
Proof.
  pose proof (normalize_length number) as Hlen.
  assert (Forall (fun c => is_decimal c = true) (_normalize_phone_number number)) as Hdec.
  { apply normalize_Forall; [reflexivity|apply digits_only_decimal]. }
  destruct (_normalize_phone_number number) as [|c s]; [reflexivity|].
  inversion Hdec as [|? ? Hc _]; subst. simpl.
  destruct (N.eqb_spec c 61) as [->|_]; [discriminate Hc|reflexivity].
Qed.

Section ExportMore.
Variable strftime : datetime -> pystr -> pystr.
Variable format_2f : Q -> pystr.

Lemma export_data_inv (records : list CallRecord) (a : Analytics) (wb : workbook) :
  export_data strftime format_2f records a = Return wb ->
  exists ws_common,
    _export_common_contacts ∅ a = Return ws_common /\
    wb = [ (py "Call Records", escape_value <$> _export_call_records strftime ∅ records);
           (py "Analytics", escape_value <$> _export_analytics format_2f ∅ a);
           (py "Summary Report", escape_value <$> _export_summary_report format_2f ∅ a);
           (py "Common Contacts", escape_value <$> ws_common) ].
Proof.
  unfold export_data, filled_workbook, bind.
  destruct (_export_common_contacts ∅ a) as [ws|e]; [|discriminate].
  intros [= <-]. exists ws. split; reflexivity.
Qed.

(** X16: the export gets as far as saving exactly when the
    [common_contacts] attribute exists; the workbook then has the four
    sheets, in their order; otherwise the export raises, with one message. *)
Theorem export_data_returns_iff (records : list CallRecord) (a : Analytics) :
  ((exists wb, export_data strftime format_2f records a = Return wb)
   <-> is_Some (common_contacts a)) /\
  (forall wb, export_data strftime format_2f records a = Return wb ->
     map fst wb = [py "Call Records"; py "Analytics"; py "Summary Report";
                   py "Common Contacts"]) /\
  (forall e, export_data strftime format_2f records a = Raise e ->
     e = mkExn Exception_
           (py "Excel export failed: 'Analytics' object has no attribute 'common_contacts'")).
Proof.
  split; [split|split].
  - intros [wb H]. apply export_data_inv in H as (ws & H & _).
    unfold _export_common_contacts in H.
    destruct (common_contacts a); [eauto|discriminate].
  - intros [cc Hcc]. unfold export_data, filled_workbook, _export_common_contacts, bind.
    rewrite Hcc. destruct cc; eauto.
  - intros wb H. apply export_data_inv in H as (ws & _ & ->). reflexivity.
  - intros e. destruct (common_contacts a) as [cc|] eqn:Hcc.
    + unfold export_data, filled_workbook, _export_common_contacts, bind.
      rewrite Hcc. destruct cc; discriminate.
    + rewrite (export_fails_without_common_contacts _ _ _ _ Hcc).
      intros [= <-]. reflexivity.
Qed.

Lemma lookup_map {A B} (f : A -> B) (l : list A) (i : nat) :
  map f l !! i = f <$> (l !! i).
Proof.
  revert i. induction l as [|x l IH]; intros [|i]; simpl; try reflexivity. apply IH.
Qed.

Lemma lookup_rows_at (rows : list (list (option cell_value))) (ws0 : worksheet)
    (start i c : nat) (values : list (option cell_value)) :
  rows !! i = Some values -> 1 <= c ->
  write_rows start rows ws0 !! (i + start, c)
  = match mjoin (values !! (c - 1)) with
    | Some x => Some x
    | None => ws0 !! (i + start, c)
    end.
Proof.
  intros Hrow Hc. rewrite lookup_write_rows. unfold written.
  assert ((start <=? i + start) = true) as -> by (apply Nat.leb_le; lia).
  assert ((1 <=? c) = true) as -> by (apply Nat.leb_le; lia).
  cbn [andb]. replace (i + start - start) with i by lia.
  rewrite Hrow. reflexivity.
Qed.

Lemma lookup_rows_beyond (rows : list (list (option cell_value))) (ws0 : worksheet)
    (start r c : nat) :
  length rows + start <= r ->
  write_rows start rows ws0 !! (r, c) = ws0 !! (r, c).
Proof.
  intros Hr. rewrite lookup_write_rows. unfold written.
  destruct ((start <=? r) && (1 <=? c)); [|reflexivity].
  rewrite lookup_ge_None_2 by lia. reflexivity.
Qed.

Lemma lookup_rows_above (rows : list (list (option cell_value))) (ws0 : worksheet)
    (start r c : nat) :
  r < start -> write_rows start rows ws0 !! (r, c) = ws0 !! (r, c).
Proof.
  intros Hr. rewrite lookup_write_rows. unfold written.
  assert ((start <=? r) = false) as -> by (apply Nat.leb_gt; lia). reflexivity.
Qed.

Lemma lookup_row_at (values : list (option cell_value)) (ws0 : worksheet)
    (row column c : nat) (v : cell_value) :
  values !! c = Some (Some v) ->
  write_row row column values ws0 !! (row, c + column) = Some v.
Proof.
  intros Hv. rewrite lookup_write_row. unfold written_in_row.
  rewrite Nat.eqb_refl.
  assert ((column <=? c + column) = true) as -> by (apply Nat.leb_le; lia).
  cbn [andb]. replace (c + column - column) with c by lia.
  rewrite Hv. reflexivity.
Qed.

(** X19: the saved Call Records sheet has the ten headers in row 1 and the
    record at position [i] in row [i + 2] and nothing below the last record:
    the duration in seconds and in minutes as numbers, unchanged, and the
    normalized number as the same string, which the clean-up never touches
    when it is the one [CallRecord] computed. *)
Theorem saved_records_sheet (records : list CallRecord) (a : Analytics)
    (wb : workbook) :
  export_data strftime format_2f records a = Return wb ->
  exists ws : worksheet,
    wb !! 0 = Some (py "Call Records", ws) /\
    (forall c h,
       ["Direction"; "Target Number"; "Remote Number"; "Normalized Number";
        "Date & Time"; "End Time"; "Duration (sec)"; "Duration (min)";
        "Day of Week"; "Source File"]%string !! c = Some h ->
       ws !! (1, S c) = Some (VStr (py h))) /\
    (forall i r, records !! i = Some r ->
       ws !! (i + 2, 7) = Some (VInt (length_of_call r)) /\
       ws !! (i + 2, 8) = Some (VFloat (duration_minutes r)) /\
       ws !! (i + 2, 4) = Some (VStr (escape_str (normalized_number r))) /\
       (normalized_number r = _normalize_phone_number (remote_number r) ->
        ws !! (i + 2, 4) = Some (VStr (normalized_number r)))) /\
    (forall r c, length records + 2 <= r -> ws !! (r, c) = None).
Proof.
  intros H. apply export_data_inv in H as (wsc & _ & ->).
  eexists. split; [reflexivity|].
  unfold _export_call_records. split; [|split].
  - intros c h Hh. rewrite lookup_fmap, lookup_rows_above by lia.
    replace (S c) with (c + 1) by lia.
    rewrite (lookup_row_at _ _ 1 1 c (VStr (py h))).
    + do 10 (destruct c as [|c]; [injection Hh as <-; reflexivity|]).
      discriminate Hh.
    + rewrite lookup_map, Hh. reflexivity.
  - intros i r Hr.
    assert (forall c, 1 <= c ->
              (escape_value <$>
                 write_rows 2 (map (record_row strftime) records)
                   (write_row 1 1
                      (map text_cell
                         ["Direction"; "Target Number"; "Remote Number";
                          "Normalized Number"; "Date & Time"; "End Time";
                          "Duration (sec)"; "Duration (min)"; "Day of Week";
                          "Source File"]%string) ∅)) !! (i + 2, c)
              = escape_value <$>
                  match mjoin (record_row strftime r !! (c - 1)) with
                  | Some x => Some x
                  | None => None
                  end) as Hcell.
    { intros c Hc. rewrite lookup_fmap.
      rewrite (lookup_rows_at _ _ 2 i c (record_row strftime r)); [|rewrite lookup_map, Hr; reflexivity|exact Hc].
      destruct (mjoin (record_row strftime r !! (c - 1))); [reflexivity|].
      rewrite lookup_write_row. unfold written_in_row.
      assert ((i + 2 =? 1) = false) as -> by (apply Nat.eqb_neq; lia).
      reflexivity. }
    split; [rewrite Hcell by lia; reflexivity|].
    split; [rewrite Hcell by lia; reflexivity|].
    split.
    { rewrite Hcell by lia. simpl. unfold escape_str.
      destruct (startswith1 61%N (normalized_number r)); reflexivity. }
    intros Hn. rewrite Hcell by lia. simpl.
    rewrite Hn at 1. rewrite normalize_not_formula. reflexivity.
  - intros r c Hr. rewrite lookup_fmap, lookup_rows_beyond by (rewrite length_map; lia).
    rewrite lookup_write_row. unfold written_in_row.
    assert ((r =? 1) = false) as -> by (apply Nat.eqb_neq; lia).
    reflexivity.
Qed.
End ExportMore.

Section ExportFurther.
Variable lower : pystr -> pystr.
Variable set_iter : gset pystr -> list pystr.
Variable strftime : datetime -> pystr -> pystr.
Variable format_2f : Q -> pystr.

(** X17: for records that are all under one target, or under none, the
    analytics are computed but have no [common_contacts] attribute, and
    exporting them raises before anything is saved. *)
Theorem single_target_export_fails (r : CallRecord) (rest : list CallRecord) :
  Forall has_direction (r :: rest) ->
  length (targets_seen (r :: rest)) <= 1 ->
  exists a,
    _calculate_analytics lower set_iter (r :: rest) = Return a /\
    common_contacts a = None /\
    export_data strftime format_2f (r :: rest) a
    = Raise (mkExn Exception_
        (py "Excel export failed: 'Analytics' object has no attribute 'common_contacts'")).
Proof.
  intros Hdir Hone.
  destruct (incoming_outgoing_of_strings lower set_iter (r :: rest) Hdir) as (a & Ha & _).
  exists a. split; [exact Ha|].
  assert (common_contacts a = None) as Hcc.
  { apply calculate_analytics_inv in Ha as (_ & _ & _ & _ & _ & _ & _ & Hcc).
    rewrite Hcc by discriminate. rewrite find_common_contacts_eq.
    destruct (Nat.ltb_spec 1 (length (targets_seen (r :: rest)))); [lia|reflexivity]. }
  split; [exact Hcc|]. apply export_fails_without_common_contacts, Hcc.
Qed.

(** X20: in the saved Summary Report sheet, line [i] of the report is in
    row [i + 1] of column 1, with an apostrophe before it when it starts
    with ['=']; the three banner lines always do, so they are saved as
    "'=== ... ===".  No other column is used. *)
Theorem saved_summary_sheet (records : list CallRecord) (a : Analytics)
    (wb : workbook) :
  export_data strftime format_2f records a = Return wb ->
  exists ws : worksheet,
    wb !! 2 = Some (py "Summary Report", ws) /\
    (forall i line, report_lines format_2f a !! i = Some line ->
       ws !! (i + 1, 1) = Some (VStr (escape_str line))) /\
    ws !! (1, 1) = Some (VStr (py "'=== TELECOMMUNICATION DATA ANALYSIS ===")) /\
    ws !! (10, 1) = Some (VStr (py "'=== MOST FREQUENT NUMBERS ===")) /\
    ws !! (12 + length (most_frequent_numbers a), 1)
    = Some (VStr (py "'=== CALLS BY DAY ===")) /\
    (forall r c, c <> 1 -> ws !! (r, c) = None).
Proof.
  intros H. apply export_data_inv in H as (wsc & _ & ->).
  eexists. split; [reflexivity|].
  unfold _export_summary_report.
  assert (forall i line, report_lines format_2f a !! i = Some line ->
            (escape_value <$>
               write_rows 1 (map (fun line => [str_cell line]) (report_lines format_2f a)) ∅)
            !! (i + 1, 1) = Some (VStr (escape_str line))) as Hline.
  { intros i line Hl. rewrite lookup_fmap.
    rewrite (lookup_rows_at _ _ 1 i 1 [str_cell line]);
      [|rewrite lookup_map, Hl; reflexivity|lia].
    simpl. unfold escape_str. destruct (startswith1 61%N line); reflexivity. }
  split; [exact Hline|]. split; [|split; [|split]].
  - exact (Hline 0 (py "=== TELECOMMUNICATION DATA ANALYSIS ===") eq_refl).
  - exact (Hline 9 (py "=== MOST FREQUENT NUMBERS ===") eq_refl).
  - replace (12 + length (most_frequent_numbers a))
      with ((11 + length (most_frequent_numbers a)) + 1) by lia.
    change (py "'=== CALLS BY DAY ===") with (escape_str (py "=== CALLS BY DAY ===")).
    apply (Hline (11 + length (most_frequent_numbers a))
                 (py "=== CALLS BY DAY ===")).
    unfold report_lines.
    rewrite lookup_app_r by (simpl; lia).
    rewrite lookup_app_r by (rewrite length_imap; simpl; lia).
    rewrite length_imap.
    replace (11 + length (most_frequent_numbers a) - length
               [py "=== TELECOMMUNICATION DATA ANALYSIS ==="; [];
                py "Total Calls: " ++ str_of_int (total_calls a);
                py "Incoming Calls: " ++ str_of_int (incoming_calls a);
                py "Outgoing Calls: " ++ str_of_int (outgoing_calls a);
                py "Unique Phone Numbers: " ++ str_of_int (unique_numbers a);
                py "Total Duration: " ++ format_2f (total_duration_minutes a)
                  ++ py " minutes";
                py "Average Call Duration: " ++ format_2f (average_call_duration a)
                  ++ py " minutes";
                []; py "=== MOST FREQUENT NUMBERS ==="]
             - length (most_frequent_numbers a)) with 1 by (simpl; lia).
    reflexivity.
  - intros r c Hc. rewrite lookup_fmap, lookup_write_rows. unfold written.
    destruct ((1 <=? r) && (1 <=? c)) eqn:E; [|reflexivity].
    apply andb_true_iff in E as [_ E]. apply Nat.leb_le in E.
    rewrite lookup_map.
    destruct (report_lines format_2f a !! (r - 1)); [|reflexivity].
    simpl. destruct (c - 1) as [|k] eqn:Ek; [lia|reflexivity].
Qed.
End ExportFurther.

Lemma single_target_export_fails_witness :
  exists a,
    _calculate_analytics (map ascii_lower) elements one_target = Return a /\
    common_contacts a = None /\
    export_data sample_strftime sample_format_2f one_target a
    = Raise (mkExn Exception_
        (py "Excel export failed: 'Analytics' object has no attribute 'common_contacts'")).
Proof.
  apply (single_target_export_fails (map ascii_lower) elements sample_strftime
           sample_format_2f (hd (sample_record None [] [] 0) one_target)
           (tl one_target)).
  - repeat constructor; unfold has_direction; simpl; eauto.
  - vm_compute. lia.
Defined.

Lemma saved_records_sheet_witness :
  let records := records_with_formula in
  exists ws : worksheet,
    sample_workbook records !! 0 = Some (py "Call Records", ws) /\
    (forall c h,
       ["Direction"; "Target Number"; "Remote Number"; "Normalized Number";
        "Date & Time"; "End Time"; "Duration (sec)"; "Duration (min)";
        "Day of Week"; "Source File"]%string !! c = Some h ->
       ws !! (1, S c) = Some (VStr (py h))) /\
    (forall i r, records !! i = Some r ->
       ws !! (i + 2, 7) = Some (VInt (length_of_call r)) /\
       ws !! (i + 2, 8) = Some (VFloat (duration_minutes r)) /\
       ws !! (i + 2, 4) = Some (VStr (escape_str (normalized_number r))) /\
       (normalized_number r = _normalize_phone_number (remote_number r) ->
        ws !! (i + 2, 4) = Some (VStr (normalized_number r)))) /\
    (forall r c, length records + 2 <= r -> ws !! (r, c) = None).
Proof.
  apply (saved_records_sheet sample_strftime sample_format_2f records_with_formula
           (sample_analytics records_with_formula)).
  vm_compute. reflexivity.
Defined.

Lemma saved_summary_sheet_witness :
  let records := records_with_formula in
  let a := sample_analytics records in
  exists ws : worksheet,
    sample_workbook records !! 2 = Some (py "Summary Report", ws) /\
    (forall i line, report_lines sample_format_2f a !! i = Some line ->
       ws !! (i + 1, 1) = Some (VStr (escape_str line))) /\
    ws !! (1, 1) = Some (VStr (py "'=== TELECOMMUNICATION DATA ANALYSIS ===")) /\
    ws !! (10, 1) = Some (VStr (py "'=== MOST FREQUENT NUMBERS ===")) /\
    ws !! (12 + length (most_frequent_numbers a), 1)
    = Some (VStr (py "'=== CALLS BY DAY ===")) /\
    (forall r c, c <> 1 -> ws !! (r, c) = None).
Proof.
  apply (saved_summary_sheet sample_strftime sample_format_2f records_with_formula
           (sample_analytics records_with_formula)).
  vm_compute. reflexivity.
Defined.

(** ** The main window *)

(** *** Sorted strings *)

Lemma lex_ltb_irrefl (a : pystr) : lex_ltb a a = false.
Proof.
  induction a as [|x a IH]; simpl; [reflexivity|].
  rewrite N.ltb_irrefl, N.eqb_refl, IH. reflexivity.
Qed.

Lemma lex_ltb_trans (a b c : pystr) :
  lex_ltb a b = true -> lex_ltb b c = true -> lex_ltb a c = true.
Proof.
  revert b c. induction a as [|x a IH]; intros [|y b] [|z c]; simpl;
    try congruence.
  rewrite !orb_true_iff, !andb_true_iff, !N.ltb_lt, !N.eqb_eq.
  intros [Hxy|[-> Hab]] [Hyz|[-> Hbc]].
  - left. lia.
  - left. lia.
  - left. lia.
  - right. split; [reflexivity|]. eapply IH; eassumption.
Qed.

Lemma lex_ltb_connected (a b : pystr) :
  lex_ltb a b = false -> lex_ltb b a = false -> a = b.
Proof.
  revert b. induction a as [|x a IH]; intros [|y b]; simpl; try congruence.
  rewrite !orb_false_iff, !andb_false_iff, !N.ltb_ge, !N.eqb_neq.
  intros [Hxy Ha] [Hyx Hb].
  assert (x = y) as -> by lia.
  f_equal. apply IH; [destruct Ha|destruct Hb]; congruence.
Qed.

Lemma insert_str_perm (x : pystr) (l : list pystr) :
  Permutation (insert_str x l) (x :: l).
Proof.
  induction l as [|y l IH]; simpl; [reflexivity|].
  destruct (lex_ltb y x); [|reflexivity].
  rewrite IH. apply perm_swap.
Qed.

Lemma sorted_strs_perm (l : list pystr) : Permutation (sorted_strs l) l.
Proof.
  induction l as [|x l IH]; simpl; [reflexivity|].
  rewrite insert_str_perm, IH. reflexivity.
Qed.

Lemma insert_str_sorted (x : pystr) (l : list pystr) :
  StronglySorted lex_le l -> StronglySorted lex_le (insert_str x l).
Proof.
  induction 1 as [|y l Hl IH Hy]; simpl.
  - constructor; constructor.
  - destruct (lex_ltb y x) eqn:E.
    + constructor; [exact IH|].
      apply List.Forall_forall. intros z Hz.
      apply (Permutation_in _ (insert_str_perm x l)) in Hz as [<-|Hz].
      * unfold lex_le. destruct (lex_ltb x y) eqn:E'; [|reflexivity].
        pose proof (lex_ltb_trans _ _ _ E E') as F.
        rewrite lex_ltb_irrefl in F. discriminate.
      * rewrite List.Forall_forall in Hy. apply Hy, Hz.
    + constructor; [constructor; assumption|].
      constructor; [exact E|].
      apply List.Forall_forall. intros z Hz.
      rewrite List.Forall_forall in Hy. specialize (Hy z Hz).
      unfold lex_le in *. destruct (lex_ltb z x) eqn:E'; [|reflexivity].
      destruct (lex_ltb y z) eqn:E''.
      * rewrite (lex_ltb_trans _ _ _ E'' E') in E. discriminate.
      * rewrite (lex_ltb_connected _ _ E'' Hy) in E. congruence.
Qed.

Lemma sorted_strs_sorted (l : list pystr) : StronglySorted lex_le (sorted_strs l).
Proof.
  induction l as [|x l IH]; simpl; [constructor|].
  apply insert_str_sorted, IH.
Qed.

Lemma sorted_perm_eq (l1 l2 : list pystr) :
  StronglySorted lex_le l1 -> StronglySorted lex_le l2 ->
  Permutation l1 l2 -> l1 = l2.
Proof.
  intros H1. revert l2.
  induction H1 as [|a l1 Hl1 IH Ha]; intros l2 H2 HP.
  - apply Permutation_nil in HP. congruence.
  - destruct H2 as [|b l2 Hl2 Hb].
    + symmetry in HP. apply Permutation_nil in HP. discriminate.
    + assert (a = b) as ->.
      { assert (In a (b :: l2)) as [E|Ia]
          by (apply (Permutation_in _ HP); left; reflexivity); [congruence|].
        assert (In b (a :: l1)) as [E|Ib]
          by (apply (Permutation_in _ (Permutation_sym HP)); left; reflexivity);
          [congruence|].
        rewrite List.Forall_forall in Ha, Hb.
        symmetry. apply lex_ltb_connected; [apply Ha, Ib|apply Hb, Ia]. }
      f_equal. apply IH; [exact Hl2|].
      eapply Permutation_cons_inv, HP.
Qed.

Lemma sorted_strs_of_perm (l1 l2 : list pystr) :
  Permutation l1 l2 -> sorted_strs l1 = sorted_strs l2.
Proof.
  intros HP. apply sorted_perm_eq; try apply sorted_strs_sorted.
  rewrite !sorted_strs_perm. exact HP.
Qed.

Lemma sorted_strs_strict (l : list pystr) :
  NoDup l -> StronglySorted (fun a b => lex_ltb a b = true) (sorted_strs l).
Proof.
  intros ND.
  assert (NoDup (sorted_strs l)) as ND' by (rewrite sorted_strs_perm; exact ND).
  pose proof (sorted_strs_sorted l) as HS.
  induction HS as [|a s Hs IH Ha]; [constructor|].
  apply NoDup_cons in ND' as [Hni ND'].
  constructor; [apply IH, ND'|].
  rewrite List.Forall_forall in Ha |- *. intros b Hb.
  destruct (lex_ltb a b) eqn:E; [reflexivity|].
  exfalso. apply Hni. rewrite list_elem_of_In.
  rewrite (lex_ltb_connected _ _ E (Ha b Hb)). exact Hb.
Qed.

(** *** Calls per target *)




(** *** The handlers *)

Section WindowFacts.
Variable et_parse : pystr -> result element.
Variable int_of_str : pystr -> option Z.
Variable fromisoformat : pystr -> option datetime.
Variable strftime : datetime -> pystr -> pystr.
Variable basename : pystr -> pystr.
Variable lower : pystr -> pystr.
Variable set_iter : gset pystr -> list pystr.
Variable format_1f : Q -> pystr.
Variable format_2f : Q -> pystr.
Variable save : pystr -> workbook -> result unit.

(** What the success handler leaves. *)
Lemma finished_run (records : list CallRecord) (a : Analytics)
    (file_paths : list pystr) (g : gui) :
  let run := on_processing_finished format_1f format_2f basename set_iter
               records a file_paths g in
  all_records run.1 = records /\ analytics run.1 = Some a /\
  filtered_records run.1 = records /\
  records_tree run.1 = map (record_values format_2f) records /\
  status_var run.1
  = py "Successfully processed " ++ str_of_int (Z.of_nat (length records))
    ++ py " call records from " ++ str_of_int (Z.of_nat (length file_paths))
    ++ py " files" /\
  match common_contacts a with
  | Some contacts =>
      run.2 = Return tt /\
      export_btn run.1 = true /\ export_records_btn run.1 = true /\
      copy_btn run.1 = true /\ notebook run.1 = 1 /\
      no_data_label run.1 = false /\
      common_tree run.1 = common_rows contacts /\
      summary_text run.1
      = join nl (summary_lines format_2f set_iter records a contacts) /\
      messagebox run.1
      = messagebox g ++
        [(showinfo, py "Success",
          py "Successfully processed " ++ str_of_int (Z.of_nat (length records))
          ++ py " call records from "
          ++ str_of_int (Z.of_nat (length file_paths)) ++ py " files!")]
  | None =>
      run.2 = Raise no_common_contacts /\
      export_btn run.1 = export_btn g /\
      export_records_btn run.1 = export_records_btn g /\
      copy_btn run.1 = copy_btn g /\ notebook run.1 = notebook g /\
      no_data_label run.1 = no_data_label g /\
      common_tree run.1 = [] /\
      summary_text run.1 = summary_text g /\
      stats_grid run.1 = stats_grid g /\
      target_combo run.1 = target_combo g /\ target_var run.1 = target_var g /\
      messagebox run.1 = messagebox g
  end.
Proof.
  intros run.
  destruct g as [rs an ct fr sv fl tl rl rt ft dt cm cf sg nd st tc tv eb er cb nb mb].
  pose proof (eq_refl run) as E. unfold run at 2 in E.
  destruct (common_contacts a) as [contacts|] eqn:Hcc;
    repeat (progress (
      cbv beta iota zeta delta
        [on_processing_finished modify and_then _update_records_table
         _update_analytics _update_summary _update_statistics
         _update_target_selector add_message with_analytics
         _update_statistics_cards raising fst snd all_records analytics
         current_target_number filtered_records status_var file_info_label
         target_label records_label records_tree frequent_tree day_tree
         common_tree stats_cards_frame stats_grid no_data_label summary_text
         target_combo target_var export_btn export_records_btn copy_btn
         notebook messagebox set_all_records set_analytics set_filtered_records
         set_status_var set_file_info_label set_records_label set_records_tree
         set_frequent_tree set_day_tree set_common_tree set_stats_cards_frame
         set_stats_grid set_no_data_label set_summary_text set_target_combo
         set_target_var set_export_btn set_export_records_btn set_copy_btn
         set_notebook set_messagebox] in E;
      try rewrite Hcc in E)).
  - revert E. destruct (bool_decide (target_numbers a = ∅)); intros E;
      rewrite E; repeat split; reflexivity.
  - rewrite E. repeat split; reflexivity.
Qed.

(** X21: the success handler stores the records and the analytics, fills the
    records table and sets the status line to "Successfully processed ...";
    it returns exactly when the analytics have the [common_contacts]
    attribute.  Then the export and copy buttons are enabled, the records
    tab is selected, the "no analytics" label is hidden and one "Success"
    dialog is shown.  Otherwise it raises [AttributeError] in
    [_update_analytics], after emptying the common-contacts table: the
    buttons, the selected tab, the "no analytics" label, the summary, the
    overview statistics and the target selector are as before, and no dialog
    is shown. *)
Theorem processing_finished_outcome (records : list CallRecord) (a : Analytics)
    (file_paths : list pystr) (g : gui) :
  let run := on_processing_finished format_1f format_2f basename set_iter
               records a file_paths g in
  all_records run.1 = records /\ analytics run.1 = Some a /\
  filtered_records run.1 = records /\
  records_tree run.1 = map (record_values format_2f) records /\
  status_var run.1
  = py "Successfully processed " ++ str_of_int (Z.of_nat (length records))
    ++ py " call records from " ++ str_of_int (Z.of_nat (length file_paths))
    ++ py " files" /\
  match common_contacts a with
  | Some contacts =>
      run.2 = Return tt /\
      export_btn run.1 = true /\ export_records_btn run.1 = true /\
      copy_btn run.1 = true /\ notebook run.1 = 1 /\
      no_data_label run.1 = false /\
      common_tree run.1 = common_rows contacts /\
      summary_text run.1
      = join nl (summary_lines format_2f set_iter records a contacts) /\
      messagebox run.1
      = messagebox g ++
        [(showinfo, py "Success",
          py "Successfully processed " ++ str_of_int (Z.of_nat (length records))
          ++ py " call records from "
          ++ str_of_int (Z.of_nat (length file_paths)) ++ py " files!")]
  | None =>
      run.2 = Raise no_common_contacts /\
      export_btn run.1 = export_btn g /\
      export_records_btn run.1 = export_records_btn g /\
      copy_btn run.1 = copy_btn g /\ notebook run.1 = notebook g /\
      no_data_label run.1 = no_data_label g /\
      common_tree run.1 = [] /\
      summary_text run.1 = summary_text g /\
      stats_grid run.1 = stats_grid g /\
      target_combo run.1 = target_combo g /\ target_var run.1 = target_var g /\
      messagebox run.1 = messagebox g
  end.
Proof. apply finished_run. Qed.

(** X22: a batch whose records name at most one target number never
    finishes loading: the thread schedules the success handler, the handler
    raises [AttributeError] after filling the records table and setting the
    status line to "Successfully processed ...", and the export and copy
    buttons, the selected tab, the "no analytics" label, the summary, the
    overview statistics, the target selector and the dialogs shown stay as
    they were. *)
Theorem single_target_batch_not_finished (file_paths : list pystr)
    (records : list CallRecord) (a : Analytics) (processed : list pystr)
    (g : gui) :
  _process_files_thread et_parse int_of_str fromisoformat strftime basename
    lower set_iter file_paths
  = _on_processing_finished records a processed ->
  length (targets_seen records) <= 1 ->
  let run :=
    run_callback format_1f format_2f basename set_iter
      (_process_files_thread et_parse int_of_str fromisoformat strftime basename
         lower set_iter file_paths) g in
  run.2 = Raise no_common_contacts /\
  all_records run.1 = records /\ analytics run.1 = Some a /\
  records_tree run.1 = map (record_values format_2f) records /\
  status_var run.1
  = py "Successfully processed " ++ str_of_int (Z.of_nat (length records))
    ++ py " call records from " ++ str_of_int (Z.of_nat (length processed))
    ++ py " files" /\
  export_btn run.1 = export_btn g /\
  export_records_btn run.1 = export_records_btn g /\
  copy_btn run.1 = copy_btn g /\ notebook run.1 = notebook g /\
  no_data_label run.1 = no_data_label g /\
  summary_text run.1 = summary_text g /\
  stats_grid run.1 = stats_grid g /\
  target_combo run.1 = target_combo g /\
  messagebox run.1 = messagebox g.
Proof.
  intros Hcb Hone run. subst run. rewrite Hcb.
  unfold _process_files_thread in Hcb. rewrite process_files_spec in Hcb.
  revert Hcb. destruct (flat_map _ file_paths) as [|r rs] eqn:Hm; [discriminate|].
  cbv beta iota zeta.
  destruct (_calculate_analytics lower set_iter (r :: rs)) as [a'|e] eqn:Ha;
    [|discriminate].
  intros [= <- <- _].
  apply calculate_analytics_fields in Ha as (_ & _ & _ & Hcc).
  specialize (Hcc ltac:(discriminate)).
  rewrite find_common_contacts_eq in Hcc.
  replace (1 <? length (targets_seen (r :: rs))) with false in Hcc
    by (symmetry; apply Nat.ltb_ge; exact Hone).
  pose proof (finished_run (r :: rs) a' processed g) as H.
  cbv zeta in H. rewrite Hcc in H. unfold run_callback.
  destruct H as (H1 & H2 & _ & H4 & H5 & H6 & H7 & H8 & H9 & H10 & H11 & _ & H13
                 & H14 & H15 & _ & H17).
  repeat split; assumption.
Qed.

(** X23: the target selector offers "All Target Numbers", selected,
    followed by the target numbers of the analytics, each once, in strictly
    increasing order of code points, whatever the order in which the set is
    visited; with no target number it offers nothing. *)
Theorem target_selector_values (a : Analytics) (g : gui) :
  (forall X, Permutation (set_iter X) (elements X)) ->
  analytics g = Some a ->
  let run := _update_target_selector set_iter g in
  run.2 = Return tt /\
  (target_numbers a = ∅ -> target_combo run.1 = [] /\ target_var run.1 = []) /\
  (target_numbers a <> ∅ ->
   exists targets,
     target_combo run.1 = py "All Target Numbers" :: targets /\
     target_var run.1 = py "All Target Numbers" /\
     targets = sorted_strs (elements (target_numbers a)) /\
     (forall t, In t targets <-> t ∈ target_numbers a) /\
     length targets = size (target_numbers a) /\
     StronglySorted (fun x y => lex_ltb x y = true) targets).
Proof.
  intros Hiter Ha run.
  destruct g as [rs an ct fr sv fl tl rl rt ft dt cm cf sg nd st tc tv eb er cb nb mb].
  simpl in Ha. subst an. subst run.
  cbv beta iota zeta delta
    [_update_target_selector modify fst snd all_records analytics
     current_target_number filtered_records status_var file_info_label
     target_label records_label records_tree frequent_tree day_tree
     common_tree stats_cards_frame stats_grid no_data_label summary_text
     target_combo target_var export_btn export_records_btn copy_btn
     notebook messagebox set_target_combo set_target_var].
  split; [reflexivity|]. split.
  - intros He. rewrite bool_decide_eq_true_2 by exact He. auto.
  - intros Hne. rewrite bool_decide_eq_false_2 by exact Hne.
    exists (sorted_strs (set_iter (target_numbers a))).
    split; [reflexivity|]. split; [reflexivity|].
    split; [apply sorted_strs_of_perm, Hiter|].
    split; [|split].
    + intros t. rewrite <- (set_iter_In set_iter Hiter).
      split; apply Permutation_in; [|symmetry]; apply sorted_strs_perm.
    + rewrite (Permutation_length (sorted_strs_perm _)).
      rewrite (Permutation_length (Hiter _)). reflexivity.
    + apply sorted_strs_strict, (set_iter_NoDup set_iter Hiter).
Qed.


(** X25: "Clear All" always returns; it empties the records, the records
    table and the target selector, disables the buttons and selects the
    overview tab, but the summary text, the overview statistics, the cards
    and the three analytics tables keep what they showed, and the "no
    analytics" label stays as it was. *)
Theorem clear_all_outcome (g : gui) :
  let run := _clear_all format_1f format_2f set_iter g in
  run.2 = Return tt /\
  all_records run.1 = [] /\ filtered_records run.1 = [] /\
  analytics run.1 = None /\ current_target_number run.1 = None /\
  records_tree run.1 = [] /\
  records_label run.1 = py "Showing 0 call records" /\
  target_combo run.1 = [] /\ target_var run.1 = [] /\
  export_btn run.1 = false /\ export_records_btn run.1 = false /\
  copy_btn run.1 = false /\ notebook run.1 = 0 /\
  status_var run.1 = py "Ready to process files" /\
  file_info_label run.1 = py "No files selected" /\
  summary_text run.1 = summary_text g /\
  stats_grid run.1 = stats_grid g /\
  stats_cards_frame run.1 = stats_cards_frame g /\
  frequent_tree run.1 = frequent_tree g /\ day_tree run.1 = day_tree g /\
  common_tree run.1 = common_tree g /\
  no_data_label run.1 = no_data_label g /\
  messagebox run.1 = messagebox g.
Proof.
  intros run.
  destruct g as [rs an ct fr sv fl tl rl rt ft dt cm cf sg nd st tc tv eb er cb nb mb].
  repeat split; reflexivity.
Qed.


(** X27: "Export to Excel" never raises and changes nothing but the dialogs
    shown, of which it adds at most one: a warning "No data to export"
    without records or analytics, nothing when the save dialog is
    cancelled, and otherwise "Success" when the export and [wb.save] return
    and "Export failed:" with the message of the exception when they do
    not.  With analytics that lack [common_contacts] the dialog is the
    error "Excel export failed: 'Analytics' object has no attribute
    'common_contacts'", whatever [wb.save] would do. *)
Theorem export_button_outcome (file_path : pystr) (g : gui) :
  let run := _export_to_excel strftime format_2f save file_path g in
  run.2 = Return tt /\
  (exists shown, length shown <= 1 /\
     run.1 = set_messagebox (messagebox g ++ shown) g) /\
  (all_records g = [] \/ analytics g = None ->
   messagebox run.1
   = messagebox g ++ [(showwarning, py "Warning", py "No data to export")]) /\
  (all_records g <> [] -> is_Some (analytics g) -> truthy file_path = false ->
   messagebox run.1 = messagebox g) /\
  (forall a,
     all_records g <> [] -> analytics g = Some a -> truthy file_path = true ->
     messagebox run.1 = messagebox g ++
       [match export_and_save strftime format_2f save (all_records g) a file_path with
        | Return _ =>
            (showinfo, py "Success",
             py "Successfully exported to:" ++ nl ++ file_path)
        | Raise e => (showerror, py "Error", py "Export failed:" ++ nl ++ exn_msg e)
        end]) /\
  (forall a,
     all_records g <> [] -> analytics g = Some a -> truthy file_path = true ->
     common_contacts a = None ->
     messagebox run.1 = messagebox g ++
       [(showerror, py "Error",
         py "Export failed:" ++ nl
         ++ py "Excel export failed: 'Analytics' object has no attribute 'common_contacts'")]).
Proof.
  intros run.
  destruct g as [rs an ct fr sv fl tl rl rt ft dt cm cf sg nd st tc tv eb er cb nb mb].
  subst run.
  cbv beta iota zeta delta
    [_export_to_excel modify add_message fst snd all_records analytics
     current_target_number filtered_records status_var file_info_label
     target_label records_label records_tree frequent_tree day_tree
     common_tree stats_cards_frame stats_grid no_data_label summary_text
     target_combo target_var export_btn export_records_btn copy_btn
     notebook messagebox set_messagebox].
  destruct rs as [|r rest]; [|destruct an as [a|]].
  - split; [reflexivity|]. split; [eexists [_]; split; [simpl; lia|reflexivity]|].
    split; [reflexivity|]. split; [intros Hr; congruence|].
    split; intros a Hr; congruence.
  - destruct (truthy file_path) eqn:T.
    + destruct (export_and_save strftime format_2f save (r :: rest) a file_path)
        as [u|e] eqn:Hx.
      * split; [reflexivity|].
        split; [eexists [_]; split; [simpl; lia|reflexivity]|].
        split; [intros [?|?]; discriminate|].
        split; [discriminate|].
        split; intros a' _ [= <-] _; [rewrite Hx; reflexivity|].
        intros Hcc. unfold export_and_save in Hx.
        rewrite (export_fails_without_common_contacts _ _ _ _ Hcc) in Hx.
        discriminate.
      * split; [reflexivity|].
        split; [eexists [_]; split; [simpl; lia|reflexivity]|].
        split; [intros [?|?]; discriminate|].
        split; [discriminate|].
        split; intros a' _ [= <-] _; [rewrite Hx; reflexivity|].
        intros Hcc. unfold export_and_save in Hx.
        rewrite (export_fails_without_common_contacts _ _ _ _ Hcc) in Hx.
        injection Hx as <-. reflexivity.
    + split; [reflexivity|].
      split; [exists []; split; [simpl; lia|rewrite app_nil_r; reflexivity]|].
      split; [intros [?|?]; discriminate|].
      split; [reflexivity|].
      split; intros a' _ _ ?; discriminate.
  - split; [reflexivity|]. split; [eexists [_]; split; [simpl; lia|reflexivity]|].
    split; [reflexivity|]. split; [intros _ [? ?]; discriminate|].
    split; intros a _ ?; discriminate.
Qed.
End WindowFacts.

(** *** Instances *)

Lemma single_target_batch_not_finished_witness :
  let parse := parse_file sample_files sample_int sample_fromisoformat
                 sample_strftime id in
  let records := records_of parse (py "one.xml") in
  let run :=
    run_callback sample_format_2f sample_format_2f id elements
      (_process_files_thread sample_files sample_int sample_fromisoformat
         sample_strftime id (map ascii_lower) elements [py "one.xml"])
      initial_window in
  run.2 = Raise no_common_contacts /\
  all_records run.1 = records /\
  analytics run.1 = Some (sample_analytics records) /\
  records_tree run.1 = map (record_values sample_format_2f) records /\
  status_var run.1
  = py "Successfully processed " ++ str_of_int (Z.of_nat (length records))
    ++ py " call records from "
    ++ str_of_int (Z.of_nat (length [py "one.xml"])) ++ py " files" /\
  export_btn run.1 = false /\ export_records_btn run.1 = false /\
  copy_btn run.1 = false /\ notebook run.1 = 0 /\
  no_data_label run.1 = true /\
  summary_text run.1 = [] /\ stats_grid run.1 = [] /\
  target_combo run.1 = [] /\ messagebox run.1 = [].
Proof.
  apply (single_target_batch_not_finished sample_files sample_int
           sample_fromisoformat sample_strftime id (map ascii_lower) elements
           sample_format_2f sample_format_2f [py "one.xml"]
           (records_of (parse_file sample_files sample_int sample_fromisoformat
                          sample_strftime id) (py "one.xml"))
           (sample_analytics
              (records_of (parse_file sample_files sample_int
                             sample_fromisoformat sample_strftime id)
                 (py "one.xml")))
           [py "one.xml"] initial_window).
  - vm_compute. reflexivity.
  - vm_compute. lia.
Defined.

Lemma target_selector_values_witness :
  let a := sample_analytics two_targets_sharing_one in
  let run := _update_target_selector elements
               (set_analytics (Some a) initial_window) in
  run.2 = Return tt /\
  (target_numbers a = ∅ -> target_combo run.1 = [] /\ target_var run.1 = []) /\
  (target_numbers a <> ∅ ->
   exists targets,
     target_combo run.1 = py "All Target Numbers" :: targets /\
     target_var run.1 = py "All Target Numbers" /\
     targets = sorted_strs (elements (target_numbers a)) /\
     (forall t, In t targets <-> t ∈ target_numbers a) /\
     length targets = size (target_numbers a) /\
     StronglySorted (fun x y => lex_ltb x y = true) targets).
Proof.
  apply (target_selector_values elements
           (sample_analytics two_targets_sharing_one)
           (set_analytics (Some (sample_analytics two_targets_sharing_one))
              initial_window)).
  - intros X. reflexivity.
  - reflexivity.
Defined.


